(** * eToro statement analysis: the trade aggregator and the equity reconciler

    A shallow embedding of [src/App.tsx]: the helpers [formatDate] and
    [parseDate], the function [computeStats] and the computational body of
    [handleFileUpload], with the properties the specification states about
    them.

    Modelling conventions.
    - A JavaScript number is an element of a type [num] carrying the
      operations of the class [JsNumber].  The program runs on the instance
      [FloatNumber]: IEEE 754 binary64 as Rocq's primitive floats, with the
      conversion from decimal literals rounded to nearest-even.
    - A JavaScript string is a [string]; each character stands for one code
      unit below 256.
    - A row produced by the sheet decoder is an association list from column
      names to cells; a cell is a string or a number; a column that is absent
      reads as [undefined], modelled by [None].
    - A plain object used as a dictionary is an [Obj.t]: the own properties in
      creation order, with [Obj.keys] listing array-index keys first as
      ECMAScript prescribes.  [Obj.get] reads own properties; the members
      inherited from [Object.prototype] are listed in [Proto], and the
      theorems about the program's maps are stated for keys that name none
      of them ([plain_days], [assignable]).
    - [Array.prototype.sort] is the stable insertion sort [sortBy]; a
      comparator result of [NaN] counts as [0].  A stable sort is determined
      by a comparator that is a preorder; for a comparator that returns
      [NaN] on some pairs the order depends on the engine, and the theorems
      promise an order only where every comparison is decided.
    - A call that spreads more arguments than the host accepts throws; the
      limit is the field [max_arguments] of [JsHost].
    - [Date] parsing and [localeCompare] belong to the host and are the fields
      of the class [JsHost]; [ReferenceHost] is a host for the date formats
      the program produces.
    - [IntNumber] is a second instance of [JsNumber], with exact arithmetic;
      it has the laws of [ExactAddition], under which sums of the same
      numbers are equal whatever the order and the grouping.  Binary64 does
      not have them, and nothing about the program rests on them.
    - An exception inside the [try] block of [handleFileUpload] is [None]. *)

From Stdlib Require Import List String Ascii Bool Arith ZArith NArith Lia.
From Stdlib Require Import Permutation Sorted DecimalString.
From Stdlib Require Import Floats.
Import ListNotations.

Set Implicit Arguments.

(* ================================================================== *)
(** * Strings *)

Module Str.

(** [s.split(sep)] for a one-character separator: never the empty list. *)
Fixpoint split (sep : ascii) (s : string) : list string :=
  match s with
  | EmptyString => [EmptyString]
  | String c s' =>
      if Ascii.eqb c sep then EmptyString :: split sep s'
      else match split sep s' with
           | [] => [String c EmptyString]
           | h :: t => String c h :: t
           end
  end.

(** [s.slice(0, n)]. *)
Fixpoint take (n : nat) (s : string) : string :=
  match n, s with
  | S n', String c s' => String c (take n' s')
  | _, _ => EmptyString
  end.

Definition is_empty (s : string) : bool :=
  match s with EmptyString => true | _ => false end.

(** Longest prefix whose characters satisfy [p], and the rest. *)
Fixpoint span (p : ascii -> bool) (s : string) : string * string :=
  match s with
  | EmptyString => (EmptyString, EmptyString)
  | String c s' =>
      if p c then let (a, b) := span p s' in (String c a, b)
      else (EmptyString, s)
  end.

Fixpoint rev_onto (s acc : string) : string :=
  match s with
  | EmptyString => acc
  | String c s' => rev_onto s' (String c acc)
  end.

Definition rev (s : string) : string := rev_onto s EmptyString.

Fixpoint drop_while (p : ascii -> bool) (s : string) : string :=
  match s with
  | EmptyString => EmptyString
  | String c s' => if p c then drop_while p s' else s
  end.

Fixpoint all (p : ascii -> bool) (s : string) : bool :=
  match s with
  | EmptyString => true
  | String c s' => p c && all p s'
  end.

(** The white space and line terminator code units below 256:
    TAB, LF, VT, FF, CR, SP and NBSP. *)
Definition is_space (c : ascii) : bool :=
  let n := nat_of_ascii c in
  ((9 <=? n) && (n <=? 13)) || (n =? 32) || (n =? 160).

Definition trim (s : string) : string :=
  rev (drop_while is_space (rev (drop_while is_space s))).

(** Ordering of strings by code units: the default order of
    [Array.prototype.sort]. *)
Fixpoint compare (a b : string) : comparison :=
  match a, b with
  | EmptyString, EmptyString => Eq
  | EmptyString, String _ _ => Lt
  | String _ _, EmptyString => Gt
  | String x a', String y b' =>
      match Nat.compare (nat_of_ascii x) (nat_of_ascii y) with
      | Eq => compare a' b'
      | c => c
      end
  end.

Definition is_digit (c : ascii) : bool :=
  let n := nat_of_ascii c in (48 <=? n) && (n <=? 57).

(** Value of a digit in a base up to 16; [None] when out of the base. *)
Definition digit_in (base : N) (c : ascii) : option N :=
  let n := N_of_ascii c in
  let v := if ((48 <=? n) && (n <=? 57))%N then Some (n - 48)%N
           else if ((97 <=? n) && (n <=? 102))%N then Some (n - 87)%N
           else if ((65 <=? n) && (n <=? 70))%N then Some (n - 55)%N
           else None in
  match v with
  | Some d => if (d <? base)%N then Some d else None
  | None => None
  end.

(** Value of a non-empty string of digits of [base], most significant
    first. *)
Fixpoint digits_from (base acc : N) (s : string) : option N :=
  match s with
  | EmptyString => Some acc
  | String c s' =>
      match digit_in base c with
      | Some d => digits_from base (acc * base + d)%N s'
      | None => None
      end
  end.

Definition digits (base : N) (s : string) : option N :=
  if is_empty s then None else digits_from base 0%N s.

Definition of_N (n : N) : string := NilEmpty.string_of_uint (N.to_uint n).
End Str.

(* ================================================================== *)
(** * Arrays: [Array.prototype.sort] *)

Section Sort.
Variable A : Type.
(** The sign of the number a comparator returns; [NaN] and [0] are [Eq]. *)
Variable cmp : A -> A -> comparison.

Fixpoint insertBy (x : A) (l : list A) : list A :=
  match l with
  | [] => [x]
  | y :: l' =>
      match cmp x y with
      | Gt => y :: insertBy x l'
      | _ => x :: l
      end
  end.

(** Stable: of two elements the comparator does not separate, the one that
    came first stays first.  For a comparator that is a preorder this is the
    result of every stable sort, the host's among them; for another
    comparator it is one of the orders a host may give. *)
Fixpoint sortBy (l : list A) : list A :=
  match l with
  | [] => []
  | x :: l' => insertBy x (sortBy l')
  end.

(** Two neighbours of a sorted array: the comparator does not put the right
    one first. *)
Definition in_order (a b : A) : Prop := cmp a b <> Gt \/ cmp b a = Gt.
End Sort.

(* ================================================================== *)
(** * Plain objects used as dictionaries *)

Module Obj.

(** Own properties in creation order; the keys are pairwise distinct. *)
Definition t (V : Type) : Type := list (string * V).

Definition empty {V : Type} : t V := [].

(** The own property [k] of [o]; [None] when [o] has none.  On a key that
    is an own property, or that names no member of [Object.prototype], this
    is [o[k]] with [None] for [undefined]; [Proto.lookup] is [o[k]] on
    every key. *)
Fixpoint get {V : Type} (k : string) (o : t V) : option V :=
  match o with
  | [] => None
  | (k', v) :: o' => if String.eqb k k' then Some v else get k o'
  end.

(** [o[k] = v] for a key other than [__proto__], which no assignment
    creates: an existing property keeps its place. *)
Fixpoint set {V : Type} (k : string) (v : V) (o : t V) : t V :=
  match o with
  | [] => [(k, v)]
  | (k', v') :: o' =>
      if String.eqb k k' then (k', v) :: o' else (k', v') :: set k v o'
  end.

(** A key is an array index when it is the canonical decimal text of an
    integer below 2^32 - 1. *)
Definition array_index (k : string) : option N :=
  match Str.digits 10 k with
  | Some n =>
      if String.eqb (Str.of_N n) k && (n <? 4294967295)%N then Some n
      else None
  | None => None
  end.

Definition index_keys {V : Type} (o : t V) : list (N * string) :=
  flat_map (fun kv => match array_index (fst kv) with
                      | Some n => [(n, fst kv)]
                      | None => []
                      end) o.

Definition name_keys {V : Type} (o : t V) : list string :=
  filter (fun k => match array_index k with Some _ => false | None => true end)
         (map fst o).

(** [Object.keys(o)]: array indices in ascending numeric order, then the
    other keys in creation order. *)
Definition keys {V : Type} (o : t V) : list string :=
  map snd (sortBy (fun a b => N.compare (fst a) (fst b)) (index_keys o))
  ++ name_keys o.
End Obj.

(* ================================================================== *)
(** * Numbers *)

(** The operations the program performs on numbers. *)
Class JsNumber (num : Type) : Type := {
  (** [of_decimal s m e]: the number nearest to [(-1)^s * m * 10^e]; the
      value of a decimal literal. *)
  of_decimal : bool -> N -> Z -> num;
  nan : num;
  infinity : num;
  neg_infinity : num;
  num_add : num -> num -> num;
  num_sub : num -> num -> num;
  num_mul : num -> num -> num;
  num_div : num -> num -> num;
  num_sqrt : num -> num;
  (** One step of [Math.max]: the running maximum and the next argument. *)
  max2 : num -> num -> num;
  (** One step of [Math.min]. *)
  min2 : num -> num -> num;
  num_ltb : num -> num -> bool;
  (** [x === y] on numbers. *)
  num_eqb : num -> num -> bool;
  is_nan : num -> bool;
  (** [x.toString()]. *)
  to_string : num -> string
}.

Declare Scope js_scope.
Delimit Scope js_scope with js.
Infix "+" := num_add : js_scope.
Infix "-" := num_sub : js_scope.
Infix "*" := num_mul : js_scope.
Infix "/" := num_div : js_scope.
Infix "<?" := num_ltb : js_scope.
Infix "=?" := num_eqb : js_scope.

Section Numbers.
Context {num : Type} `{JsNumber num}.

Definition of_nat (n : nat) : num := of_decimal false (N.of_nat n) 0.
Definition zero : num := of_nat 0.

(** [x > y]. *)
Definition num_gtb (x y : num) : bool := (y <? x)%js.

(** [x !== y] on numbers. *)
Definition num_neqb (x y : num) : bool := negb (x =? y)%js.

(** Truthiness of a number: [0], [-0] and [NaN] are falsy. *)
Definition num_truthy (x : num) : bool :=
  negb ((x =? zero)%js || is_nan x).

(** [x || 0] on a number. *)
Definition or_zero (x : num) : num := if num_truthy x then x else zero.

(** The sign of a comparator's result; [NaN] counts as [0]. *)
Definition sign_of (v : num) : comparison :=
  if (v <? zero)%js then Lt else if (zero <? v)%js then Gt else Eq.

(** [Math.pow(x, 2)]. *)
Definition pow2 (x : num) : num := (x * x)%js.

(** [l.reduce((acc, val) => acc + val, 0)]. *)
Definition sum (l : list num) : num := fold_left num_add l zero.

(** What [Math.max(...l)] and [Math.min(...l)] return; they return when
    [l] is no longer than the host can spread, see [spreads]. *)
Definition math_max (l : list num) : num := fold_left max2 l neg_infinity.
Definition math_min (l : list num) : num := fold_left min2 l infinity.

(** ** [Number(s)] on a string *)

Definition is_exp_mark (c : ascii) : bool :=
  Ascii.eqb c "e"%char || Ascii.eqb c "E"%char.

(** An unsigned decimal literal other than [Infinity]: its digits read as
    an integer, and the power of ten that scales it. *)
Definition unsigned_decimal (s : string) : option (N * Z) :=
  let (ip, r1) := Str.span Str.is_digit s in
  let '(fp, r2) :=
    match r1 with
    | String "."%char r => Str.span Str.is_digit r
    | _ => (EmptyString, r1)
    end in
  if Str.is_empty ip && Str.is_empty fp then None
  else
    match Str.digits_from 10 0 (ip ++ fp) with
    | None => None
    | Some m =>
        let scale := (- Z.of_nat (String.length fp))%Z in
        match r2 with
        | EmptyString => Some (m, scale)
        | String c r3 =>
            if is_exp_mark c then
              let '(neg, r4) :=
                match r3 with
                | String "+"%char r => (false, r)
                | String "-"%char r => (true, r)
                | _ => (false, r3)
                end in
              match Str.digits 10 r4 with
              | Some e =>
                  Some (m, ((if neg then - Z.of_N e else Z.of_N e) + scale)%Z)
              | None => None
              end
            else None
        end
    end.

Definition signed_decimal (s : string) : num :=
  let '(neg, u) :=
    match s with
    | String "+"%char r => (false, r)
    | String "-"%char r => (true, r)
    | _ => (false, s)
    end in
  if String.eqb u "Infinity" then (if neg then neg_infinity else infinity)
  else match unsigned_decimal u with
       | Some (m, e) => of_decimal neg m e
       | None => nan
       end.

(** The base of a literal that starts with [0x], [0o] or [0b]. *)
Definition radix_of (c : ascii) : option N :=
  if Ascii.eqb c "x"%char || Ascii.eqb c "X"%char then Some 16%N
  else if Ascii.eqb c "o"%char || Ascii.eqb c "O"%char then Some 8%N
  else if Ascii.eqb c "b"%char || Ascii.eqb c "B"%char then Some 2%N
  else None.

Definition string_to_number (s : string) : num :=
  let t := Str.trim s in
  match t with
  | EmptyString => zero
  | String "0"%char (String c r) =>
      match radix_of c with
      | Some base =>
          match Str.digits base r with
          | Some n => of_decimal false n 0
          | None => nan
          end
      | None => signed_decimal t
      end
  | _ => signed_decimal t
  end.
End Numbers.

(* ================================================================== *)
(** * The numbers of the program: IEEE 754 binary64 *)

Module Float64.
Local Open Scope string_scope.

(** The float nearest to [(-1)^s * m * 10^e], ties to even. *)
Definition of_decimal (s : bool) (m : N) (e : Z) : float :=
  match m with
  | N0 => if s then PrimFloat.neg_zero else PrimFloat.zero
  | Npos p =>
      SF2Prim
        match e with
        | Z0 => binary_round prec emax s p 0
        | Zpos d => binary_round prec emax s (p * Pos.pow 10 d) 0
        | Zneg d =>
            SFdiv prec emax (S754_finite s p 0)
                  (S754_finite false (Pos.pow 10 d) 0)
        end
  end.

(** [Math.max]: [NaN] wins, then the larger, and [+0] over [-0]. *)
Definition max2 (hi x : float) : float :=
  if PrimFloat.is_nan hi || PrimFloat.is_nan x then PrimFloat.nan
  else if PrimFloat.ltb hi x then x
  else if PrimFloat.is_zero hi && PrimFloat.is_zero x
          && PrimFloat.get_sign hi && negb (PrimFloat.get_sign x) then x
  else hi.

(** [Math.min]: [NaN] wins, then the smaller, and [-0] over [+0]. *)
Definition min2 (lo x : float) : float :=
  if PrimFloat.is_nan lo || PrimFloat.is_nan x then PrimFloat.nan
  else if PrimFloat.ltb x lo then x
  else if PrimFloat.is_zero lo && PrimFloat.is_zero x
          && negb (PrimFloat.get_sign lo) && PrimFloat.get_sign x then x
  else lo.

(** ** [Number.prototype.toString] in base ten *)

(** The value [m * 2^e] of a finite float as a fraction. *)
Definition fraction (m : positive) (e : Z) : positive * positive :=
  match e with
  | Z0 => (m, 1%positive)
  | Zpos d => ((m * Pos.pow 2 d)%positive, 1%positive)
  | Zneg d => (m, Pos.pow 2 d)
  end.

(** The fraction [p / q] divided by [10^t]. *)
Definition scaled (p q : positive) (t : Z) : Z * Z :=
  match t with
  | Z0 => (Zpos p, Zpos q)
  | Zpos d => (Zpos p, Zpos (q * Pos.pow 10 d))
  | Zneg d => (Zpos (p * Pos.pow 10 d), Zpos q)
  end.

(** [p / q < 10^n]. *)
Definition below (p q : positive) (n : Z) : bool :=
  let (a, b) := scaled p q n in (a <? b)%Z.

Fixpoint magnitude_from (fuel : nat) (p q : positive) (n : Z) : Z :=
  match fuel with
  | O => n
  | S f =>
      if below p q n then
        if below p q (n - 1) then magnitude_from f p q (n - 1) else n
      else magnitude_from f p q (n + 1)
  end.

(** The [n] with [10^(n-1) <= p / q < 10^n], found from an estimate by the
    binary logarithms. *)
Definition magnitude (p q : positive) : Z :=
  magnitude_from 8 p q
    ((Z.log2 (Zpos p) - Z.log2 (Zpos q)) * 30103 / 100000 + 1)%Z.

(** The shortest digit string [s], of [k] digits or more, and the [n] such
    that [s * 10^(n - k)] reads back as [x]; of two such strings of equal
    length the one nearer to [x]. *)
Fixpoint shortest (fuel : nat) (x : float) (p q : positive) (n0 k : Z)
  : Z * Z :=
  let t := (n0 - k)%Z in
  let (a, b) := scaled p q t in
  let lo := (a / b)%Z in
  let r := (a mod b)%Z in
  let hi := (lo + 1)%Z in
  let ok c := PrimFloat.eqb (of_decimal false (Z.to_N c) t) x in
  let pick :=
    if (r =? 0)%Z then (if ok lo then Some lo else None)
    else match ok lo, ok hi with
         | true, true =>
             Some match (2 * r ?= b)%Z with
                  | Lt => lo
                  | Gt => hi
                  | Eq => if Z.even lo then lo else hi
                  end
         | true, false => Some lo
         | false, true => Some hi
         | false, false => None
         end in
  match pick with
  | Some c => if (c =? 10 ^ k)%Z then (10 ^ (k - 1), n0 + 1)%Z else (c, n0)
  | None =>
      match fuel with
      | O => (lo, n0)
      | S f => shortest f x p q n0 (k + 1)
      end
  end.

Fixpoint zeros (n : nat) : string :=
  match n with O => "" | S n' => String "0" (zeros n') end.

Fixpoint drop (n : nat) (s : string) : string :=
  match n, s with
  | S n', String _ s' => drop n' s'
  | _, _ => s
  end.

(** The text of [0.ds * 10^n] for a digit string [ds]. *)
Definition format (ds : string) (n : Z) : string :=
  let k := Z.of_nat (String.length ds) in
  if ((k <=? n) && (n <=? 21))%Z then ds ++ zeros (Z.to_nat (n - k))
  else if ((0 <? n) && (n <=? 21))%Z then
    Str.take (Z.to_nat n) ds ++ "." ++ drop (Z.to_nat n) ds
  else if ((-6 <? n) && (n <=? 0))%Z then "0." ++ zeros (Z.to_nat (- n)) ++ ds
  else
    let e := (n - 1)%Z in
    let es := (if (e <? 0)%Z then "-" else "+") ++ Str.of_N (Z.abs_N e) in
    match ds with
    | EmptyString => ""
    | String d EmptyString => String d ("e" ++ es)
    | String d rest => String d ("." ++ rest ++ "e" ++ es)
    end.

Definition to_string (x : float) : string :=
  match Prim2SF x with
  | S754_nan => "NaN"
  | S754_zero _ => "0"
  | S754_infinity s => if s then "-Infinity" else "Infinity"
  | S754_finite s m e =>
      let (p, q) := fraction m e in
      let (d, n) := shortest 17 (PrimFloat.abs x) p q (magnitude p q) 1 in
      (if s then "-" else "") ++ format (Str.of_N (Z.to_N d)) n
  end.
End Float64.

#[export] Instance FloatNumber : JsNumber float := {|
  of_decimal := Float64.of_decimal;
  nan := PrimFloat.nan;
  infinity := PrimFloat.infinity;
  neg_infinity := PrimFloat.neg_infinity;
  num_add := PrimFloat.add;
  num_sub := PrimFloat.sub;
  num_mul := PrimFloat.mul;
  num_div := PrimFloat.div;
  num_sqrt := PrimFloat.sqrt;
  max2 := Float64.max2;
  min2 := Float64.min2;
  num_ltb := PrimFloat.ltb;
  num_eqb := PrimFloat.eqb;
  is_nan := PrimFloat.is_nan;
  to_string := Float64.to_string
|}.

(* ================================================================== *)
(** * The host: dates and collation *)

Class JsHost : Type := {
  (** [new Date(s).getTime()]; [None] is [NaN], the time of an invalid
      date. *)
  date_time : string -> option Z;
  (** The sign of [a.localeCompare(b)]. *)
  locale_compare : string -> string -> comparison;
  (** The largest number of arguments that a call can spread; a call with
      more throws [RangeError]. *)
  max_arguments : N
}.

(** A host that reads the two formats the program writes, [YYYY-MM-DD] and
    [YYYY-MM-DD HH:MM:SS], with two digits for month, day, hour, minute and
    second, in a time zone without offset; that collates by code units; and
    that spreads up to 65535 arguments.  Engines read more date formats,
    collate by locale and have other limits: the general theorems hold for
    every host, and this one serves the scenarios. *)
Module RefHost.
Local Open Scope Z_scope.

(** A string of exactly [n] decimal digits. *)
Definition fixed_width (n : nat) (s : string) : option Z :=
  if (String.length s =? n)%nat then option_map Z.of_N (Str.digits 10 s)
  else None.

Definition in_range (lo hi : Z) (o : option Z) : option Z :=
  match o with
  | Some v => if (lo <=? v) && (v <=? hi) then Some v else None
  | None => None
  end.

(** Days from 1970-01-01 to the given day of the proleptic Gregorian
    calendar. *)
Definition days_from_civil (y m d : Z) : Z :=
  let y' := if m <=? 2 then y - 1 else y in
  let era := y' / 400 in
  let yoe := y' - era * 400 in
  let doy := (153 * (if 2 <? m then m - 3 else m + 9) + 2) / 5 + d - 1 in
  let doe := yoe * 365 + yoe / 4 - yoe / 100 + doy in
  era * 146097 + doe - 719468.

Definition day_of (s : string) : option Z :=
  match Str.split "-" s with
  | [y; m; d] =>
      match fixed_width 4 y, in_range 1 12 (fixed_width 2 m),
            in_range 1 31 (fixed_width 2 d) with
      | Some y, Some m, Some d => Some (days_from_civil y m d)
      | _, _, _ => None
      end
  | _ => None
  end.

Definition seconds_of (s : string) : option Z :=
  match Str.split ":" s with
  | [h; m; sec] =>
      match in_range 0 23 (fixed_width 2 h), in_range 0 59 (fixed_width 2 m),
            in_range 0 59 (fixed_width 2 sec) with
      | Some h, Some m, Some sec => Some ((h * 60 + m) * 60 + sec)
      | _, _, _ => None
      end
  | _ => None
  end.

Definition date_time (s : string) : option Z :=
  match Str.split " " s with
  | [d] => option_map (fun days => days * 86400000) (day_of d)
  | [d; t] =>
      match day_of d, seconds_of t with
      | Some days, Some secs => Some (days * 86400000 + secs * 1000)
      | _, _ => None
      end
  | _ => None
  end.
End RefHost.

#[export] Instance ReferenceHost : JsHost := {|
  date_time := RefHost.date_time;
  locale_compare := Str.compare;
  max_arguments := 65535
|}.

(* ================================================================== *)
(** * The data model *)

(** A cell of a decoded sheet. *)
Inductive value (num : Type) : Type :=
| VStr (s : string)
| VNum (x : num).
Arguments VStr {num} s.
Arguments VNum {num} x.

(** A row: column names to cells. *)
Definition row (num : Type) : Type := Obj.t (value num).

Module DailyData.
Record t (num : Type) : Type := mk {
  date : string;
  profit : num;
  cumulativeProfit : num;
  balance : num;
  dailyPercentChange : num
}.
Arguments date {num} _.
Arguments profit {num} _.
Arguments cumulativeProfit {num} _.
Arguments balance {num} _.
Arguments dailyPercentChange {num} _.
End DailyData.

Module MonthlyData.
Record t (num : Type) : Type := mk {
  month : string;
  profit : num;
  cumulativeProfit : num;
  balance : num;
  monthlyPercentChange : num
}.
Arguments month {num} _.
Arguments profit {num} _.
Arguments cumulativeProfit {num} _.
Arguments balance {num} _.
Arguments monthlyPercentChange {num} _.
End MonthlyData.

Module RealizedEquityData.
Record t (num : Type) : Type := mk {
  date : string;
  realizedEquity : num
}.
Arguments date {num} _.
Arguments realizedEquity {num} _.
End RealizedEquityData.

Record Stats (num : Type) : Type := mkStats {
  totalTrades : nat;
  profitableTrades : nat;
  lossTrades : nat;
  breakEvenTrades : nat;
  winRate : num;
  totalProfit : num;
  maxProfit : num;
  minProfit : num;
  avgProfit : num;
  medianProfit : num;
  stdDev : num;
  averageDailyProfit : num;
  projectedAnnualIncome : num;
  dailyData : list (DailyData.t num);
  monthlyData : list (MonthlyData.t num);
  realizedEquityData : list (RealizedEquityData.t num)
}.
Arguments totalTrades {num} _.
Arguments profitableTrades {num} _.
Arguments lossTrades {num} _.
Arguments breakEvenTrades {num} _.
Arguments winRate {num} _.
Arguments totalProfit {num} _.
Arguments maxProfit {num} _.
Arguments minProfit {num} _.
Arguments avgProfit {num} _.
Arguments medianProfit {num} _.
Arguments stdDev {num} _.
Arguments averageDailyProfit {num} _.
Arguments projectedAnnualIncome {num} _.
Arguments dailyData {num} _.
Arguments monthlyData {num} _.
Arguments realizedEquityData {num} _.

(* ================================================================== *)
(** * The program *)

Section Program.
Context {num : Type} {NUM : JsNumber num} {HOST : JsHost}.
Local Open Scope string_scope.

(** ** Cells *)

(** [Number(v)]. *)
Definition to_number (v : option (value num)) : num :=
  match v with
  | None => nan
  | Some (VNum x) => x
  | Some (VStr s) => string_to_number s
  end.

(** Truthiness of a cell. *)
Definition truthy (v : option (value num)) : bool :=
  match v with
  | None => false
  | Some (VStr s) => negb (Str.is_empty s)
  | Some (VNum x) => num_truthy x
  end.

(** [v !== '']. *)
Definition is_not_empty_string (v : option (value num)) : bool :=
  match v with
  | Some (VStr s) => negb (Str.is_empty s)
  | _ => true
  end.

(** [v.toString()]. *)
Definition value_to_string (v : value num) : string :=
  match v with
  | VStr s => s
  | VNum x => to_string x
  end.

(** An absent property read as a number. *)
Definition lookup (k : string) (o : Obj.t num) : num :=
  match Obj.get k o with
  | Some x => x
  | None => nan
  end.

(** ** Dates *)

(** The day, month and year of [DD/MM/YYYY] put in the order
    [YYYY-MM-DD]; [other] when there are not three parts. *)
Definition reorder (dateParts : list string) (other : string) : string :=
  match dateParts with
  | [d; m; y] => y ++ "-" ++ m ++ "-" ++ d
  | _ => other
  end.

Definition formatDate (rawDate : string) : string :=
  let parts := Str.split " " rawDate in
  reorder (Str.split "/" (hd "" parts)) rawDate.

(** An element of an array inside a template literal. *)
Definition interpolate (o : option string) : string :=
  match o with
  | Some s => s
  | None => "undefined"
  end.

(** [parseDate(rawDate).getTime()]. *)
Definition parseDate (rawDate : string) : option Z :=
  let parts := Str.split " " rawDate in
  let dateParts := Str.split "/" (hd "" parts) in
  let timePart :=
    match nth_error parts 1 with
    | Some t => if Str.is_empty t then "00:00:00" else t
    | None => "00:00:00"
    end in
  date_time (interpolate (nth_error dateParts 2) ++ "-"
             ++ interpolate (nth_error dateParts 1) ++ "-"
             ++ interpolate (nth_error dateParts 0) ++ " " ++ timePart).

(** The sign of [ta - tb] for two times. *)
Definition compare_times (ta tb : option Z) : comparison :=
  match ta, tb with
  | Some a, Some b => Z.compare a b
  | _, _ => Eq
  end.

(** The comparator
    [(a, b) => new Date(a).getTime() - new Date(b).getTime()]. *)
Definition by_date (a b : string) : comparison :=
  compare_times (date_time a) (date_time b).

(** ** [computeStats] *)

Definition profit_of (trade : row num) : num :=
  to_number (Obj.get "Profit(USD)" trade).

Definition is_valid (trade : row num) : bool :=
  is_not_empty_string (Obj.get "Profit(USD)" trade)
  && negb (is_nan (profit_of trade)).

Definition validTrades (trades : list (row num)) : list (row num) :=
  filter is_valid trades.

Definition profitArray (trades : list (row num)) : list num :=
  map profit_of (validTrades trades).

Definition hundred : num := of_nat 100.

(** A conditional guarded by [n > 0]. *)
Definition if_positive (n : nat) (x : num) : num :=
  match n with O => zero | S _ => x end.

Definition sortedProfit (trades : list (row num)) : list num :=
  sortBy (fun a b => sign_of (a - b)%js) (profitArray trades).

Definition median (sorted : list num) : num :=
  let n := List.length sorted in
  let mid := Nat.div n 2 in
  if_positive n
    (if Nat.even n
     then ((nth (mid - 1) sorted nan + nth mid sorted nan) / of_nat 2)%js
     else nth mid sorted nan).

Definition variance (profits : list num) (avg : num) : num :=
  let n := List.length profits in
  if_positive n
    (fold_left (fun acc val => (acc + pow2 (val - avg))%js) profits zero
     / of_nat n)%js.

(** The text of the close day; empty when the cell is falsy. *)
Definition dateStr (trade : row num) : string :=
  match Obj.get "Close Date" trade with
  | Some v =>
      if truthy (Some v) then
        let parts := Str.split " " (value_to_string v) in
        reorder (Str.split "/" (hd "" parts)) (hd "" parts)
      else ""
  | None => ""
  end.

(** [m[key] = (m[key] || 0) + p], for a key that is an own property or
    names no member of [Object.prototype]; see [plain_days]. *)
Definition accumulate (m : Obj.t num) (key : string) (p : num) : Obj.t num :=
  Obj.set key
    ((match Obj.get key m with Some x => or_zero x | None => zero end) + p)%js
    m.

Definition dailyProfitMap (trades : list (row num)) : Obj.t num :=
  fold_left
    (fun m trade =>
       let d := dateStr trade in
       if Str.is_empty d then m else accumulate m d (profit_of trade))
    (validTrades trades) Obj.empty.

(** [Object.values(o)]. *)
Definition values (o : Obj.t num) : list num :=
  map (fun k => lookup k o) (Obj.keys o).

(** The percent change of a period: [profit / previous * 100], zero when
    the previous balance is zero. *)
Definition percent_of (profit previousBalance : num) : num :=
  if num_neqb previousBalance zero
  then (profit / previousBalance * hundred)%js
  else zero.

(** The buckets before the walk, in the order of
    [Object.keys(dailyProfitMap)]. *)
Definition dailyBuckets (m : Obj.t num) : list (DailyData.t num) :=
  map (fun d => DailyData.mk d (lookup d m) zero zero zero) (Obj.keys m).

Definition sortedDailyBuckets (m : Obj.t num) : list (DailyData.t num) :=
  sortBy (fun a b => by_date (DailyData.date a) (DailyData.date b))
         (dailyBuckets m).

(** The loop over the sorted buckets, with the variables [cumulative] and
    [previousBalance] as arguments. *)
Fixpoint dailyWalk (initialBalance cumulative previousBalance : num)
         (items : list (DailyData.t num)) : list (DailyData.t num) :=
  match items with
  | [] => []
  | item :: rest =>
      let cumulative' := (cumulative + DailyData.profit item)%js in
      let balance := (initialBalance + cumulative')%js in
      DailyData.mk (DailyData.date item) (DailyData.profit item)
                   cumulative' balance
                   (percent_of (DailyData.profit item) previousBalance)
      :: dailyWalk initialBalance cumulative' balance rest
  end.

Definition dailyDataOf (trades : list (row num)) (initialBalance : num)
  : list (DailyData.t num) :=
  dailyWalk initialBalance zero initialBalance
            (sortedDailyBuckets (dailyProfitMap trades)).

Definition monthlyProfitMap (daily : list (DailyData.t num)) : Obj.t num :=
  fold_left
    (fun m item =>
       accumulate m (Str.take 7 (DailyData.date item)) (DailyData.profit item))
    daily Obj.empty.

Definition monthlyDataArray (m : Obj.t num) : list (string * num) :=
  sortBy (fun a b => locale_compare (fst a) (fst b))
         (map (fun month => (month, lookup month m)) (Obj.keys m)).

Fixpoint monthlyWalk (initialBalance monthlyCumulative prevMonthlyBalance : num)
         (items : list (string * num)) : list (MonthlyData.t num) :=
  match items with
  | [] => []
  | item :: rest =>
      let monthlyCumulative' := (monthlyCumulative + snd item)%js in
      let balance := (initialBalance + monthlyCumulative')%js in
      MonthlyData.mk (fst item) (snd item) monthlyCumulative' balance
                     (percent_of (snd item) prevMonthlyBalance)
      :: monthlyWalk initialBalance monthlyCumulative' balance rest
  end.

Definition monthlyDataOf (trades : list (row num)) (initialBalance : num)
  : list (MonthlyData.t num) :=
  monthlyWalk initialBalance zero initialBalance
    (monthlyDataArray (monthlyProfitMap (dailyDataOf trades initialBalance))).

(** The record [computeStats] returns.  It returns when the two spread
    calls are within the host's limit, see [spreads]; [handleFileUpload]
    accounts for the other case. *)
Definition computeStats (trades : list (row num)) (initialBalance : num)
  : Stats num :=
  let profits := profitArray trades in
  let totalTrades := List.length (validTrades trades) in
  let profitableTrades := List.length (filter (fun p => num_gtb p zero) profits) in
  let totalProfit := sum profits in
  let avgProfit :=
    if_positive totalTrades (totalProfit / of_nat totalTrades)%js in
  let dailyProfits := values (dailyProfitMap trades) in
  let averageDailyProfit :=
    if_positive (List.length dailyProfits)
                (sum dailyProfits / of_nat (List.length dailyProfits))%js in
  {| totalTrades := totalTrades;
     profitableTrades := profitableTrades;
     lossTrades := List.length (filter (fun p => p <? zero)%js profits);
     breakEvenTrades := List.length (filter (fun p => p =? zero)%js profits);
     winRate :=
       if_positive totalTrades
         (of_nat profitableTrades / of_nat totalTrades * hundred)%js;
     totalProfit := totalProfit;
     maxProfit := math_max profits;
     minProfit := math_min profits;
     avgProfit := avgProfit;
     medianProfit := median (sortedProfit trades);
     stdDev := num_sqrt (variance profits avgProfit);
     averageDailyProfit := averageDailyProfit;
     projectedAnnualIncome := (averageDailyProfit * of_nat 365)%js;
     dailyData := dailyDataOf trades initialBalance;
     monthlyData := monthlyDataOf trades initialBalance;
     realizedEquityData := [] |}.

(** ** The body of [handleFileUpload] *)

(** The [Date] cell of an activity row when it is a string; on anything
    else [rawDate.split] throws, in [parseDate] as in [formatDate]. *)
Definition date_of (r : row num) : option string :=
  match Obj.get "Date" r with
  | Some (VStr s) => Some s
  | _ => None
  end.

Definition time_of (r : row num) : option Z :=
  match date_of r with
  | Some s => parseDate s
  | None => None
  end.

Definition sortedActivity (activityData : list (row num)) : list (row num) :=
  sortBy (fun a b => compare_times (time_of a) (time_of b)) activityData.

Definition initialBalanceOf (sorted : list (row num)) : num :=
  match sorted with
  | [] => zero
  | first :: _ =>
      if truthy (Obj.get "Balance" first)
      then to_number (Obj.get "Balance" first)
      else zero
  end.

(** [sortedActivity.map(row => ...)]; [None] when [formatDate] throws on
    some row. *)
Fixpoint realizedEquityDataOf (sorted : list (row num))
  : option (list (RealizedEquityData.t num)) :=
  match sorted with
  | [] => Some []
  | r :: rest =>
      match date_of r, realizedEquityDataOf rest with
      | Some rawDate, Some points =>
          Some (RealizedEquityData.mk
                  (formatDate rawDate)
                  (or_zero (to_number (Obj.get "Realized Equity" r)))
                :: points)
      | _, _ => None
      end
  end.

Definition dailyRealizedMap (equity : list (RealizedEquityData.t num))
  : Obj.t num :=
  fold_left
    (fun m r => Obj.set (RealizedEquityData.date r)
                        (RealizedEquityData.realizedEquity r) m)
    equity Obj.empty.

Definition sortedDates (equity : list (RealizedEquityData.t num))
  : list string :=
  sortBy by_date (Obj.keys (dailyRealizedMap equity)).

(** The change from [prev] to [curr] in percent; zero from zero. *)
Definition change (prev curr : num) : num :=
  if num_neqb prev zero then ((curr - prev) / prev * hundred)%js else zero.

(** The loop [for (let i = 0; i < keys.length; i++)] from [i = 1] on;
    [prev] is [keys[i - 1]]. *)
Fixpoint percentLoop (levels : Obj.t num) (prev : string)
         (keys : list string) (acc : Obj.t num) : Obj.t num :=
  match keys with
  | [] => acc
  | k :: rest =>
      percentLoop levels k rest
        (Obj.set k (change (lookup prev levels) (lookup k levels)) acc)
  end.

(** The whole loop: the first key gets zero. *)
Definition percentMap (levels : Obj.t num) (keys : list string) : Obj.t num :=
  match keys with
  | [] => Obj.empty
  | k :: rest => percentLoop levels k rest (Obj.set k zero Obj.empty)
  end.

Definition dailyPercentMap (equity : list (RealizedEquityData.t num))
  : Obj.t num :=
  percentMap (dailyRealizedMap equity) (sortedDates equity).

(** The patch of the daily series: the test [pct[item.date] !== undefined]
    is the presence of an own property, for dates that name no member of
    [Object.prototype]; [Proto.defined] is the test on every key. *)
Definition patchDaily (pct : Obj.t num) (daily : list (DailyData.t num))
  : list (DailyData.t num) :=
  map (fun item =>
         match Obj.get (DailyData.date item) pct with
         | Some v =>
             DailyData.mk (DailyData.date item) (DailyData.profit item)
                          (DailyData.cumulativeProfit item)
                          (DailyData.balance item) v
         | None => item
         end) daily.

Definition monthlyRealizedMap (equity : list (RealizedEquityData.t num))
  : Obj.t num :=
  fold_left
    (fun m date => Obj.set (Str.take 7 date)
                           (lookup date (dailyRealizedMap equity)) m)
    (sortedDates equity) Obj.empty.

Definition sortedMonths (equity : list (RealizedEquityData.t num))
  : list string :=
  sortBy Str.compare (Obj.keys (monthlyRealizedMap equity)).

Definition monthlyPercentMap (equity : list (RealizedEquityData.t num))
  : Obj.t num :=
  percentMap (monthlyRealizedMap equity) (sortedMonths equity).

(** The patch of the monthly series, on the same terms. *)
Definition patchMonthly (pct : Obj.t num) (monthly : list (MonthlyData.t num))
  : list (MonthlyData.t num) :=
  map (fun item =>
         match Obj.get (MonthlyData.month item) pct with
         | Some v =>
             MonthlyData.mk (MonthlyData.month item) (MonthlyData.profit item)
                            (MonthlyData.cumulativeProfit item)
                            (MonthlyData.balance item) v
         | None => item
         end) monthly.

(** [Math.max(...profitArray)] and [Math.min(...profitArray)] spread one
    argument for each valid trade: within the host's limit the calls return,
    above it they throw. *)
Definition spreads (trades : list (row num)) : bool :=
  (N.of_nat (List.length (validTrades trades)) <=? max_arguments)%N.

(** The statistics [setStats] receives for the two decoded sheets; [None]
    when the [catch] block runs: on an activity row whose date is no
    string, and when [computeStats] throws. *)
Definition handleFileUpload (tradesData activityData : list (row num))
  : option (Stats num) :=
  let sorted := sortedActivity activityData in
  let initialBalance := initialBalanceOf sorted in
  match realizedEquityDataOf sorted with
  | None => None
  | Some equity =>
      if negb (spreads tradesData) then None else
      let computed := computeStats tradesData initialBalance in
      Some {| totalTrades := totalTrades computed;
              profitableTrades := profitableTrades computed;
              lossTrades := lossTrades computed;
              breakEvenTrades := breakEvenTrades computed;
              winRate := winRate computed;
              totalProfit := totalProfit computed;
              maxProfit := maxProfit computed;
              minProfit := minProfit computed;
              avgProfit := avgProfit computed;
              medianProfit := medianProfit computed;
              stdDev := stdDev computed;
              averageDailyProfit := averageDailyProfit computed;
              projectedAnnualIncome := projectedAnnualIncome computed;
              dailyData :=
                patchDaily (dailyPercentMap equity) (dailyData computed);
              monthlyData :=
                patchMonthly (monthlyPercentMap equity)
                             (monthlyData computed);
              realizedEquityData := equity |}
  end.
End Program.

(* ================================================================== *)
(** * Exact arithmetic

    The numbers are the integers and [NaN], here [None]; an operation whose
    exact result is not an integer gives [NaN].  On these numbers addition
    has the laws that rounding takes from it on floats. *)

Module IntArith.
Local Open Scope Z_scope.

Definition lift (f : Z -> Z -> Z) (x y : option Z) : option Z :=
  match x, y with
  | Some a, Some b => Some (f a b)
  | _, _ => None
  end.

Definition test (f : Z -> Z -> bool) (x y : option Z) : bool :=
  match x, y with
  | Some a, Some b => f a b
  | _, _ => false
  end.

Definition exact_div (a b : Z) : option Z :=
  if (b =? 0) || negb (a mod b =? 0) then None else Some (a / b).

Definition of_decimal (s : bool) (m : N) (e : Z) : option Z :=
  let v := if s then - Z.of_N m else Z.of_N m in
  match e with
  | Zneg d => exact_div v (10 ^ Zpos d)
  | _ => Some (v * 10 ^ e)
  end.

Definition div (x y : option Z) : option Z :=
  match x, y with
  | Some a, Some b => exact_div a b
  | _, _ => None
  end.

Definition sqrt (x : option Z) : option Z :=
  match x with
  | Some a =>
      if (0 <=? a) && (Z.sqrt a * Z.sqrt a =? a) then Some (Z.sqrt a)
      else None
  | None => None
  end.

Definition is_nan (x : option Z) : bool :=
  match x with Some _ => false | None => true end.

Definition to_string (x : option Z) : string :=
  match x with
  | Some a =>
      String.append (if a <? 0 then "-"%string else ""%string)
                    (Str.of_N (Z.abs_N a))
  | None => "NaN"%string
  end.
End IntArith.

#[export] Instance IntNumber : JsNumber (option Z) := {|
  of_decimal := IntArith.of_decimal;
  nan := None;
  infinity := None;
  neg_infinity := None;
  num_add := IntArith.lift Z.add;
  num_sub := IntArith.lift Z.sub;
  num_mul := IntArith.lift Z.mul;
  num_div := IntArith.div;
  num_sqrt := IntArith.sqrt;
  max2 := IntArith.lift Z.max;
  min2 := IntArith.lift Z.min;
  num_ltb := IntArith.test Z.ltb;
  num_eqb := IntArith.test Z.eqb;
  is_nan := IntArith.is_nan;
  to_string := IntArith.to_string
|}.

(** The laws of exact addition. *)
Class ExactAddition (num : Type) {NUM : JsNumber num} : Prop := {
  add_comm : forall x y : num, (x + y)%js = (y + x)%js;
  add_assoc : forall x y z : num, (x + (y + z))%js = (x + y + z)%js;
  add_zero_l : forall x : num, (zero + x)%js = x;
  eqb_zero : forall x : num, (x =? zero)%js = true -> x = zero;
  add_not_nan : forall x y : num,
      is_nan x = false -> is_nan y = false -> is_nan (x + y)%js = false
}.

(* ================================================================== *)
(** * The specification's wording and its scenarios *)

Section Wording.
Context {num : Type} {NUM : JsNumber num} {HOST : JsHost}.

(** A row counts when its profit is present and numeric. *)
Definition present_and_numeric (trade : row num) : bool :=
  match Obj.get "Profit(USD)" trade with
  | None => false
  | Some (VStr s) =>
      negb (Str.is_empty s) && negb (is_nan (string_to_number s))
  | Some (VNum x) => negb (is_nan x)
  end.

(** The balance before bucket [i] of a series: the initial balance, then
    the balance of the bucket before. *)
Definition balance_before (initialBalance : num)
           (series : list (DailyData.t num)) (i : nat) : num :=
  match i with
  | O => initialBalance
  | S j =>
      match nth_error series j with
      | Some b => DailyData.balance b
      | None => nan
      end
  end.

(** The profit of a day: the profits of the rows closing that day, added in
    row order as [computeStats] adds them, a running total that is zero or
    [NaN] counting as zero; [None] for a day without rows. *)
Definition day_profit (day : string) (trades : list (row num)) : option num :=
  fold_left
    (fun acc trade =>
       Some ((match acc with Some x => or_zero x | None => zero end)
             + profit_of trade)%js)
    (filter (fun trade => String.eqb (dateStr trade) day) trades) None.

(** What the patch does to one daily bucket. *)
Definition daily_patched (pct : Obj.t num) (b p : DailyData.t num) : Prop :=
  DailyData.date p = DailyData.date b
  /\ DailyData.profit p = DailyData.profit b
  /\ DailyData.cumulativeProfit p = DailyData.cumulativeProfit b
  /\ DailyData.balance p = DailyData.balance b
  /\ DailyData.dailyPercentChange p
     = match Obj.get (DailyData.date b) pct with
       | Some v => v
       | None => DailyData.dailyPercentChange b
       end.

(** What the patch does to one monthly bucket. *)
Definition monthly_patched (pct : Obj.t num) (b p : MonthlyData.t num) : Prop :=
  MonthlyData.month p = MonthlyData.month b
  /\ MonthlyData.profit p = MonthlyData.profit b
  /\ MonthlyData.cumulativeProfit p = MonthlyData.cumulativeProfit b
  /\ MonthlyData.balance p = MonthlyData.balance b
  /\ MonthlyData.monthlyPercentChange p
     = match Obj.get (MonthlyData.month b) pct with
       | Some v => v
       | None => MonthlyData.monthlyPercentChange b
       end.

(** A list of numbers without [NaN]. *)
Definition no_nan (l : list num) : Prop := Forall (fun x => is_nan x = false) l.

(** A day text that the host reads as a date. *)
Definition readable (d : string) : Prop := date_time d <> None.

(** A trade without a day text: the daily loop skips it. *)
Definition no_day (trade : row num) : bool := Str.is_empty (dateStr trade).

(** Two days in ascending order of time, as far as the host reads them. *)
Definition ascending (a b : string) : Prop :=
  forall ta tb : Z,
    date_time a = Some ta -> date_time b = Some tb -> (ta <= tb)%Z.

(** The last element of a list that satisfies [p]. *)
Definition find_last (A : Type) (p : A -> bool) (l : list A) : option A :=
  find p (rev l).
End Wording.

Module Scenario.
Local Open Scope string_scope.

Definition trade (profit : float) (close : string) : row float :=
  [("Profit(USD)", VNum profit); ("Close Date", VStr close)].

Definition snapshot (date : string) (balance equity : float) : row float :=
  [("Date", VStr date); ("Balance", VNum balance);
   ("Realized Equity", VNum equity)].

(** Scenario A. *)
Definition tradesA : list (row float) :=
  [trade 100 "01/01/2024 10:00:00";
   trade (-50) "01/01/2024 12:00:00";
   trade 20 "02/01/2024 09:00:00"].

(** Scenario B: the profit cell of the second row is empty. *)
Definition tradesB : list (row float) :=
  [trade 100 "01/01/2024 10:00:00";
   [("Profit(USD)", VStr ""); ("Close Date", VStr "01/01/2024 11:00:00")];
   trade 20 "02/01/2024 09:00:00"].

(** Scenario C. *)
Definition equityC : list (row float) :=
  [snapshot "01/01/2024 00:00:00" 1000 1000;
   snapshot "02/01/2024 00:00:00" 1000 1100].

(** A valid trade without a close date. *)
Definition undated : row float :=
  [("Profit(USD)", VNum 5%float); ("Close Date", VStr "")].

(** A valid trade whose close date is not of the shape [DD/MM/YYYY]. *)
Definition isoDated : row float :=
  [("Profit(USD)", VNum 5%float);
   ("Close Date", VStr "2024-01-05 10:00:00")].

(** A snapshot whose balance is not numeric. *)
Definition badBalance : row float :=
  [("Date", VStr "01/01/2024 00:00:00"); ("Balance", VStr "abc");
   ("Realized Equity", VNum 1000%float)].

(** A trade whose profit is one space. *)
Definition blank : row float :=
  [("Profit(USD)", VStr " "); ("Close Date", VStr "01/01/2024 10:00:00")].

(** Trades of which the second has a close date that is no date. *)
Definition tradesOutOfOrder : list (row float) :=
  [trade 100 "02/01/2024 10:00:00";
   trade 5 "garbage";
   trade 20 "01/01/2024 09:00:00"].

(** Snapshots of which the second has a date that is no date. *)
Definition equityOutOfOrder : list (row float) :=
  [snapshot "02/01/2024 00:00:00" 1000 1100;
   snapshot "garbage" 1000 1050;
   snapshot "01/01/2024 00:00:00" 1000 1000].

(** A row whose profit is not a number. *)
Definition notAvailable : row float :=
  [("Profit(USD)", VStr "n/a"); ("Close Date", VStr "03/01/2024 10:00:00")].

(** Integer-valued trades for exact arithmetic. *)
Definition exactTrades : list (row (option Z)) :=
  [[("Profit(USD)", VNum (Some 100%Z));
    ("Close Date", VStr "01/01/2024 10:00:00")];
   [("Profit(USD)", VNum (Some 20%Z));
    ("Close Date", VStr "02/02/2024 09:00:00")];
   [("Profit(USD)", VStr "-50");
    ("Close Date", VStr "01/01/2024 12:00:00")]].
End Scenario.

(* ================================================================== *)
(** * Grouping

    The two profit maps of [computeStats] are built by one loop: each
    element that is not skipped adds its value to the property of its
    key. *)

Section Grouping.
Context {num : Type} {NUM : JsNumber num}.
Variable A : Type.
Variable skip : A -> bool.
Variable key : A -> string.
Variable val : A -> num.

Definition grouped (l : list A) (m : Obj.t num) : Obj.t num :=
  fold_left
    (fun m a => if skip a then m else accumulate m (key a) (val a)) l m.

(** The elements that the loop adds to the property [k]. *)
Definition members (k : string) (l : list A) : list A :=
  filter (fun a => negb (skip a) && String.eqb (key a) k) l.

(** The value of a property after the values of [l] are added to it. *)
Definition added (l : list A) (start : option num) : option num :=
  fold_left
    (fun acc a =>
       Some ((match acc with Some x => or_zero x | None => zero end)
             + val a)%js)
    l start.
End Grouping.

(* ================================================================== *)
(** * The file handler and its state

    The component keeps two state variables, [stats] and [error].  Choosing
    a file yields a [reading]: no file, no data, a workbook that cannot be
    read, or the decoded rows of the sheets of a workbook. *)

Inductive reading (num : Type) : Type :=
| NoFile
| NoData
| Unreadable
| Workbook (sheets : Obj.t (list (row num))).
Arguments NoFile {num}.
Arguments NoData {num}.
Arguments Unreadable {num}.
Arguments Workbook {num} sheets.

Module AppState.
Record t (num : Type) : Type := mk {
  stats : option (Stats num);
  error : string
}.
Arguments stats {num} _.
Arguments error {num} _.
End AppState.

(** What the component puts on the page: the error text, and the list of
    statistics with the three charts. *)
Module Page.
Record t (num : Type) : Type := mk {
  errorText : option string;
  statistics : option (Stats num)
}.
Arguments errorText {num} _.
Arguments statistics {num} _.
End Page.

Section Handler.
Context {num : Type} {NUM : JsNumber num} {HOST : JsHost}.
Local Open Scope string_scope.

(** The state before any upload: [useState(null)] and [useState('')]. *)
Definition initialState : AppState.t num := AppState.mk None "".

Definition quote : string := String (ascii_of_nat 34) "".

(** The message for a sheet that the workbook lacks. *)
Definition not_found (sheetName : string) : string :=
  "Sheet " ++ quote ++ sheetName ++ quote ++ " not found in the uploaded file.".

Definition processing_error : string := "Error processing file.".

(** The statistics that a reading yields when every step succeeds. *)
Definition computed (r : reading num) : option (Stats num) :=
  match r with
  | Workbook sheets =>
      match Obj.get "Closed Positions" sheets,
            Obj.get "Account Activity" sheets with
      | Some tradesData, Some activityData =>
          handleFileUpload tradesData activityData
      | _, _ => None
      end
  | _ => None
  end.

(** The change handler of the file input with the [onload] callback of its
    reader: the state after a reading. *)
Definition onload (st : AppState.t num) (r : reading num) : AppState.t num :=
  match r with
  | NoFile => st
  | NoData => st
  | Unreadable => AppState.mk (AppState.stats st) processing_error
  | Workbook sheets =>
      match Obj.get "Closed Positions" sheets with
      | None => AppState.mk (AppState.stats st) (not_found "Closed Positions")
      | Some tradesData =>
          match Obj.get "Account Activity" sheets with
          | None =>
              AppState.mk (AppState.stats st) (not_found "Account Activity")
          | Some activityData =>
              match handleFileUpload tradesData activityData with
              | Some computedStats => AppState.mk (Some computedStats) ""
              | None => AppState.mk (AppState.stats st) processing_error
              end
          end
      end
  end.

(** The state after a run of readings, one upload after the other. *)
Definition session (st : AppState.t num) (rs : list (reading num))
  : AppState.t num :=
  fold_left onload rs st.

(** The reading yields statistics. *)
Definition succeeds (r : reading num) : bool :=
  match computed r with Some _ => true | None => false end.

(** The reading does not reach the body of the reader's callback. *)
Definition silent (r : reading num) : bool :=
  match r with
  | NoFile | NoData => true
  | _ => false
  end.

(** [error && ...] and [stats && ...] of the component's markup. *)
Definition render (st : AppState.t num) : Page.t num :=
  Page.mk (if Str.is_empty (AppState.error st) then None
           else Some (AppState.error st))
          (AppState.stats st).
End Handler.

(* ================================================================== *)
(** * Further wording *)

Section MoreWording.
Context {num : Type} {NUM : JsNumber num} {HOST : JsHost}.

(** The string has the character. *)
Fixpoint has_char (c : ascii) (s : string) : bool :=
  match s with
  | EmptyString => false
  | String x s' => Ascii.eqb x c || has_char c s'
  end.

(** The balance before month [i] of a monthly series. *)
Definition month_balance_before (initialBalance : num)
           (series : list (MonthlyData.t num)) (i : nat) : num :=
  match i with
  | O => initialBalance
  | S j =>
      match nth_error series j with
      | Some b => MonthlyData.balance b
      | None => nan
      end
  end.

(** The profit of a month: the profits of the daily buckets of that month,
    added in the order of the daily series. *)
Definition month_profit (month : string) (daily : list (DailyData.t num))
  : option num :=
  added DailyData.profit
        (filter (fun b => String.eqb (Str.take 7 (DailyData.date b)) month)
                daily)
        None.

(** The [Date] cell of a row is the string [raw]. *)
Definition dated (r : row num) (raw : string) : Prop :=
  Obj.get "Date" r = Some (VStr raw).

(** Row [a] is not later than row [b]; both have times the host reads. *)
Definition not_later (a b : row num) : Prop :=
  exists ta tb : Z, time_of a = Some ta /\ time_of b = Some tb /\ (ta <= tb)%Z.

(** Row [a] is earlier than row [b]. *)
Definition earlier (a b : row num) : Prop :=
  exists ta tb : Z, time_of a = Some ta /\ time_of b = Some tb /\ (ta < tb)%Z.

(** Strings in ascending order of code units. *)
Definition code_unit_lt (a b : string) : Prop := Str.compare a b = Lt.
End MoreWording.

Module Uploads.
Local Open Scope string_scope.

(** A workbook with the two sheets of scenarios A and C. *)
Definition complete : Obj.t (list (row float)) :=
  [("Closed Positions", Scenario.tradesA);
   ("Account Activity", Scenario.equityC)].

(** A workbook without the activity sheet. *)
Definition tradesOnly : Obj.t (list (row float)) :=
  [("Closed Positions", Scenario.tradesA)].

(** A workbook without the trades sheet. *)
Definition activityOnly : Obj.t (list (row float)) :=
  [("Account Activity", Scenario.equityC)].

(** An activity row whose date cell holds a number. *)
Definition numericDate : row float :=
  [("Date", VNum 45292%float); ("Balance", VNum 1000%float);
   ("Realized Equity", VNum 1000%float)].

(** A workbook whose activity sheet has such a row. *)
Definition faulty : Obj.t (list (row float)) :=
  [("Closed Positions", Scenario.tradesA);
   ("Account Activity", [numericDate])].

(** Snapshots in sheet order: the latest first, and two at the earliest
    time. *)
Definition unordered : list (row float) :=
  [Scenario.snapshot "03/01/2024 00:00:00" 3000 3000;
   Scenario.snapshot "01/01/2024 00:00:00" 1000 1000;
   Scenario.snapshot "02/01/2024 00:00:00" 2000 2000;
   Scenario.snapshot "01/01/2024" 1500 1500].

(** Snapshots over two months. *)
Definition twoMonths : list (row float) :=
  [Scenario.snapshot "31/01/2024 00:00:00" 1000 1000;
   Scenario.snapshot "15/01/2024 00:00:00" 1000 900;
   Scenario.snapshot "10/02/2024 00:00:00" 1000 1100].

(** Trades over two months. *)
Definition tradesTwoMonths : list (row float) :=
  [Scenario.trade 100 "31/01/2024 10:00:00";
   Scenario.trade (-50) "10/02/2024 12:00:00";
   Scenario.trade 20 "15/01/2024 09:00:00"].

(** A trade whose close date is the name of a member of
    [Object.prototype]. *)
Definition memberDated : list (row float) :=
  [Scenario.trade 5 "constructor"].
End Uploads.

(* ================================================================== *)
(** * The members of [Object.prototype]

    The maps of the program are object literals, and [m[k]] on an object
    literal reads an own property or, failing that, a member inherited from
    [Object.prototype]: a function, or for [__proto__] the prototype
    itself.  [Obj.get] is the read of an own property.  The two agree on
    every key that is an own property or names no member; the program's
    maps are modelled for such keys, and the theorems about them say so.
    An assignment to [__proto__] creates no property, so the maps are
    modelled for keys other than that one. *)

Module Proto.
Local Open Scope string_scope.

Definition names : list string :=
  ["constructor"; "hasOwnProperty"; "isPrototypeOf"; "propertyIsEnumerable";
   "toLocaleString"; "toString"; "valueOf"; "__proto__";
   "__defineGetter__"; "__defineSetter__"; "__lookupGetter__";
   "__lookupSetter__"].

Definition inherited (k : string) : bool := existsb (String.eqb k) names.

(** What [m[k]] reads. *)
Inductive read (V : Type) : Type :=
| Own (v : V)
| Inherited
| Undefined.
Arguments Own {V} v.
Arguments Inherited {V}.
Arguments Undefined {V}.

Definition lookup {V : Type} (k : string) (o : Obj.t V) : read V :=
  match Obj.get k o with
  | Some v => Own v
  | None => if inherited k then Inherited else Undefined
  end.

(** [m[k] !== undefined]. *)
Definition defined {V : Type} (k : string) (o : Obj.t V) : bool :=
  match lookup k o with
  | Undefined => false
  | _ => true
  end.
End Proto.

Section Domain.
Context {num : Type} {NUM : JsNumber num} {HOST : JsHost}.
Local Open Scope string_scope.

(** A key that names no member of [Object.prototype]. *)
Definition plain (k : string) : Prop := Proto.inherited k = false.

(** No valid trade has a day text, or a month, that names a member. *)
Definition plain_days (trades : list (row num)) : Prop :=
  forall t, In t (validTrades trades) ->
            plain (dateStr t) /\ plain (Str.take 7 (dateStr t)).

(** No bucket of a series is dated by the name of a member. *)
Definition plain_daily (daily : list (DailyData.t num)) : Prop :=
  forall b, In b daily -> plain (DailyData.date b).

Definition plain_monthly (monthly : list (MonthlyData.t num)) : Prop :=
  forall b, In b monthly -> plain (MonthlyData.month b).

(** No point of the equity series is dated [__proto__], the one key that an
    assignment does not create. *)
Definition assignable (equity : list (RealizedEquityData.t num)) : Prop :=
  forall p, In p equity -> RealizedEquityData.date p <> "__proto__".

(** The value of a day's property after its trades in [trades] are added to
    [start], as [computeStats] adds them: [(m[d] || 0) + p], a running total
    that is zero or [NaN] counting as zero. *)
Definition day_profit_from (start : option num) (day : string)
           (trades : list (row num)) : option num :=
  fold_left
    (fun acc trade =>
       Some ((match acc with Some x => or_zero x | None => zero end)
             + profit_of trade)%js)
    (filter (fun trade => String.eqb (dateStr trade) day) trades) start.

(** [x] is a sum of the numbers of [l], each taken once, in some order and
    grouping of the additions; a partial sum that is zero or [NaN] may count
    as zero, as [|| 0] makes it. *)
Inductive sum_of : list num -> num -> Prop :=
| sum_none : sum_of [] zero
| sum_one (p : num) : sum_of [p] p
| sum_plus (l1 l2 : list num) (x y : num) :
    sum_of l1 x -> sum_of l2 y -> sum_of (l1 ++ l2) (x + y)%js
| sum_or_zero (l : list num) (x : num) : sum_of l x -> sum_of l (or_zero x)
| sum_order (l l' : list num) (x : num) :
    Permutation l l' -> sum_of l x -> sum_of l' x.

(** The profits of the valid trades that have a day text. *)
Definition datedProfits (trades : list (row num)) : list num :=
  map profit_of (filter (fun t => negb (no_day t)) (validTrades trades)).

(** The profits of the valid trades of a day. *)
Definition day_leaves (trades : list (row num)) (d : string) : list num :=
  map profit_of (members no_day dateStr d (validTrades trades)).
End Domain.

(* ================================================================== *)
(** * Facts about sorting *)

Section SortFacts.
Variable A : Type.
Variable cmp : A -> A -> comparison.

Lemma insertBy_perm (x : A) (l : list A) :
  Permutation (insertBy cmp x l) (x :: l).
Proof.
  induction l as [|y l IH]; simpl.
  - apply Permutation_refl.
  - destruct (cmp x y); try apply Permutation_refl.
    eapply Permutation_trans; [apply perm_skip, IH | apply perm_swap].
Qed.

Lemma sortBy_perm (l : list A) : Permutation (sortBy cmp l) l.
Proof.
  induction l as [|x l IH]; simpl.
  - constructor.
  - eapply Permutation_trans; [apply insertBy_perm | now apply perm_skip].
Qed.

Lemma sortBy_length (l : list A) : List.length (sortBy cmp l) = List.length l.
Proof. apply Permutation_length, sortBy_perm. Qed.

Lemma sortBy_In (x : A) (l : list A) : In x (sortBy cmp l) <-> In x l.
Proof.
  split; apply Permutation_in; [|apply Permutation_sym]; apply sortBy_perm.
Qed.

Lemma sortBy_NoDup (l : list A) : NoDup l -> NoDup (sortBy cmp l).
Proof.
  intros Hn. eapply Permutation_NoDup; [|exact Hn].
  apply Permutation_sym, sortBy_perm.
Qed.

Lemma insertBy_sorted (x : A) (l : list A) :
  Sorted (in_order cmp) l -> Sorted (in_order cmp) (insertBy cmp x l).
Proof.
  induction l as [|y l IH]; simpl; intros Hs.
  - repeat constructor.
  - destruct (cmp x y) eqn:E.
    + constructor; [exact Hs|]. constructor. left. congruence.
    + constructor; [exact Hs|]. constructor. left. congruence.
    + apply Sorted_inv in Hs. destruct Hs as [Hs Hh].
      constructor; [now apply IH|].
      destruct l as [|z l]; simpl.
      * constructor. now right.
      * destruct (cmp x z); try (constructor; now right).
        constructor. now inversion Hh.
Qed.

Lemma sortBy_sorted (l : list A) : Sorted (in_order cmp) (sortBy cmp l).
Proof.
  induction l as [|x l IH]; simpl.
  - constructor.
  - now apply insertBy_sorted.
Qed.
End SortFacts.

(** Sorting by a key commutes with pairing the key with data. *)
Lemma insertBy_map (A B : Type) (f : A -> B) (cmp : B -> B -> comparison)
      (x : A) (l : list A) :
  map f (insertBy (fun a b => cmp (f a) (f b)) x l)
  = insertBy cmp (f x) (map f l).
Proof.
  induction l as [|y l IH]; simpl; [reflexivity|].
  destruct (cmp (f x) (f y)); simpl; try reflexivity.
  now rewrite IH.
Qed.

Lemma sortBy_map (A B : Type) (f : A -> B) (cmp : B -> B -> comparison)
      (l : list A) :
  map f (sortBy (fun a b => cmp (f a) (f b)) l) = sortBy cmp (map f l).
Proof.
  induction l as [|x l IH]; simpl; [reflexivity|].
  now rewrite insertBy_map, IH.
Qed.

(* ================================================================== *)
(** * Facts about objects *)

Module ObjFacts.
Import Obj.

Section Facts.
Variable V : Type.
Implicit Types (o : Obj.t V) (k : string) (v : V).

Lemma get_set_same k v o : get k (set k v o) = Some v.
Proof.
  induction o as [|[k' v'] o IH]; simpl.
  - now rewrite String.eqb_refl.
  - destruct (String.eqb k k') eqn:E; simpl; rewrite E; auto.
Qed.

Lemma get_set_other k k' v o : k' <> k -> get k' (set k v o) = get k' o.
Proof.
  intros Hne. induction o as [|[k0 v0] o IH]; simpl.
  - apply String.eqb_neq in Hne. now rewrite Hne.
  - destruct (String.eqb k k0) eqn:E; simpl.
    + apply String.eqb_eq in E. subst k0.
      apply String.eqb_neq in Hne. now rewrite Hne.
    + now rewrite IH.
Qed.

Lemma get_In k o : get k o <> None <-> In k (map fst o).
Proof.
  induction o as [|[k' v'] o IH]; simpl.
  - split; [congruence | tauto].
  - destruct (String.eqb k k') eqn:E.
    + apply String.eqb_eq in E. subst k'. split; [auto | discriminate].
    + apply String.eqb_neq in E. rewrite IH. split; [auto|].
      intros [H|H]; [congruence | exact H].
Qed.

Lemma get_None k o : get k o = None <-> ~ In k (map fst o).
Proof.
  rewrite <- get_In. destruct (get k o); split; try congruence.
  intros Hn. exfalso. apply Hn. discriminate.
Qed.

(** Writing to an existing key keeps the keys; writing to a new key adds
    it last. *)
Lemma set_keys k v o :
  map fst (set k v o)
  = match get k o with
    | Some _ => map fst o
    | None => map fst o ++ [k]
    end.
Proof.
  induction o as [|[k' v'] o IH]; simpl; [reflexivity|].
  destruct (String.eqb k k') eqn:E; simpl; [reflexivity|].
  rewrite IH. now destruct (get k o).
Qed.

Lemma set_In k k' v o :
  In k' (map fst (set k v o)) <-> k' = k \/ In k' (map fst o).
Proof.
  rewrite set_keys. destruct (get k o) eqn:E.
  - split; [auto|]. intros [->|H]; [|exact H].
    apply get_In. congruence.
  - rewrite in_app_iff. simpl. intuition.
Qed.

Lemma set_NoDup k v o : NoDup (map fst o) -> NoDup (map fst (set k v o)).
Proof.
  intros Hn. rewrite set_keys. destruct (get k o) eqn:E; [exact Hn|].
  apply get_None in E.
  apply NoDup_app; [exact Hn | repeat constructor; simpl; tauto |].
  intros x Hx [<-|[]]. contradiction.
Qed.

(** [Object.keys] lists each own key once. *)
Lemma keys_perm o : Permutation (keys o) (map fst o).
Proof.
  unfold keys.
  eapply Permutation_trans.
  { apply Permutation_app_tail, Permutation_map, sortBy_perm. }
  unfold index_keys, name_keys.
  induction o as [|[k v] o IH]; simpl; [constructor|].
  destruct (array_index k); simpl.
  - now apply perm_skip.
  - eapply Permutation_trans; [|apply perm_skip, IH].
    apply Permutation_sym, Permutation_middle.
Qed.

Lemma keys_In k o : In k (keys o) <-> In k (map fst o).
Proof.
  split; apply Permutation_in; [|apply Permutation_sym]; apply keys_perm.
Qed.

Lemma keys_NoDup o : NoDup (map fst o) -> NoDup (keys o).
Proof.
  intros Hn. eapply Permutation_NoDup; [|exact Hn].
  apply Permutation_sym, keys_perm.
Qed.
End Facts.
End ObjFacts.

(* ================================================================== *)
(** * Facts about binary64 *)

Module FloatFacts.

Lemma zero_eq : @zero float FloatNumber = PrimFloat.zero.
Proof. reflexivity. Qed.

Lemma nan_is_nan : PrimFloat.is_nan PrimFloat.nan = true.
Proof. reflexivity. Qed.

Lemma zero_not_nan : is_nan (@zero float FloatNumber) = false.
Proof. reflexivity. Qed.

(** A float other than [NaN] is above zero, below zero or equal to zero,
    and only one of the three. *)
Lemma sign_cases (x : float) :
  PrimFloat.is_nan x = false ->
  (PrimFloat.ltb PrimFloat.zero x, PrimFloat.ltb x PrimFloat.zero,
   PrimFloat.eqb x PrimFloat.zero)
  = (true, false, false)
  \/ (PrimFloat.ltb PrimFloat.zero x, PrimFloat.ltb x PrimFloat.zero,
      PrimFloat.eqb x PrimFloat.zero)
     = (false, true, false)
  \/ (PrimFloat.ltb PrimFloat.zero x, PrimFloat.ltb x PrimFloat.zero,
      PrimFloat.eqb x PrimFloat.zero)
     = (false, false, true).
Proof.
  unfold PrimFloat.is_nan. rewrite !ltb_spec, !eqb_spec.
  change (Prim2SF PrimFloat.zero) with (S754_zero false).
  destruct (Prim2SF x) as [s|s| |s m e]; simpl; intros Hn;
    try discriminate; try destruct s; auto.
Qed.

(** The three counts of [computeStats] cover a list without [NaN]. *)
Lemma count_signs (l : list float) :
  Forall (fun x : float => is_nan x = false) l ->
  List.length (filter (fun p => num_gtb p zero) l)
  + List.length (filter (fun p => (p <? zero)%js) l)
  + List.length (filter (fun p => (p =? zero)%js) l)
  = List.length l.
Proof.
  induction 1 as [|x l Hx _ IH]; [reflexivity|].
  change (PrimFloat.is_nan x = false) in Hx.
  cbn [filter]. unfold num_gtb in *. rewrite zero_eq in *.
  change (@num_ltb float FloatNumber) with PrimFloat.ltb in *.
  change (@num_eqb float FloatNumber) with PrimFloat.eqb in *.
  destruct (sign_cases x Hx) as [E|[E|E]];
    injection E as -> -> ->; cbn [List.length]; lia.
Qed.
End FloatFacts.

(* ================================================================== *)
(** * Facts about strings and [Number] *)

Section NumberFacts.
Context {num : Type} {NUM : JsNumber num}.

Lemma drop_while_all (p : ascii -> bool) (s : string) :
  Str.all p s = true -> Str.drop_while p s = EmptyString.
Proof.
  induction s as [|c s IH]; simpl; [reflexivity|].
  destruct (p c); simpl; [exact IH | discriminate].
Qed.

Lemma trim_blank (s : string) :
  Str.all Str.is_space s = true -> Str.trim s = EmptyString.
Proof.
  intros Hs. unfold Str.trim. now rewrite (drop_while_all _ _ Hs).
Qed.

(** [Number] of a string of white space is zero. *)
Lemma string_to_number_blank (s : string) :
  Str.all Str.is_space s = true -> string_to_number s = zero.
Proof.
  intros Hs. unfold string_to_number. now rewrite (trim_blank _ Hs).
Qed.

Lemma is_empty_spec (s : string) : Str.is_empty s = true <-> s = EmptyString.
Proof. destruct s; simpl; split; congruence. Qed.
End NumberFacts.

(* ================================================================== *)
(** * Facts about [computeStats] *)

Section AggregatorFacts.
Context {num : Type} {NUM : JsNumber num} {HOST : JsHost}.
Local Open Scope string_scope.
Local Open Scope list_scope.

(** The filter rejects the empty string and what [Number] turns into
    [NaN], and nothing else. *)
Lemma is_valid_false (trade : row num) :
  is_valid trade = false
  <-> Obj.get "Profit(USD)" trade = Some (VStr "")
      \/ is_nan (to_number (Obj.get "Profit(USD)" trade)) = true.
Proof.
  unfold is_valid, profit_of.
  destruct (Obj.get "Profit(USD)" trade) as [[s|x]|]; simpl.
  - destruct s; simpl.
    + split; auto.
    + rewrite negb_false_iff. split; [auto|]. intros [Hs|Hn]; [discriminate|exact Hn].
  - rewrite negb_false_iff. split; [auto|]. intros [Hs|Hn]; [discriminate|exact Hn].
  - rewrite negb_false_iff. split; [auto|]. intros [Hs|Hn]; [discriminate|exact Hn].
Qed.

Lemma validTrades_app (l1 l2 : list (row num)) :
  validTrades (l1 ++ l2) = validTrades l1 ++ validTrades l2.
Proof. apply filter_app. Qed.

Lemma validTrades_invalid (l : list (row num)) (trade : row num) :
  is_valid trade = false -> validTrades (l ++ [trade]) = validTrades l.
Proof.
  intros Hv. rewrite validTrades_app. unfold validTrades at 2. simpl.
  rewrite Hv. apply app_nil_r.
Qed.

(** [computeStats] reads its rows through [validTrades] only. *)
Lemma computeStats_ext (l1 l2 : list (row num)) (initialBalance : num) :
  validTrades l1 = validTrades l2 ->
  computeStats l1 initialBalance = computeStats l2 initialBalance.
Proof.
  intros Hv.
  unfold computeStats, monthlyDataOf, dailyDataOf, sortedProfit,
    dailyProfitMap, profitArray.
  now rewrite Hv.
Qed.

Lemma valid_not_nan (trades : list (row num)) :
  Forall (fun p => is_nan p = false) (profitArray trades).
Proof.
  unfold profitArray, validTrades. apply Forall_map, Forall_forall.
  intros t Ht. apply filter_In in Ht. destruct Ht as [_ Hv].
  unfold is_valid in Hv. apply andb_true_iff in Hv.
  now apply negb_true_iff.
Qed.
End AggregatorFacts.

(* ================================================================== *)
(** * The counts of [computeStats] *)

Section Counts.
Context {HOST : JsHost}.
Local Open Scope string_scope.
Local Open Scope list_scope.

Lemma is_valid_present (trade : row float) :
  is_valid trade = present_and_numeric trade.
Proof.
  unfold is_valid, present_and_numeric, profit_of.
  destruct (Obj.get "Profit(USD)" trade) as [[s|x]|]; reflexivity.
Qed.

(** C8.  For every list of trade rows the numbers of profitable, losing
    and break-even trades add up to [totalTrades], and [totalTrades] is the
    number of rows whose [Profit(USD)] cell is present and numeric. *)
Theorem trade_counts_partition (trades : list (row float))
        (initialBalance : float) :
  let s := computeStats trades initialBalance in
  profitableTrades s + lossTrades s + breakEvenTrades s = totalTrades s
  /\ totalTrades s = List.length (filter present_and_numeric trades).
Proof.
  cbn zeta. split.
  - cbn [profitableTrades lossTrades breakEvenTrades totalTrades computeStats].
    rewrite (FloatFacts.count_signs (valid_not_nan trades)).
    unfold profitArray. apply length_map.
  - cbn [totalTrades computeStats]. unfold validTrades.
    f_equal. apply filter_ext. intros t. apply is_valid_present.
Qed.

(** C10.  A trade row whose [Profit(USD)] cell is a string of white space
    passes the filter and counts as a break-even trade of profit zero,
    wherever it stands among the rows; the filter rejects only the empty
    string and the values that [Number] turns into [NaN]. *)
Theorem blank_profit_is_break_even (s : string) (rest : row float)
        (before after : list (row float)) (initialBalance : float) :
  s <> "" ->
  Str.all Str.is_space s = true ->
  let trade := ("Profit(USD)", VStr s) :: rest in
  let st := computeStats (before ++ trade :: after) initialBalance in
  let st' := computeStats (before ++ after) initialBalance in
  is_valid trade = true
  /\ profit_of trade = 0%float
  /\ totalTrades st = S (totalTrades st')
  /\ breakEvenTrades st = S (breakEvenTrades st')
  /\ profitableTrades st = profitableTrades st'
  /\ lossTrades st = lossTrades st'
  /\ totalProfit (computeStats [trade] initialBalance) = 0%float
  /\ (forall t : row float,
         is_valid t = false
         <-> Obj.get "Profit(USD)" t = Some (VStr "")
             \/ is_nan (to_number (Obj.get "Profit(USD)" t)) = true).
Proof.
  intros Hne Hblank trade st st'.
  assert (Hp : profit_of trade = 0%float).
  { unfold profit_of, trade. cbn [Obj.get String.eqb Ascii.eqb Bool.eqb to_number].
    now rewrite (string_to_number_blank _ Hblank). }
  assert (Hv : is_valid trade = true).
  { unfold is_valid. rewrite Hp. unfold trade.
    cbn [Obj.get String.eqb Ascii.eqb Bool.eqb is_not_empty_string].
    destruct s; [congruence | reflexivity]. }
  assert (Hvt : validTrades (before ++ trade :: after)
                = validTrades before ++ trade :: validTrades after).
  { rewrite validTrades_app. unfold validTrades at 2. cbn [filter].
    now rewrite Hv. }
  assert (Hpa : profitArray (before ++ trade :: after)
                = profitArray before ++ 0%float :: profitArray after).
  { unfold profitArray. rewrite Hvt, map_app. cbn [map]. now rewrite Hp. }
  assert (Hpa' : profitArray (before ++ after)
                 = profitArray before ++ profitArray after).
  { unfold profitArray. now rewrite validTrades_app, map_app. }
  assert (Hone : profitArray [trade] = [0%float]).
  { unfold profitArray, validTrades. cbn [filter]. rewrite Hv. cbn [map].
    now rewrite Hp. }
  split; [exact Hv|]. split; [exact Hp|].
  unfold st, st'.
  cbn [totalTrades breakEvenTrades profitableTrades lossTrades totalProfit
       computeStats].
  rewrite Hvt, Hpa, Hpa', Hone, validTrades_app, !filter_app, !length_app.
  cbn [filter List.length].
  change (num_gtb 0%float zero) with false.
  change (0%float <? zero)%js with false.
  change (0%float =? zero)%js with true.
  cbn [List.length].
  split; [lia|]. split; [lia|]. split; [lia|]. split; [lia|].
  split; [reflexivity|].
  intros t. apply is_valid_false.
Qed.
End Counts.

Lemma blank_profit_is_break_even_witness :
  " "%string <> ""%string
  /\ Str.all Str.is_space " " = true
  /\ is_valid Scenario.blank = true
  /\ breakEvenTrades (computeStats (Scenario.tradesA ++ [Scenario.blank])
                                   1000%float)
     = 1.
Proof.
  split; [discriminate|]. split; [reflexivity|].
  pose proof (@blank_profit_is_break_even ReferenceHost " "%string
                (List.tl Scenario.blank) Scenario.tradesA [] 1000%float
                ltac:(discriminate) eq_refl) as H.
  cbn zeta in H. split; [apply H|].
  destruct H as [_ [_ [_ [H _]]]].
  etransitivity; [exact H|]. vm_compute. reflexivity.
Defined.

Section Extremes.
Context {HOST : JsHost}.
Local Open Scope string_scope.
Local Open Scope list_scope.

(** C3.  On empty input [handleFileUpload] returns statistics whose counts
    and sums are zero and whose series are empty, but [maxProfit] is
    [-Infinity] and [minProfit] is [Infinity]: [Math.max] and [Math.min]
    of no argument.  No operation faults. *)
Theorem empty_input_extremes :
  handleFileUpload (num := float) [] []
  = Some {| totalTrades := 0;
            profitableTrades := 0;
            lossTrades := 0;
            breakEvenTrades := 0;
            winRate := 0%float;
            totalProfit := 0%float;
            maxProfit := PrimFloat.neg_infinity;
            minProfit := PrimFloat.infinity;
            avgProfit := 0%float;
            medianProfit := 0%float;
            stdDev := 0%float;
            averageDailyProfit := 0%float;
            projectedAnnualIncome := 0%float;
            dailyData := [];
            monthlyData := [];
            realizedEquityData := [] |}
  /\ maxProfit (computeStats (num := float) [] 0%float)
     = PrimFloat.neg_infinity
  /\ minProfit (computeStats (num := float) [] 0%float) = PrimFloat.infinity
  /\ PrimFloat.eqb PrimFloat.neg_infinity 0%float = false
  /\ PrimFloat.eqb PrimFloat.infinity 0%float = false.
Proof.
  split; [|repeat split; reflexivity].
  unfold handleFileUpload, spreads.
  cbn [sortedActivity sortBy realizedEquityDataOf validTrades filter
       List.length N.of_nat].
  destruct max_arguments; reflexivity.
Qed.

(** C4.  A first snapshot whose [Balance] cell is a string that is not
    numeric gives the initial balance [NaN], not zero, and with it every
    balance of the daily series is [NaN].  No snapshot, a missing [Balance]
    and an empty one give zero; a numeric one gives its number. *)
Theorem non_numeric_balance_is_nan :
  initialBalanceOf (sortedActivity [Scenario.badBalance]) = PrimFloat.nan
  /\ PrimFloat.eqb
       (initialBalanceOf (sortedActivity [Scenario.badBalance])) 0%float
     = false
  /\ option_map (fun s => map DailyData.balance (dailyData s))
                (@handleFileUpload float FloatNumber ReferenceHost
                   Scenario.tradesA [Scenario.badBalance])
     = Some [PrimFloat.nan; PrimFloat.nan]
  /\ initialBalanceOf (sortedActivity ([] : list (row float))) = 0%float
  /\ initialBalanceOf
       (sortedActivity [[("Date", @VStr float "01/01/2024 00:00:00")]])
     = 0%float
  /\ initialBalanceOf
       (sortedActivity [[("Date", @VStr float "01/01/2024 00:00:00");
                         ("Balance", VStr "")]])
     = 0%float
  /\ initialBalanceOf
       (sortedActivity [[("Date", @VStr float "01/01/2024 00:00:00");
                         ("Balance", VStr "1000.50")]])
     = (1000.5)%float.
Proof. repeat split; reflexivity. Qed.
End Extremes.

Section Relational.
Context {num : Type} {NUM : JsNumber num} {HOST : JsHost}.
Local Open Scope string_scope.
Local Open Scope list_scope.

(** C9.  Appending one row whose [Profit(USD)] cell is the empty string or
    not numeric leaves every field of the statistics as it was.  In scenario
    B the row with the empty profit is in neither count, sum nor bucket. *)
Theorem invalid_row_is_ignored (trades : list (row num)) (extra : row num)
        (initialBalance : num) :
  Obj.get "Profit(USD)" extra = Some (VStr "")
  \/ is_nan (to_number (Obj.get "Profit(USD)" extra)) = true ->
  computeStats (trades ++ [extra]) initialBalance
  = computeStats trades initialBalance
  /\ (let b := @computeStats float FloatNumber ReferenceHost
                 Scenario.tradesB 1000%float in
      totalTrades b = 2
      /\ totalProfit b = 120%float
      /\ map DailyData.profit (dailyData b) = [100%float; 20%float]
      /\ map MonthlyData.profit (monthlyData b) = [120%float]).
Proof.
  intros Hbad. split; [|vm_compute; repeat split; reflexivity].
  apply computeStats_ext, validTrades_invalid.
  now apply is_valid_false.
Qed.
End Relational.

Lemma invalid_row_is_ignored_witness :
  (Obj.get "Profit(USD)" Scenario.notAvailable = Some (VStr ""%string)
   \/ is_nan (to_number (Obj.get "Profit(USD)" Scenario.notAvailable)) = true)
  /\ computeStats (Scenario.tradesA ++ [Scenario.notAvailable]) 1000%float
     = computeStats Scenario.tradesA 1000%float.
Proof.
  split; [right; reflexivity|].
  apply (@invalid_row_is_ignored float FloatNumber ReferenceHost).
  right. reflexivity.
Defined.

(* ================================================================== *)
(** * Facts about the reconciler *)

Lemma Sorted_weaken (A : Type) (R R' : A -> A -> Prop) (l : list A) :
  (forall a b, R a b -> R' a b) -> Sorted R l -> Sorted R' l.
Proof.
  intros HR. induction 1 as [|a l Hs IH Hh]; constructor; auto.
  destruct Hh; constructor; auto.
Qed.

Lemma find_app (A : Type) (p : A -> bool) (l1 l2 : list A) :
  find p (l1 ++ l2)
  = match find p l1 with Some x => Some x | None => find p l2 end.
Proof.
  induction l1 as [|a l1 IH]; simpl; [reflexivity|].
  now destruct (p a).
Qed.

Section ReconcilerFacts.
Context {num : Type} {NUM : JsNumber num} {HOST : JsHost}.
Local Open Scope string_scope.
Local Open Scope list_scope.
Import ObjFacts.

Lemma by_date_ascending (l : list string) :
  Sorted (in_order by_date) l -> Sorted ascending l.
Proof.
  apply Sorted_weaken. intros a b Hab ta tb Ha Hb.
  unfold in_order, by_date, compare_times in Hab. rewrite Ha, Hb in Hab.
  destruct Hab as [H|H].
  - apply Z.compare_le_iff. exact H.
  - apply Z.compare_gt_iff in H. lia.
Qed.

(** Among days the host reads, order between neighbours is order between
    all. *)
Lemma readable_strongly_sorted (l : list string) :
  (forall d, In d l -> readable d) ->
  Sorted ascending l -> StronglySorted ascending l.
Proof.
  intros Hr Hs. induction Hs as [|a l Hs IH Hh]; constructor.
  - apply IH. intros d Hd. apply Hr. now right.
  - assert (Hl : StronglySorted ascending l).
    { apply IH. intros d Hd. apply Hr. now right. }
    destruct Hh as [|b l Hab]; constructor; [exact Hab|].
    apply StronglySorted_inv in Hl. destruct Hl as [_ Hb].
    assert (Hrb : readable b) by (apply Hr; simpl; auto).
    unfold readable in Hrb. destruct (date_time b) as [tb|] eqn:Eb;
      [|congruence].
    eapply Forall_impl; [|exact Hb].
    intros c Hbc ta tc Ha Hc.
    specialize (Hab ta tb Ha Eb). specialize (Hbc tb tc Eb Hc). lia.
Qed.

(** ** Objects filled by a loop of assignments *)

Section Assigned.
Variable A : Type.
Variable key : A -> string.
Variable val : A -> num.

Lemma assigned_keys (l : list A) (m : Obj.t num) (k : string) :
  In k (map fst (fold_left (fun m a => Obj.set (key a) (val a) m) l m))
  <-> In k (map key l) \/ In k (map fst m).
Proof.
  revert m. induction l as [|a l IH]; intros m; cbn [fold_left map].
  - simpl. tauto.
  - rewrite IH, set_In. simpl. intuition.
Qed.

Lemma assigned_NoDup (l : list A) (m : Obj.t num) :
  NoDup (map fst m) ->
  NoDup (map fst (fold_left (fun m a => Obj.set (key a) (val a) m) l m)).
Proof.
  revert m. induction l as [|a l IH]; intros m Hm; cbn [fold_left].
  - exact Hm.
  - apply IH, set_NoDup, Hm.
Qed.

(** The last assignment to a key wins. *)
Lemma assigned_get (l : list A) (m : Obj.t num) (k : string) :
  Obj.get k (fold_left (fun m a => Obj.set (key a) (val a) m) l m)
  = match find_last (fun a => String.eqb (key a) k) l with
    | Some a => Some (val a)
    | None => Obj.get k m
    end.
Proof.
  unfold find_last. revert m.
  induction l as [|a l IH]; intros m; cbn [fold_left rev]; [reflexivity|].
  rewrite IH, find_app. destruct (find _ (rev l)); [reflexivity|].
  cbn [find]. destruct (String.eqb (key a) k) eqn:E.
  - apply String.eqb_eq in E. subst k. apply get_set_same.
  - apply String.eqb_neq in E. apply get_set_other. congruence.
Qed.
End Assigned.

(** ** The percent loop *)

Lemma percentLoop_keys (levels : Obj.t num) (keys : list string)
      (prev : string) (acc : Obj.t num) (k : string) :
  In k (map fst (percentLoop levels prev keys acc))
  <-> In k keys \/ In k (map fst acc).
Proof.
  revert prev acc.
  induction keys as [|k0 keys IH]; intros prev acc; cbn [percentLoop].
  - simpl. tauto.
  - rewrite IH, set_In. simpl. intuition.
Qed.

Lemma percentMap_keys (levels : Obj.t num) (keys : list string) (k : string) :
  Obj.get k (percentMap levels keys) <> None <-> In k keys.
Proof.
  rewrite get_In. destruct keys as [|k0 keys]; cbn [percentMap].
  - simpl. tauto.
  - rewrite percentLoop_keys, set_In. simpl. intuition.
Qed.

Lemma percentLoop_other (levels : Obj.t num) (keys : list string)
      (prev : string) (acc : Obj.t num) (k : string) :
  ~ In k keys ->
  Obj.get k (percentLoop levels prev keys acc) = Obj.get k acc.
Proof.
  revert prev acc.
  induction keys as [|k0 keys IH]; intros prev acc Hk; cbn [percentLoop].
  - reflexivity.
  - rewrite IH by (simpl in Hk; tauto).
    apply get_set_other. simpl in Hk. intros ->. tauto.
Qed.

(** Each key after the first of the loop receives the change from the level
    of the key before it. *)
Lemma percentLoop_get (levels : Obj.t num) (keys : list string)
      (prev : string) (acc : Obj.t num) (i : nat) (p d : string) :
  NoDup keys ->
  nth_error (prev :: keys) i = Some p ->
  nth_error keys i = Some d ->
  Obj.get d (percentLoop levels prev keys acc)
  = Some (change (lookup p levels) (lookup d levels)).
Proof.
  revert prev acc i.
  induction keys as [|k0 keys IH]; intros prev acc i Hn Hp Hd.
  - destruct i; discriminate.
  - inversion Hn as [|? ? Hk0 Hn']; subst.
    destruct i as [|i]; cbn [nth_error percentLoop] in *.
    + injection Hp as <-. injection Hd as <-.
      rewrite percentLoop_other by exact Hk0. apply get_set_same.
    + now apply IH with (i := i).
Qed.

Lemma percentMap_first (levels : Obj.t num) (keys : list string) (d : string) :
  NoDup keys ->
  nth_error keys 0 = Some d ->
  Obj.get d (percentMap levels keys) = Some zero.
Proof.
  destruct keys as [|k0 keys]; cbn [nth_error percentMap]; [discriminate|].
  intros Hn [= <-]. inversion Hn; subst.
  rewrite percentLoop_other by assumption. apply get_set_same.
Qed.

Lemma percentMap_next (levels : Obj.t num) (keys : list string) (i : nat)
      (p d : string) :
  NoDup keys ->
  nth_error keys i = Some p ->
  nth_error keys (S i) = Some d ->
  Obj.get d (percentMap levels keys)
  = Some (change (lookup p levels) (lookup d levels)).
Proof.
  destruct keys as [|k0 keys]; cbn [nth_error percentMap];
    [destruct i; discriminate|].
  intros Hn Hp Hd. inversion Hn; subst.
  now apply percentLoop_get with (i := i).
Qed.

(** ** The equity days and months *)

Lemma dailyRealizedMap_NoDup (equity : list (RealizedEquityData.t num)) :
  NoDup (map fst (dailyRealizedMap equity)).
Proof. apply assigned_NoDup. constructor. Qed.

Lemma sortedDates_NoDup (equity : list (RealizedEquityData.t num)) :
  NoDup (sortedDates equity).
Proof. apply sortBy_NoDup, keys_NoDup, dailyRealizedMap_NoDup. Qed.

Lemma sortedDates_In (equity : list (RealizedEquityData.t num)) (d : string) :
  In d (sortedDates equity) <-> In d (map RealizedEquityData.date equity).
Proof.
  unfold sortedDates, dailyRealizedMap.
  rewrite sortBy_In, keys_In, assigned_keys. simpl. tauto.
Qed.

Lemma sortedMonths_NoDup (equity : list (RealizedEquityData.t num)) :
  NoDup (sortedMonths equity).
Proof.
  apply sortBy_NoDup, keys_NoDup. unfold monthlyRealizedMap.
  apply assigned_NoDup. constructor.
Qed.

Lemma sortedMonths_In (equity : list (RealizedEquityData.t num)) (m : string) :
  In m (sortedMonths equity)
  <-> exists r, In r equity /\ Str.take 7 (RealizedEquityData.date r) = m.
Proof.
  unfold sortedMonths, monthlyRealizedMap.
  rewrite sortBy_In, keys_In, assigned_keys. simpl.
  rewrite in_map_iff. split.
  - intros [[d [Hd Hin]]|[]]. apply sortedDates_In in Hin.
    apply in_map_iff in Hin. destruct Hin as [r [Hr Hin]].
    exists r. split; [exact Hin | now rewrite Hr].
  - intros [r [Hin Hr]]. left. exists (RealizedEquityData.date r).
    split; [exact Hr|]. apply sortedDates_In. now apply in_map.
Qed.

(** ** The patch *)

Lemma patchDaily_frame (pct : Obj.t num) (daily : list (DailyData.t num)) :
  Forall2 (daily_patched pct) daily (patchDaily pct daily).
Proof.
  induction daily as [|b daily IH]; simpl; constructor; [|exact IH].
  unfold daily_patched. destruct (Obj.get (DailyData.date b) pct); simpl; auto.
Qed.

Lemma patchMonthly_frame (pct : Obj.t num)
      (monthly : list (MonthlyData.t num)) :
  Forall2 (monthly_patched pct) monthly (patchMonthly pct monthly).
Proof.
  induction monthly as [|b monthly IH]; simpl; constructor; [|exact IH].
  unfold monthly_patched.
  destruct (Obj.get (MonthlyData.month b) pct); simpl; auto.
Qed.

Lemma realizedEquityDataOf_None (rows : list (row num)) :
  realizedEquityDataOf rows = None
  <-> exists r, In r rows /\ date_of r = None.
Proof.
  induction rows as [|r rows IH]; cbn [realizedEquityDataOf].
  - split; [discriminate | intros [r [[] _]]].
  - destruct (date_of r) as [d|] eqn:E.
    + destruct (realizedEquityDataOf rows).
      * split; [discriminate|]. intros [x [[<-|Hx] Hd]]; [congruence|].
        destruct IH as [_ IH]. discriminate IH. eauto.
      * split; [|reflexivity]. intros _.
        destruct IH as [IH _]. destruct (IH eq_refl) as [x [Hx Hd]].
        exists x. simpl. auto.
    + split; [|reflexivity]. intros _. exists r. simpl. auto.
Qed.

(** The upload yields statistics exactly when the [Date] cell of every
    activity row is a string and the spread calls are within the host's
    limit. *)
Lemma handleFileUpload_None (trades activity : list (row num)) :
  handleFileUpload trades activity = None
  <-> (exists r, In r activity /\ date_of r = None)
      \/ spreads trades = false.
Proof.
  unfold handleFileUpload.
  destruct (realizedEquityDataOf (sortedActivity activity)) eqn:E.
  - destruct (spreads trades); cbn [negb].
    + split; [discriminate|]. intros [[r [Hr Hd]]|Hs]; [|discriminate].
      assert (Hn : realizedEquityDataOf (sortedActivity activity) = None).
      { apply realizedEquityDataOf_None. exists r. split; [|exact Hd].
        unfold sortedActivity. now apply sortBy_In. }
      congruence.
    + split; [now right | reflexivity].
  - split; [|reflexivity]. intros _. left.
    apply realizedEquityDataOf_None in E. destruct E as [r [Hr Hd]].
    exists r. split; [|exact Hd]. unfold sortedActivity in Hr.
    now apply sortBy_In in Hr.
Qed.

(** The fields of a successful upload. *)
Lemma handleFileUpload_Some (trades activity : list (row num))
      (s : Stats num) :
  handleFileUpload trades activity = Some s ->
  let base :=
    computeStats trades (initialBalanceOf (sortedActivity activity)) in
  realizedEquityDataOf (sortedActivity activity) = Some (realizedEquityData s)
  /\ dailyData s
     = patchDaily (dailyPercentMap (realizedEquityData s)) (dailyData base)
  /\ monthlyData s
     = patchMonthly (monthlyPercentMap (realizedEquityData s))
                    (monthlyData base).
Proof.
  unfold handleFileUpload.
  destruct (realizedEquityDataOf (sortedActivity activity)) as [equity|];
    [|discriminate].
  destruct (spreads trades); [|discriminate].
  intros [= <-]. auto.
Qed.

Lemma handleFileUpload_spreads (trades activity : list (row num))
      (s : Stats num) :
  handleFileUpload trades activity = Some s -> spreads trades = true.
Proof.
  unfold handleFileUpload.
  destruct (realizedEquityDataOf (sortedActivity activity)); [|discriminate].
  now destruct (spreads trades).
Qed.
End ReconcilerFacts.

(* ================================================================== *)
(** * Facts about grouping *)

Section GroupingFacts.
Context {num : Type} {NUM : JsNumber num}.
Variable A : Type.
Variable skip : A -> bool.
Variable key : A -> string.
Variable val : A -> num.
Local Open Scope string_scope.
Local Open Scope list_scope.
Import ObjFacts.

Lemma accumulate_In (m : Obj.t num) (k k' : string) (p : num) :
  In k' (map fst (accumulate m k p)) <-> k' = k \/ In k' (map fst m).
Proof. unfold accumulate. apply set_In. Qed.

Lemma grouped_app (l1 l2 : list A) (m : Obj.t num) :
  grouped skip key val (l1 ++ l2) m
  = grouped skip key val l2 (grouped skip key val l1 m).
Proof. apply fold_left_app. Qed.

Lemma grouped_cons (a : A) (l : list A) (m : Obj.t num) :
  grouped skip key val (a :: l) m
  = grouped skip key val l
      (if skip a then m else accumulate m (key a) (val a)).
Proof. reflexivity. Qed.

(** A skipped element leaves no trace. *)
Lemma grouped_skipped (l1 l2 : list A) (a : A) (m : Obj.t num) :
  skip a = true ->
  grouped skip key val (l1 ++ a :: l2) m = grouped skip key val (l1 ++ l2) m.
Proof.
  intros Ha. rewrite !grouped_app, grouped_cons. now rewrite Ha.
Qed.

Lemma grouped_keys (l : list A) (m : Obj.t num) (k : string) :
  In k (map fst (grouped skip key val l m))
  <-> In k (map fst m) \/ exists a, In a l /\ skip a = false /\ key a = k.
Proof.
  revert m. induction l as [|a l IH]; intros m.
  - simpl. split; [auto|]. intros [H|[a [[] _]]]. exact H.
  - rewrite grouped_cons, IH. destruct (skip a) eqn:Ha.
    + split.
      * intros [H|[b [Hb Hk]]]; [auto|]. right. exists b. simpl. tauto.
      * intros [H|[b [[<-|Hb] [Hs Hk]]]]; [auto| congruence |].
        right. exists b. tauto.
    + rewrite accumulate_In. split.
      * intros [[->|H]|[b [Hb Hk]]]; [|auto|].
        -- right. exists a. simpl. auto.
        -- right. exists b. simpl. tauto.
      * intros [H|[b [[<-|Hb] [Hs Hk]]]]; [auto|auto|].
        right. exists b. tauto.
Qed.

Lemma grouped_NoDup (l : list A) (m : Obj.t num) :
  NoDup (map fst m) -> NoDup (map fst (grouped skip key val l m)).
Proof.
  revert m. induction l as [|a l IH]; intros m Hm; [exact Hm|].
  rewrite grouped_cons. apply IH. destruct (skip a); [exact Hm|].
  unfold accumulate. now apply set_NoDup.
Qed.

(** The property [k] holds what its members added, in their order. *)
Lemma grouped_get (l : list A) (m : Obj.t num) (k : string) :
  Obj.get k (grouped skip key val l m)
  = added val (members skip key k l) (Obj.get k m).
Proof.
  revert m. induction l as [|a l IH]; intros m; [reflexivity|].
  rewrite grouped_cons, IH. unfold members. cbn [filter].
  destruct (skip a); cbn [negb andb]; [reflexivity|].
  destruct (String.eqb (key a) k) eqn:E.
  - apply String.eqb_eq in E. subst k. unfold accumulate.
    now rewrite get_set_same.
  - apply String.eqb_neq in E. unfold accumulate.
    rewrite get_set_other by congruence. reflexivity.
Qed.
End GroupingFacts.

(* ================================================================== *)
(** * Facts about the daily and the monthly series *)

Section SeriesFacts.
Context {num : Type} {NUM : JsNumber num} {HOST : JsHost}.
Local Open Scope string_scope.
Local Open Scope list_scope.
Import ObjFacts.

Lemma dailyProfitMap_grouped (trades : list (row num)) :
  dailyProfitMap trades
  = grouped no_day dateStr profit_of (validTrades trades) Obj.empty.
Proof. reflexivity. Qed.

Lemma monthlyProfitMap_grouped (daily : list (DailyData.t num)) :
  monthlyProfitMap daily
  = grouped (fun _ => false) (fun item => Str.take 7 (DailyData.date item))
            DailyData.profit daily Obj.empty.
Proof. reflexivity. Qed.

Lemma dailyProfitMap_NoDup (trades : list (row num)) :
  NoDup (map fst (dailyProfitMap trades)).
Proof. rewrite dailyProfitMap_grouped. apply grouped_NoDup. constructor. Qed.

Lemma dailyProfitMap_keys (trades : list (row num)) (d : string) :
  In d (map fst (dailyProfitMap trades))
  <-> d <> "" /\ exists t, In t (validTrades trades) /\ dateStr t = d.
Proof.
  rewrite dailyProfitMap_grouped, grouped_keys. unfold no_day. simpl. split.
  - intros [[]|[t [Ht [Hs Hk]]]]. split; [|eauto].
    intros ->. rewrite Hk in Hs. discriminate.
  - intros [Hne [t [Ht Hk]]]. right. exists t. repeat split; auto.
    rewrite Hk. destruct d; [congruence | reflexivity].
Qed.

Lemma dailyProfitMap_get (trades : list (row num)) (d : string) :
  d <> "" ->
  Obj.get d (dailyProfitMap trades) = day_profit d (validTrades trades).
Proof.
  intros Hne. rewrite dailyProfitMap_grouped, grouped_get.
  unfold day_profit, added, members. f_equal.
  apply filter_ext. intros t. unfold no_day.
  destruct (String.eqb (dateStr t) d) eqn:E; [|apply andb_false_r].
  apply String.eqb_eq in E. rewrite E.
  destruct d; [congruence | reflexivity].
Qed.

Lemma lookup_get (k : string) (m : Obj.t num) :
  In k (map fst m) -> Obj.get k m = Some (lookup k m).
Proof.
  intros Hk. apply get_In in Hk. unfold lookup.
  destruct (Obj.get k m); congruence.
Qed.

(** ** The sorted buckets *)

Lemma dailyBuckets_dates (m : Obj.t num) :
  map DailyData.date (dailyBuckets m) = Obj.keys m.
Proof. unfold dailyBuckets. rewrite map_map. apply map_id. Qed.

Lemma dailyBuckets_profits (m : Obj.t num) :
  map DailyData.profit (dailyBuckets m) = values m.
Proof. unfold dailyBuckets, values. now rewrite map_map. Qed.

Lemma sortedDailyBuckets_dates (m : Obj.t num) :
  map DailyData.date (sortedDailyBuckets m) = sortBy by_date (Obj.keys m).
Proof.
  unfold sortedDailyBuckets.
  rewrite (sortBy_map DailyData.date by_date). now rewrite dailyBuckets_dates.
Qed.

Lemma sortedDailyBuckets_In (m : Obj.t num) (b : DailyData.t num) :
  In b (sortedDailyBuckets m) ->
  In (DailyData.date b) (map fst m)
  /\ DailyData.profit b = lookup (DailyData.date b) m.
Proof.
  unfold sortedDailyBuckets. rewrite sortBy_In. unfold dailyBuckets.
  rewrite in_map_iff. intros [d [<- Hd]]. simpl.
  split; [now apply keys_In | reflexivity].
Qed.

(** ** The walk *)

Lemma dailyWalk_dates (ib c pb : num) (items : list (DailyData.t num)) :
  map DailyData.date (dailyWalk ib c pb items) = map DailyData.date items.
Proof.
  revert c pb. induction items as [|item items IH]; intros c pb; simpl;
    [reflexivity|]. now rewrite IH.
Qed.

Lemma dailyWalk_profits (ib c pb : num) (items : list (DailyData.t num)) :
  map DailyData.profit (dailyWalk ib c pb items) = map DailyData.profit items.
Proof.
  revert c pb. induction items as [|item items IH]; intros c pb; simpl;
    [reflexivity|]. now rewrite IH.
Qed.

Lemma dailyWalk_In (ib c pb : num) (items : list (DailyData.t num))
      (b : DailyData.t num) :
  In b (dailyWalk ib c pb items) ->
  exists item, In item items
               /\ DailyData.date b = DailyData.date item
               /\ DailyData.profit b = DailyData.profit item.
Proof.
  revert c pb. induction items as [|item items IH]; intros c pb; simpl;
    [tauto|].
  intros [<-|Hb].
  - exists item. simpl. auto.
  - destruct (IH _ _ Hb) as [x [Hx Hd]]. exists x. auto.
Qed.

(** The state of the loop when it reaches bucket [i]. *)
Lemma dailyWalk_nth (ib c pb : num) (items : list (DailyData.t num))
      (i : nat) (b : DailyData.t num) :
  nth_error (dailyWalk ib c pb items) i = Some b ->
  DailyData.cumulativeProfit b
  = fold_left num_add (firstn (S i) (map DailyData.profit items)) c
  /\ DailyData.balance b = (ib + DailyData.cumulativeProfit b)%js
  /\ DailyData.dailyPercentChange b
     = percent_of (DailyData.profit b)
                  (balance_before pb (dailyWalk ib c pb items) i).
Proof.
  revert c pb i. induction items as [|item items IH]; intros c pb i Hb.
  - destruct i; discriminate.
  - destruct i as [|i]; cbn [dailyWalk nth_error] in Hb.
    + injection Hb as <-. cbn. auto.
    + destruct (IH _ _ _ Hb) as [Hc [Hbal Hp]].
      split; [exact Hc|]. split; [exact Hbal|].
      rewrite Hp. f_equal. destruct i; reflexivity.
Qed.

(** ** The monthly series *)

Lemma monthlyWalk_months (ib c pb : num) (items : list (string * num)) :
  map MonthlyData.month (monthlyWalk ib c pb items) = map fst items.
Proof.
  revert c pb. induction items as [|item items IH]; intros c pb; simpl;
    [reflexivity|]. now rewrite IH.
Qed.

Lemma monthlyWalk_profits (ib c pb : num) (items : list (string * num)) :
  map MonthlyData.profit (monthlyWalk ib c pb items) = map snd items.
Proof.
  revert c pb. induction items as [|item items IH]; intros c pb; simpl;
    [reflexivity|]. now rewrite IH.
Qed.

Lemma monthlyDataArray_perm (m : Obj.t num) :
  Permutation (monthlyDataArray m)
              (map (fun month => (month, lookup month m)) (Obj.keys m)).
Proof. apply sortBy_perm. Qed.

Lemma monthlyData_months (trades : list (row num)) (ib : num) (k : string) :
  In k (map MonthlyData.month (monthlyDataOf trades ib))
  <-> exists b, In b (dailyDataOf trades ib)
                /\ Str.take 7 (DailyData.date b) = k.
Proof.
  unfold monthlyDataOf. rewrite monthlyWalk_months.
  set (daily := dailyDataOf trades ib).
  assert (Hperm : Permutation (map fst (monthlyDataArray (monthlyProfitMap daily)))
                              (Obj.keys (monthlyProfitMap daily))).
  { eapply Permutation_trans;
      [apply Permutation_map, monthlyDataArray_perm|].
    rewrite map_map. simpl. rewrite map_id. apply Permutation_refl. }
  split.
  - intros Hk. apply (Permutation_in _ Hperm), keys_In in Hk.
    rewrite monthlyProfitMap_grouped in Hk. apply grouped_keys in Hk.
    destruct Hk as [[]|[b [Hb [_ Hk]]]]. eauto.
  - intros [b [Hb Hk]].
    apply (Permutation_in _ (Permutation_sym Hperm)), keys_In.
    rewrite monthlyProfitMap_grouped. apply grouped_keys. right.
    exists b. auto.
Qed.

Lemma dailyData_dates (trades : list (row num)) (ib : num) :
  map DailyData.date (dailyDataOf trades ib)
  = sortBy by_date (Obj.keys (dailyProfitMap trades)).
Proof.
  unfold dailyDataOf. now rewrite dailyWalk_dates, sortedDailyBuckets_dates.
Qed.

Lemma dailyData_In_date (trades : list (row num)) (ib : num) (d : string) :
  In d (map DailyData.date (dailyDataOf trades ib))
  <-> d <> "" /\ exists t, In t (validTrades trades) /\ dateStr t = d.
Proof.
  rewrite dailyData_dates, sortBy_In, keys_In. apply dailyProfitMap_keys.
Qed.
End SeriesFacts.

(* ================================================================== *)
(** * The reconciler: the day-over-day changes and the patch *)

Section Reconciler.
Context {num : Type} {NUM : JsNumber num} {HOST : JsHost}.
Local Open Scope string_scope.
Local Open Scope list_scope.

(** C6, as the program has it.  The day-over-day changes are computed over
    the distinct day texts of the equity snapshots, each at the level of its
    last snapshot, provided no snapshot is dated [__proto__].  The days are
    in ascending order when the host reads every one of them as a date.  In
    the order of the days the first day's change is zero; the change of a
    later day is [(curr - prev) / prev * 100] for the levels [curr] of the
    day and [prev] of the day before, and zero when [prev] is zero.  In
    scenario C the change of 2024-01-02 is 10. *)
Theorem equity_day_changes (trades activity : list (row num)) (s : Stats num) :
  handleFileUpload trades activity = Some s ->
  assignable (realizedEquityData s) ->
  let equity := realizedEquityData s in
  let days := sortedDates equity in
  let levels := dailyRealizedMap equity in
  let pct := dailyPercentMap equity in
  NoDup days
  /\ (forall d, In d days <-> In d (map RealizedEquityData.date equity))
  /\ ((forall d, In d days -> readable d) -> StronglySorted ascending days)
  /\ (forall d,
         In d days ->
         Obj.get d levels
         = option_map RealizedEquityData.realizedEquity
             (find_last (fun r => String.eqb (RealizedEquityData.date r) d)
                        equity))
  /\ (forall d, nth_error days 0 = Some d -> Obj.get d pct = Some zero)
  /\ (forall i p d,
         nth_error days i = Some p ->
         nth_error days (S i) = Some d ->
         let prev := lookup p levels in
         let curr := lookup d levels in
         ((prev =? zero)%js = true -> Obj.get d pct = Some zero)
         /\ ((prev =? zero)%js = false ->
             Obj.get d pct = Some ((curr - prev) / prev * hundred)%js))
  /\ option_map
       (fun r => Obj.get "2024-01-02"
                   (@dailyPercentMap float FloatNumber ReferenceHost
                      (realizedEquityData r)))
       (@handleFileUpload float FloatNumber ReferenceHost [] Scenario.equityC)
     = Some (Some 10%float).
Proof.
  intros _ _ equity days levels pct.
  split; [apply sortedDates_NoDup|].
  split; [intros d; apply sortedDates_In|].
  split.
  { intros Hr. apply readable_strongly_sorted; [exact Hr|].
    apply by_date_ascending, sortBy_sorted. }
  split.
  { intros d _. unfold levels, dailyRealizedMap. rewrite assigned_get.
    now destruct (find_last _ equity). }
  split; [intros d; apply percentMap_first, sortedDates_NoDup|].
  split; [|vm_compute; reflexivity].
  intros i p d Hp Hd prev curr.
  pose proof (percentMap_next levels i (sortedDates_NoDup equity) Hp Hd) as Hg.
  fold pct in Hg. unfold change, num_neqb in Hg. fold prev curr in Hg.
  split; intros Hz; rewrite Hz in Hg; exact Hg.
Qed.

Lemma points_Forall2_dates (rows : list (row num))
      (points : list (RealizedEquityData.t num)) :
  realizedEquityDataOf rows = Some points ->
  Forall2 (fun r p => exists raw,
                        Obj.get "Date" r = Some (VStr raw)
                        /\ RealizedEquityData.date p = formatDate raw)
          rows points.
Proof.
  revert points. induction rows as [|r rows IH]; intros points;
    cbn [realizedEquityDataOf].
  - intros [= <-]. constructor.
  - unfold date_of.
    destruct (Obj.get "Date" r) as [[raw|x]|] eqn:Ed; try discriminate.
    destruct (realizedEquityDataOf rows) as [pts|]; [|discriminate].
    intros [= <-]. constructor; [|now apply IH].
    exists raw. split; [exact Ed | reflexivity].
Qed.

Lemma Forall2_In_r (A B : Type) (R : A -> B -> Prop) (l : list A)
      (l' : list B) (y : B) :
  Forall2 R l l' -> In y l' -> exists x, In x l /\ R x y.
Proof.
  induction 1 as [|a b l l' Hab _ IH]; intros Hy; [destruct Hy|].
  destruct Hy as [<-|Hy].
  - exists a. split; [now left | exact Hab].
  - destruct (IH Hy) as [x [Hx HR]]. exists x. split; [now right | exact HR].
Qed.

Lemma Forall2_In_l (A B : Type) (R : A -> B -> Prop) (l : list A)
      (l' : list B) (x : A) :
  Forall2 R l l' -> In x l -> exists y, In y l' /\ R x y.
Proof.
  induction 1 as [|a b l l' Hab _ IH]; intros Hx; [destruct Hx|].
  destruct Hx as [<-|Hx].
  - exists b. split; [now left | exact Hab].
  - destruct (IH Hx) as [y [Hy HR]]. exists y. split; [now right | exact HR].
Qed.

(** The days of the equity series are the formatted dates of the rows. *)
Lemma equity_dates (activity : list (row num))
      (equity : list (RealizedEquityData.t num)) (d : string) :
  realizedEquityDataOf (sortedActivity activity) = Some equity ->
  (In d (map RealizedEquityData.date equity)
   <-> exists r raw, In r activity /\ dated r raw /\ formatDate raw = d).
Proof.
  intros He. apply points_Forall2_dates in He. unfold dated. split.
  - intros Hd. apply in_map_iff in Hd. destruct Hd as [p [<- Hp]].
    destruct (@Forall2_In_r _ _ _ _ _ _ He Hp) as [r [Hr [raw [Hraw Hf]]]].
    exists r, raw. split; [|split; [exact Hraw | now rewrite Hf]].
    unfold sortedActivity in Hr. now apply sortBy_In in Hr.
  - intros [r [raw [Hr [Hraw <-]]]].
    assert (Hs : In r (sortedActivity activity))
      by (unfold sortedActivity; now apply sortBy_In).
    destruct (@Forall2_In_l _ _ _ _ _ _ He Hs) as [p [Hp [raw' [Hraw' Hf]]]].
    apply in_map_iff. exists p. split; [|exact Hp].
    rewrite Hf. congruence.
Qed.

(** C7.  On series whose days and months name no member of
    [Object.prototype], and for snapshots of which none is dated
    [__proto__]: the equity series of an upload is read from the activity
    rows, and the patch keeps the number and the order of the buckets and,
    in each bucket, the date or month, the profit, the cumulative profit and
    the balance.  It overwrites the percent change of the daily buckets
    whose date is the formatted date of an activity row, with the change
    computed for that day, and of the monthly buckets whose month is the
    month of such a date; the other buckets keep the percent change of
    [computeStats].  For a bucket dated by the name of a member, the test
    [dailyPercentMap[item.date] !== undefined] of the program holds without
    any activity row: with one trade closing "constructor" and no activity
    row, the change map has no property and the test reads the inherited
    member. *)
Theorem patch_frame (trades activity : list (row num)) (s : Stats num) :
  handleFileUpload trades activity = Some s ->
  plain_days trades ->
  assignable (realizedEquityData s) ->
  let base :=
    computeStats trades (initialBalanceOf (sortedActivity activity)) in
  let equity := realizedEquityData s in
  realizedEquityDataOf (sortedActivity activity) = Some equity
  /\ List.length (dailyData s) = List.length (dailyData base)
  /\ List.length (monthlyData s) = List.length (monthlyData base)
  /\ Forall2 (daily_patched (dailyPercentMap equity))
             (dailyData base) (dailyData s)
  /\ Forall2 (monthly_patched (monthlyPercentMap equity))
             (monthlyData base) (monthlyData s)
  /\ (forall d,
         Obj.get d (dailyPercentMap equity) <> None
         <-> exists r raw,
             In r activity /\ dated r raw /\ formatDate raw = d)
  /\ (forall m,
         Obj.get m (monthlyPercentMap equity) <> None
         <-> exists r raw,
             In r activity /\ dated r raw
             /\ Str.take 7 (formatDate raw) = m)
  /\ (forall b,
         In b (dailyData base) ->
         Proto.defined (DailyData.date b) (dailyPercentMap equity) = true
         <-> Obj.get (DailyData.date b) (dailyPercentMap equity) <> None)
  /\ (forall b,
         In b (monthlyData base) ->
         Proto.defined (MonthlyData.month b) (monthlyPercentMap equity) = true
         <-> Obj.get (MonthlyData.month b) (monthlyPercentMap equity) <> None)
  /\ (let a := @computeStats float FloatNumber ReferenceHost
                 Uploads.memberDated 0%float in
      let pct := @dailyPercentMap float FloatNumber ReferenceHost [] in
      map DailyData.date (dailyData a) = ["constructor"]
      /\ Obj.get "constructor" pct = None
      /\ Proto.defined "constructor" pct = true
      /\ Proto.lookup "constructor" pct = Proto.Inherited).
Proof.
  intros Hs Hplain _ base equity.
  destruct (handleFileUpload_Some _ _ Hs) as [He [Hd Hm]].
  fold base equity in He, Hd, Hm. rewrite Hd, Hm.
  split; [exact He|].
  split; [unfold patchDaily; apply length_map|].
  split; [unfold patchMonthly; apply length_map|].
  split; [apply patchDaily_frame|].
  split; [apply patchMonthly_frame|].
  split.
  { intros d. unfold dailyPercentMap. rewrite percentMap_keys, sortedDates_In.
    now apply equity_dates. }
  split.
  { intros m. unfold monthlyPercentMap.
    rewrite percentMap_keys, sortedMonths_In. split.
    - intros [p [Hp Hk]].
      assert (Hin : In (RealizedEquityData.date p)
                       (map RealizedEquityData.date equity))
        by now apply in_map.
      apply (equity_dates activity _ He) in Hin.
      destruct Hin as [r [raw [Hr [Hraw Hf]]]].
      exists r, raw. rewrite Hf. auto.
    - intros [r [raw [Hr [Hraw Hk]]]].
      assert (Hin : In (formatDate raw) (map RealizedEquityData.date equity)).
      { apply (equity_dates activity _ He). eauto. }
      apply in_map_iff in Hin. destruct Hin as [p [Hp Hin]].
      exists p. split; [exact Hin | now rewrite Hp]. }
  split.
  { intros b Hb. unfold Proto.defined, Proto.lookup.
    assert (Hp : plain (DailyData.date b)).
    { assert (Hin : In (DailyData.date b)
                       (map DailyData.date (dailyData base)))
        by now apply in_map.
      unfold base in Hin. cbn [dailyData computeStats] in Hin.
      apply dailyData_In_date in Hin. destruct Hin as [_ [t [Ht <-]]].
      now apply Hplain. }
    unfold plain in Hp. rewrite Hp.
    destruct (Obj.get (DailyData.date b) (dailyPercentMap equity));
      split; congruence. }
  split; [|vm_compute; repeat split; reflexivity].
  intros b Hb. unfold Proto.defined, Proto.lookup.
  assert (Hp : plain (MonthlyData.month b)).
  { assert (Hin : In (MonthlyData.month b)
                     (map MonthlyData.month (monthlyData base)))
      by now apply in_map.
    unfold base in Hin. cbn [monthlyData computeStats] in Hin.
    apply monthlyData_months in Hin. destruct Hin as [d [Hd' Hk]].
    assert (Hin : In (DailyData.date d)
                     (map DailyData.date
                          (dailyDataOf trades
                             (initialBalanceOf (sortedActivity activity)))))
      by now apply in_map.
    apply dailyData_In_date in Hin. destruct Hin as [_ [t [Ht Hdt]]].
    rewrite <- Hk, <- Hdt. now apply Hplain. }
  unfold plain in Hp. rewrite Hp.
  destruct (Obj.get (MonthlyData.month b) (monthlyPercentMap equity));
    split; congruence.
Qed.
End Reconciler.

Lemma tradesA_plain : plain_days Scenario.tradesA.
Proof.
  intros t Ht. vm_compute in Ht.
  destruct Ht as [<-|[<-|[<-|[]]]]; split; reflexivity.
Qed.

Lemma equity_day_changes_witness :
  exists s : Stats float,
    handleFileUpload Scenario.tradesA Scenario.equityC = Some s
    /\ assignable (realizedEquityData s)
    /\ sortedDates (realizedEquityData s) = ["2024-01-01"; "2024-01-02"]%string
    /\ Obj.get "2024-01-02"%string (dailyPercentMap (realizedEquityData s))
       = Some 10%float
    /\ StronglySorted ascending (sortedDates (realizedEquityData s)).
Proof.
  let r := eval vm_compute in
             (handleFileUpload Scenario.tradesA Scenario.equityC) in
  match r with
  | Some ?s =>
      exists s;
      assert (Hs : handleFileUpload Scenario.tradesA Scenario.equityC = Some s)
        by (vm_compute; reflexivity);
      assert (Ha : assignable (realizedEquityData s))
        by (intros p Hp; vm_compute in Hp;
            destruct Hp as [<-|[<-|[]]]; vm_compute; discriminate);
      pose proof (@equity_day_changes float FloatNumber ReferenceHost
                    Scenario.tradesA Scenario.equityC s Hs Ha) as H
  end.
  split; [exact Hs|]. split; [exact Ha|].
  split; [vm_compute; reflexivity|].
  split; [vm_compute; reflexivity|].
  apply (proj1 (proj2 (proj2 H))).
  intros d Hd. vm_compute in Hd.
  destruct Hd as [<-|[<-|[]]]; vm_compute; discriminate.
Defined.

(** With a date that is no date among the snapshots the days are out of
    order: 2024-01-02 comes first and has the change zero, and the change of
    2024-01-01 is taken from the level of the unreadable day. *)
Lemma equity_days_out_of_order :
  exists s : Stats float,
    handleFileUpload [] Scenario.equityOutOfOrder = Some s
    /\ sortedDates (realizedEquityData s)
       = ["2024-01-02"; "garbage"; "2024-01-01"]%string
    /\ date_time "2024-01-02" = Some 1704153600000%Z
    /\ date_time "2024-01-01" = Some 1704067200000%Z
    /\ Obj.get "2024-01-02"%string (dailyPercentMap (realizedEquityData s))
       = Some 0%float
    /\ Obj.get "2024-01-01"%string (dailyPercentMap (realizedEquityData s))
       = Some ((1000 - 1050) / 1050 * 100)%float
    /\ ~ StronglySorted ascending (sortedDates (realizedEquityData s)).
Proof.
  eexists. split; [vm_compute; reflexivity|].
  repeat (split; [vm_compute; reflexivity|]).
  intros Hs. change (sortedDates _) with
    ["2024-01-02"; "garbage"; "2024-01-01"]%string in Hs.
  apply StronglySorted_inv in Hs. destruct Hs as [_ Hf].
  apply Forall_inv_tail, Forall_inv in Hf.
  specialize (Hf 1704153600000%Z 1704067200000%Z eq_refl eq_refl).
  revert Hf. vm_compute. intros Hf. now apply Hf.
Qed.

Lemma patch_frame_witness :
  exists s : Stats float,
    handleFileUpload Scenario.tradesA Scenario.equityC = Some s
    /\ plain_days Scenario.tradesA
    /\ assignable (realizedEquityData s)
    /\ map DailyData.date (dailyData s) = ["2024-01-01"; "2024-01-02"]%string
    /\ map DailyData.dailyPercentChange
           (dailyData (computeStats Scenario.tradesA 1000%float))
       = [5%float; (20 / 1050 * 100)%float]
    /\ map DailyData.dailyPercentChange (dailyData s) = [0%float; 10%float]
    /\ Forall2 (daily_patched (dailyPercentMap (realizedEquityData s)))
               (dailyData (computeStats Scenario.tradesA 1000%float))
               (dailyData s).
Proof.
  let r := eval vm_compute in
             (handleFileUpload Scenario.tradesA Scenario.equityC) in
  match r with
  | Some ?s =>
      exists s;
      assert (Hs : handleFileUpload Scenario.tradesA Scenario.equityC = Some s)
        by (vm_compute; reflexivity);
      assert (Ha : assignable (realizedEquityData s))
        by (intros p Hp; vm_compute in Hp;
            destruct Hp as [<-|[<-|[]]]; vm_compute; discriminate);
      pose proof (@patch_frame float FloatNumber ReferenceHost
                    Scenario.tradesA Scenario.equityC s Hs tradesA_plain Ha)
        as H
  end.
  split; [exact Hs|]. split; [exact tradesA_plain|]. split; [exact Ha|].
  split; [vm_compute; reflexivity|].
  split; [vm_compute; reflexivity|].
  split; [vm_compute; reflexivity|].
  apply (proj1 (proj2 (proj2 (proj2 H)))).
Defined.

(* ================================================================== *)
(** * The daily series *)

Section DailySeries.
Context {num : Type} {NUM : JsNumber num} {HOST : JsHost}.
Local Open Scope string_scope.
Local Open Scope list_scope.

(** C1, as the program has it.  For every list of trade rows of which no
    day text or month names a member of [Object.prototype], and every
    initial balance, [dailyData] has one bucket for each day text of a valid
    trade.  The profit of a bucket is what the loop leaves in the property
    of its day: the profits of that day's trades added in row order,
    [(m[d] || 0) + p], so that a running total that is zero or [NaN] counts
    as zero when the next profit is added.  The buckets are in ascending
    order of their days when the host reads every day text as a date.  In
    the order of the series, the cumulative profit of a bucket is the sum of
    the bucket profits up to it, its balance is the initial balance plus its
    cumulative profit, and its percent change is [profit / previous * 100],
    zero when [previous] is zero, where [previous] is the initial balance for
    the first bucket and the balance of the bucket before for the others.
    The three trades of scenario A with the initial balance 1000 give the two
    buckets of the specification. *)
Theorem daily_series_walk (trades : list (row num)) (initialBalance : num) :
  plain_days trades ->
  let series := dailyData (computeStats trades initialBalance) in
  NoDup (map DailyData.date series)
  /\ (forall d,
         In d (map DailyData.date series)
         <-> d <> "" /\ exists t, In t (validTrades trades) /\ dateStr t = d)
  /\ ((forall d, In d (map DailyData.date series) -> readable d) ->
      StronglySorted ascending (map DailyData.date series))
  /\ (forall b,
         In b series ->
         Some (DailyData.profit b)
         = day_profit (DailyData.date b) (validTrades trades))
  /\ (forall i b,
         nth_error series i = Some b ->
         let previous := balance_before initialBalance series i in
         DailyData.cumulativeProfit b
         = sum (firstn (S i) (map DailyData.profit series))
         /\ DailyData.balance b
            = (initialBalance + DailyData.cumulativeProfit b)%js
         /\ ((previous =? zero)%js = true ->
             DailyData.dailyPercentChange b = zero)
         /\ ((previous =? zero)%js = false ->
             DailyData.dailyPercentChange b
             = (DailyData.profit b / previous * hundred)%js))
  /\ (let a := @computeStats float FloatNumber ReferenceHost
                 Scenario.tradesA 1000%float in
      totalTrades a = 3
      /\ totalProfit a = 70%float
      /\ dailyData a
         = [DailyData.mk "2024-01-01" 50%float 50%float 1050%float 5%float;
            DailyData.mk "2024-01-02" 20%float 70%float 1070%float
                         (20 / 1050 * 100)%float]
      /\ PrimFloat.ltb (1904 / 1000)%float (20 / 1050 * 100)%float = true
      /\ PrimFloat.ltb (20 / 1050 * 100)%float (1906 / 1000)%float = true).
Proof.
  intros _. cbn zeta. cbn [dailyData computeStats].
  split.
  { rewrite dailyData_dates.
    apply sortBy_NoDup, ObjFacts.keys_NoDup, dailyProfitMap_NoDup. }
  split; [intros d; apply dailyData_In_date|].
  split.
  { intros Hr. apply readable_strongly_sorted; [exact Hr|].
    rewrite dailyData_dates. apply by_date_ascending, sortBy_sorted. }
  split.
  { intros b Hb. unfold dailyDataOf in Hb.
    apply dailyWalk_In in Hb. destruct Hb as [item [Hitem [Hd Hp]]].
    apply sortedDailyBuckets_In in Hitem. destruct Hitem as [Hk Hv].
    rewrite Hd, Hp, Hv, <- (lookup_get _ _ Hk).
    apply dailyProfitMap_get.
    apply dailyProfitMap_keys in Hk. tauto. }
  split; [|vm_compute; repeat split; reflexivity].
  intros i b Hb. unfold dailyDataOf in *.
  destruct (dailyWalk_nth _ _ _ _ _ Hb) as [Hc [Hbal Hp]].
  rewrite dailyWalk_profits.
  split; [exact Hc|]. split; [exact Hbal|].
  rewrite Hp. unfold percent_of, num_neqb.
  split; intros Hz; now rewrite Hz.
Qed.

End DailySeries.

Lemma daily_series_walk_witness :
  let series := dailyData (computeStats Scenario.tradesA 1000%float) in
  plain_days Scenario.tradesA
  /\ map DailyData.date series = ["2024-01-01"; "2024-01-02"]%string
  /\ map DailyData.profit series = [50%float; 20%float]
  /\ StronglySorted ascending (map DailyData.date series).
Proof.
  cbn zeta. split; [exact tradesA_plain|].
  split; [vm_compute; reflexivity|].
  split; [vm_compute; reflexivity|].
  refine (proj1 (proj2 (proj2
            (@daily_series_walk float FloatNumber ReferenceHost
               Scenario.tradesA 1000%float tradesA_plain))) _).
  intros d Hd. vm_compute in Hd.
  destruct Hd as [<-|[<-|[]]]; vm_compute; discriminate.
Defined.

(** With a close date that is no date among the trades the buckets are out
    of order: 2024-01-02 comes before 2024-01-01, and the cumulative profits
    follow the series. *)
Lemma daily_series_out_of_order :
  let series := dailyData (computeStats Scenario.tradesOutOfOrder 1000%float) in
  map DailyData.date series = ["2024-01-02"; "garbage"; "2024-01-01"]%string
  /\ date_time "2024-01-02" = Some 1704153600000%Z
  /\ date_time "2024-01-01" = Some 1704067200000%Z
  /\ map DailyData.cumulativeProfit series = [100%float; 105%float; 125%float]
  /\ ~ StronglySorted ascending (map DailyData.date series).
Proof.
  cbn zeta. repeat (split; [vm_compute; reflexivity|]).
  intros Hs. change (map DailyData.date _) with
    ["2024-01-02"; "garbage"; "2024-01-01"]%string in Hs.
  apply StronglySorted_inv in Hs. destruct Hs as [_ Hf].
  apply Forall_inv_tail, Forall_inv in Hf.
  specialize (Hf 1704153600000%Z 1704067200000%Z eq_refl eq_refl).
  revert Hf. vm_compute. intros Hf. now apply Hf.
Qed.

Lemma misshapen_date_counterexample :
  is_valid Scenario.isoDated = true
  /\ List.length
       (Str.split "/" (hd ""%string (Str.split " " "2024-01-05 10:00:00")))
     <> 3
  /\ map DailyData.date
         (dailyData (computeStats [Scenario.isoDated] 1000%float))
     = ["2024-01-05"%string]
  /\ map DailyData.profit
         (dailyData (computeStats [Scenario.isoDated] 1000%float))
     = [5%float]
  /\ map MonthlyData.month
         (monthlyData (computeStats [Scenario.isoDated] 1000%float))
     = ["2024-01"%string].
Proof.
  split; [reflexivity|]. split; [vm_compute; discriminate|].
  repeat split; vm_compute; reflexivity.
Qed.


(* ================================================================== *)
(** * Sums in exact arithmetic *)

Section ExactFacts.
Context {num : Type} {NUM : JsNumber num} {EXACT : @ExactAddition num NUM}.
Local Open Scope string_scope.
Local Open Scope list_scope.
Import ObjFacts.

Lemma add_zero_r (x : num) : (x + zero)%js = x.
Proof. rewrite add_comm. apply add_zero_l. Qed.

Lemma fold_add (l : list num) (a : num) :
  fold_left num_add l a = (a + sum l)%js.
Proof.
  unfold sum. revert a. induction l as [|x l IH]; intros a; cbn [fold_left].
  - now rewrite add_zero_r.
  - rewrite (IH (a + x)%js), (IH (zero + x)%js), add_zero_l.
    now rewrite add_assoc.
Qed.

Lemma sum_cons (x : num) (l : list num) : sum (x :: l) = (x + sum l)%js.
Proof.
  unfold sum at 1. cbn [fold_left]. now rewrite fold_add, add_zero_l.
Qed.

Lemma sum_perm (l l' : list num) : Permutation l l' -> sum l = sum l'.
Proof.
  induction 1 as [|x l l' _ IH|x y l|l l' l'' _ IH1 _ IH2].
  - reflexivity.
  - now rewrite !sum_cons, IH.
  - rewrite !sum_cons, !add_assoc. f_equal. apply add_comm.
  - now rewrite IH1.
Qed.

Lemma or_zero_id (x : num) : is_nan x = false -> or_zero x = x.
Proof.
  intros Hx. unfold or_zero, num_truthy. rewrite Hx, orb_false_r.
  destruct (x =? zero)%js eqn:E; [|reflexivity].
  symmetry. now apply eqb_zero.
Qed.

Lemma set_values (P : num -> Prop) (k : string) (v : num) (m : Obj.t num) :
  Forall P (map snd m) -> P v -> Forall P (map snd (Obj.set k v m)).
Proof.
  intros Hm Hv. induction m as [|[k' v'] m IH]; cbn [Obj.set map snd].
  - constructor; [exact Hv | constructor].
  - inversion Hm; subst. destruct (String.eqb k k'); cbn [map snd];
      constructor; auto.
Qed.

Lemma accumulate_no_nan (m : Obj.t num) (k : string) (p : num) :
  no_nan (map snd m) -> is_nan p = false ->
  no_nan (map snd (accumulate m k p)).
Proof.
  intros Hm Hp. unfold accumulate. apply set_values; [exact Hm|].
  destruct (Obj.get k m) as [x|] eqn:E.
  - apply add_not_nan; [|exact Hp].
    assert (Hx : is_nan x = false).
    { clear -Hm E. induction m as [|[k' v'] m IH]; [discriminate|].
      inversion Hm; subst. cbn [Obj.get] in E.
      destruct (String.eqb k k'); [congruence | auto]. }
    now rewrite or_zero_id.
  - now rewrite add_zero_l.
Qed.

(** Adding [p] to a property adds [p] to the sum of the properties. *)
Lemma accumulate_sum (m : Obj.t num) (k : string) (p : num) :
  no_nan (map snd m) ->
  sum (map snd (accumulate m k p)) = (sum (map snd m) + p)%js.
Proof.
  intros Hm. unfold accumulate.
  induction m as [|[k' v'] m IH]; cbn [Obj.get Obj.set map snd].
  - rewrite sum_cons. unfold sum at 1 2. cbn [fold_left].
    now rewrite add_zero_r.
  - inversion Hm as [|? ? Hv' Hm']; subst.
    destruct (String.eqb k k'); cbn [map snd]; rewrite !sum_cons.
    + rewrite or_zero_id by exact Hv'.
      rewrite <- !add_assoc. f_equal. apply add_comm.
    + rewrite (IH Hm'). apply add_assoc.
Qed.

Section Grouped.
Variable A : Type.
Variable skip : A -> bool.
Variable key : A -> string.
Variable val : A -> num.

(** The properties of a grouping add up to the sum of what was added. *)
Lemma grouped_sum (l : list A) (m : Obj.t num) :
  no_nan (map snd m) ->
  no_nan (map val l) ->
  no_nan (map snd (grouped skip key val l m))
  /\ sum (map snd (grouped skip key val l m))
     = (sum (map snd m)
        + sum (map val (filter (fun a => negb (skip a)) l)))%js.
Proof.
  revert m. induction l as [|a l IH]; intros m Hm Hl.
  - split; [exact Hm|]. cbn. now rewrite add_zero_r.
  - inversion Hl as [|? ? Ha Hl']; subst.
    rewrite grouped_cons. cbn [filter]. destruct (skip a); cbn [negb].
    + now apply IH.
    + destruct (IH (accumulate m (key a) (val a))) as [Hn Hs];
        [now apply accumulate_no_nan | exact Hl' |].
      split; [exact Hn|].
      rewrite Hs, accumulate_sum by exact Hm. cbn [map].
      now rewrite sum_cons, add_assoc.
Qed.
End Grouped.

Lemma lookup_keys (m : Obj.t num) :
  NoDup (map fst m) -> map (fun k => lookup k m) (map fst m) = map snd m.
Proof.
  induction m as [|[k v] m IH]; cbn [map fst snd]; intros Hn; [reflexivity|].
  inversion Hn as [|? ? Hk Hn']; subst. f_equal.
  - unfold lookup. cbn [Obj.get]. now rewrite String.eqb_refl.
  - rewrite <- (IH Hn'). apply map_ext_in. intros k' Hk'.
    unfold lookup. cbn [Obj.get].
    destruct (String.eqb k' k) eqn:E; [|reflexivity].
    apply String.eqb_eq in E. subst k'. contradiction.
Qed.

Lemma values_perm (m : Obj.t num) :
  NoDup (map fst m) -> Permutation (values m) (map snd m).
Proof.
  intros Hn. rewrite <- (lookup_keys m Hn). unfold values.
  apply Permutation_map, keys_perm.
Qed.

Context {HOST : JsHost}.

Lemma dailyData_profits_perm (trades : list (row num)) (ib : num) :
  Permutation (map DailyData.profit (dailyDataOf trades ib))
              (map snd (dailyProfitMap trades)).
Proof.
  unfold dailyDataOf. rewrite dailyWalk_profits.
  eapply Permutation_trans;
    [apply Permutation_map; unfold sortedDailyBuckets; apply sortBy_perm|].
  rewrite dailyBuckets_profits. apply values_perm, dailyProfitMap_NoDup.
Qed.

Lemma dailyProfitMap_sum (trades : list (row num)) :
  no_nan (map snd (dailyProfitMap trades))
  /\ sum (map snd (dailyProfitMap trades))
     = sum (map profit_of
                (filter (fun t => negb (no_day t)) (validTrades trades))).
Proof.
  rewrite dailyProfitMap_grouped.
  destruct (grouped_sum no_day dateStr profit_of (validTrades trades)
                        Obj.empty) as [Hn Hs].
  - constructor.
  - apply (valid_not_nan trades).
  - split; [exact Hn|]. rewrite Hs. cbn. apply add_zero_l.
Qed.

Lemma filter_all (B : Type) (l : list B) : filter (fun _ => true) l = l.
Proof. induction l as [|x l IH]; cbn; [reflexivity | now rewrite IH]. Qed.

Lemma dailyData_sum (trades : list (row num)) (ib : num) :
  sum (map DailyData.profit (dailyDataOf trades ib))
  = sum (map profit_of
             (filter (fun t => negb (no_day t)) (validTrades trades))).
Proof.
  rewrite (sum_perm (dailyData_profits_perm trades ib)).
  apply dailyProfitMap_sum.
Qed.

Lemma monthlyData_sum (trades : list (row num)) (ib : num) :
  sum (map MonthlyData.profit (monthlyDataOf trades ib))
  = sum (map DailyData.profit (dailyDataOf trades ib)).
Proof.
  unfold monthlyDataOf. rewrite monthlyWalk_profits.
  set (daily := dailyDataOf trades ib).
  assert (Hd : no_nan (map DailyData.profit daily)).
  { unfold no_nan. eapply Permutation_Forall;
      [apply Permutation_sym, dailyData_profits_perm|].
    apply dailyProfitMap_sum. }
  rewrite (sum_perm (Permutation_map snd
                       (monthlyDataArray_perm (monthlyProfitMap daily)))).
  rewrite map_map. cbn [snd]. fold (values (monthlyProfitMap daily)).
  rewrite monthlyProfitMap_grouped.
  match goal with
  | |- sum (values ?m) = _ =>
      assert (Hnd : NoDup (map fst m)) by (apply grouped_NoDup; constructor);
      rewrite (sum_perm (values_perm m Hnd))
  end.
  destruct (grouped_sum (fun _ => false)
              (fun item => Str.take 7 (DailyData.date item))
              DailyData.profit daily Obj.empty) as [_ Hs];
    [constructor | exact Hd |].
  rewrite Hs. cbn [negb]. rewrite filter_all. cbn. apply add_zero_l.
Qed.
End ExactFacts.

(* ================================================================== *)
(** * The bucket profits add up *)

(** Exact arithmetic on integers has the laws of [ExactAddition]. *)
Lemma IntExact : @ExactAddition (option Z) IntNumber.
Proof.
  constructor.
  - intros [x|] [y|]; cbn; try reflexivity. f_equal. apply Z.add_comm.
  - intros [x|] [y|] [z|]; cbn; try reflexivity. f_equal. apply Z.add_assoc.
  - intros [x|]; reflexivity.
  - intros [x|]; cbn; [|discriminate].
    intros Hx. apply Z.eqb_eq in Hx. now subst.
  - intros [x|] [y|]; cbn; congruence.
Qed.

(** A valid trade without a close date is in [totalProfit] and in no
    bucket. *)
Lemma bucket_sums_miss_undated_trade :
  let s := @computeStats float FloatNumber ReferenceHost
             [Scenario.undated] 1000%float in
  is_valid Scenario.undated = true
  /\ totalProfit s = 5%float
  /\ dailyData s = []
  /\ monthlyData s = []
  /\ sum (map DailyData.profit (dailyData s)) = 0%float
  /\ sum (map MonthlyData.profit (monthlyData s)) = 0%float
  /\ PrimFloat.eqb (sum (map DailyData.profit (dailyData s))) (totalProfit s)
     = false
  /\ PrimFloat.eqb (sum (map MonthlyData.profit (monthlyData s)))
                   (totalProfit s)
     = false.
Proof. cbn zeta. repeat split; vm_compute; reflexivity. Qed.

(** On floats the two sums of dated trades can differ by rounding: the
    additions are the same but grouped by day. *)
Lemma bucket_sums_round :
  let s := @computeStats float FloatNumber ReferenceHost
             [Scenario.trade 10000000000000000 "01/01/2024 10:00:00";
              Scenario.trade 1 "02/01/2024 10:00:00";
              Scenario.trade (-10000000000000000) "01/01/2024 12:00:00"]
             1000%float in
  totalProfit s = 0%float
  /\ map DailyData.profit (dailyData s) = [0%float; 1%float]
  /\ sum (map DailyData.profit (dailyData s)) = 1%float.
Proof. cbn zeta. repeat split; vm_compute; reflexivity. Qed.

(* ================================================================== *)
(** * Facts about splitting *)

Section SplitFacts.
Local Open Scope string_scope.
Local Open Scope list_scope.

Lemma has_char_app (c : ascii) (a b : string) :
  has_char c (a ++ b)%string = has_char c a || has_char c b.
Proof.
  induction a as [|x a IH]; cbn; [reflexivity|].
  now rewrite IH, orb_assoc.
Qed.

Lemma split_not_nil (sep : ascii) (s : string) : Str.split sep s <> [].
Proof.
  induction s as [|c s IH]; cbn; [discriminate|].
  destruct (Ascii.eqb c sep); [discriminate|].
  destruct (Str.split sep s); discriminate.
Qed.

(** A string without the separator is its own single part. *)
Lemma split_free (sep : ascii) (s : string) :
  has_char sep s = false -> Str.split sep s = [s].
Proof.
  induction s as [|c s IH]; cbn; [reflexivity|].
  intros H. apply orb_false_iff in H. destruct H as [Hc Hs].
  rewrite Hc, (IH Hs). reflexivity.
Qed.

(** The first separator ends the first part. *)
Lemma split_cut (sep : ascii) (d t : string) :
  has_char sep d = false ->
  Str.split sep (d ++ String sep t)%string = d :: Str.split sep t.
Proof.
  induction d as [|c d IH]; cbn.
  - intros _. now rewrite Ascii.eqb_refl.
  - intros H. apply orb_false_iff in H. destruct H as [Hc Hd].
    rewrite Hc, (IH Hd). reflexivity.
Qed.

(** No part has a character that the string lacks. *)
Lemma split_parts_sub (c sep : ascii) (s : string) :
  has_char c s = false ->
  Forall (fun p => has_char c p = false) (Str.split sep s).
Proof.
  induction s as [|x s IH]; cbn.
  - intros _. repeat constructor.
  - intros H. apply orb_false_iff in H. destruct H as [Hx Hs].
    specialize (IH Hs). destruct (Ascii.eqb x sep).
    + constructor; [reflexivity | exact IH].
    + destruct (Str.split sep s) as [|h t].
      * repeat constructor. cbn. now rewrite Hx.
      * inversion IH; subst. constructor; [|assumption].
        cbn. rewrite Hx. assumption.
Qed.

(** No part has the separator. *)
Lemma split_parts_free (sep : ascii) (s : string) :
  Forall (fun p => has_char sep p = false) (Str.split sep s).
Proof.
  induction s as [|x s IH]; cbn.
  - repeat constructor.
  - destruct (Ascii.eqb x sep) eqn:E.
    + constructor; [reflexivity | exact IH].
    + destruct (Str.split sep s) as [|h t].
      * repeat constructor. cbn. now rewrite E.
      * inversion IH; subst. constructor; [|assumption].
        cbn. rewrite E. assumption.
Qed.

Lemma hd_split_free (sep : ascii) (s : string) :
  has_char sep (hd "" (Str.split sep s)) = false.
Proof.
  pose proof (split_parts_free sep s) as H.
  destruct (Str.split sep s); [reflexivity|]. now inversion H.
Qed.

Lemma hd_split_sub (c sep : ascii) (s : string) :
  has_char c s = false -> has_char c (hd "" (Str.split sep s)) = false.
Proof.
  intros Hc. pose proof (split_parts_sub c sep s Hc) as H.
  destruct (Str.split sep s); [reflexivity|]. now inversion H.
Qed.

(** The part before the first separator is the whole string exactly when
    the string has no separator. *)
Lemma hd_split_whole (sep : ascii) (s : string) :
  hd "" (Str.split sep s) = s <-> has_char sep s = false.
Proof.
  split.
  - intros H. rewrite <- H. apply hd_split_free.
  - intros H. now rewrite (split_free _ _ H).
Qed.

(** The parts of the day text in a text with a time of day. *)
Lemma day_of_stamp (d t : string) :
  has_char " " d = false -> hd "" (Str.split " " (d ++ String " " t)%string) = d.
Proof. intros H. now rewrite (split_cut _ _ t H). Qed.
End SplitFacts.

(* ================================================================== *)
(** * The date helpers *)

Section DateHelpers.
Context {num : Type} {NUM : JsNumber num} {HOST : JsHost}.
Local Open Scope string_scope.
Local Open Scope list_scope.

Lemma formatDate_free (raw : string) :
  has_char " " raw = false ->
  List.length (Str.split "/" raw) <> 3 ->
  formatDate raw = raw.
Proof.
  intros Hs Hl. unfold formatDate. rewrite (split_free _ _ Hs). cbn [hd].
  unfold reorder.
  destruct (Str.split "/" raw) as [|a [|b [|c [|e l]]]]; try reflexivity.
  now contradiction Hl.
Qed.

(** X1.  Formatting a date twice is formatting it once: the text
    [formatDate] returns is a text it returns unchanged, whatever the
    input. *)
Theorem formatDate_idempotent (rawDate : string) :
  formatDate (formatDate rawDate) = formatDate rawDate.
Proof.
  unfold formatDate at 2 3.
  set (p0 := hd "" (Str.split " " rawDate)).
  assert (Hp0 : has_char " " p0 = false) by apply hd_split_free.
  pose proof (split_parts_free "/" p0) as Hslash.
  pose proof (split_parts_sub " " "/" p0 Hp0) as Hspace.
  unfold reorder.
  destruct (Str.split "/" p0) as [|d [|m [|y [|e l]]]] eqn:E;
    try (unfold formatDate, reorder; fold p0; now rewrite E).
  inversion Hslash as [|? ? Hd1 Hslash1]; subst.
  inversion Hslash1 as [|? ? Hm1 Hslash2]; subst.
  inversion Hslash2 as [|? ? Hy1 _]; subst.
  inversion Hspace as [|? ? Hd2 Hspace1]; subst.
  inversion Hspace1 as [|? ? Hm2 Hspace2]; subst.
  inversion Hspace2 as [|? ? Hy2 _]; subst.
  apply formatDate_free.
  - rewrite !has_char_app, Hd2, Hm2, Hy2. reflexivity.
  - rewrite split_free; [cbn; discriminate|].
    rewrite !has_char_app, Hd1, Hm1, Hy1. reflexivity.
Qed.

(** X2.  For a trade whose close date is the non-empty string [raw], the day
    text of [computeStats] is the day text [formatDate] gives to an equity
    snapshot of the same date exactly when [raw] has the shape of three
    parts between slashes or has no space: a close date of another shape
    with a time of day is bucketed without its time and never meets the
    equity day of the same text. *)
Theorem day_texts_agree (trade : row num) (raw : string) :
  Obj.get "Close Date" trade = Some (VStr raw) ->
  raw <> "" ->
  (dateStr trade = formatDate raw
   <-> List.length (Str.split "/" (hd "" (Str.split " " raw))) = 3
       \/ has_char " " raw = false).
Proof.
  intros Hcd Hne. unfold dateStr, formatDate. rewrite Hcd.
  assert (Ht : truthy (Some (@VStr num raw)) = true).
  { cbn. destruct raw; [congruence | reflexivity]. }
  rewrite Ht. cbn [value_to_string].
  set (p0 := hd "" (Str.split " " raw)). unfold reorder.
  destruct (Str.split "/" p0) as [|d [|m [|y [|e l]]]] eqn:E; cbn [List.length];
    try (split; [intros H; right; apply hd_split_whole; exact H
                | intros [H|H]; [discriminate | apply hd_split_whole; exact H]]).
  split; [intros _; now left | reflexivity].
Qed.

(** X3.  A date of the shape [DD/MM/YYYY] gets the same day text with any
    time of day as without one, from [formatDate] and in [computeStats]
    alike: the trades and the snapshots of one day meet in one bucket. *)
Theorem time_of_day_is_dropped (day time : string) (trade : row num) :
  has_char " " day = false ->
  List.length (Str.split "/" day) = 3 ->
  Obj.get "Close Date" trade = Some (VStr (day ++ String " " time)%string) ->
  formatDate (day ++ String " " time)%string = formatDate day
  /\ dateStr trade = formatDate day
  /\ has_char " " (formatDate day) = false
  /\ has_char "/" (formatDate day) = false.
Proof.
  intros Hs Hl Hcd.
  assert (Hf : forall other, reorder (Str.split "/" day) other = formatDate day).
  { intros other. unfold formatDate. rewrite (split_free _ _ Hs). cbn [hd].
    unfold reorder.
    destruct (Str.split "/" day) as [|d [|m [|y [|e l]]]]; try discriminate.
    reflexivity. }
  split; [|split].
  - unfold formatDate at 1. rewrite (day_of_stamp _ time Hs). apply Hf.
  - unfold dateStr. rewrite Hcd.
    assert (Ht : truthy (Some (@VStr num (day ++ String " " time)%string)) = true).
    { cbn. now destruct day. }
    rewrite Ht. cbn [value_to_string]. rewrite (day_of_stamp _ time Hs).
    apply Hf.
  - rewrite <- (Hf ""). unfold reorder.
    pose proof (split_parts_free "/" day) as Hslash.
    pose proof (split_parts_sub " " "/" day Hs) as Hspace.
    destruct (Str.split "/" day) as [|d [|m [|y [|e l]]]]; try discriminate.
    inversion Hslash as [|? ? Hd1 Hslash1]; subst.
    inversion Hslash1 as [|? ? Hm1 Hslash2]; subst.
    inversion Hslash2 as [|? ? Hy1 _]; subst.
    inversion Hspace as [|? ? Hd2 Hspace1]; subst.
    inversion Hspace1 as [|? ? Hm2 Hspace2]; subst.
    inversion Hspace2 as [|? ? Hy2 _]; subst.
    rewrite !has_char_app, Hd1, Hm1, Hy1, Hd2, Hm2, Hy2. split; reflexivity.
Qed.

(** X4.  [parseDate] reads a date without a time of day, or with a space
    and nothing after it, as the same date at midnight. *)
Theorem parseDate_midnight (day : string) :
  has_char " " day = false ->
  parseDate day = parseDate (day ++ " 00:00:00")%string
  /\ parseDate (day ++ " ")%string = parseDate (day ++ " 00:00:00")%string.
Proof.
  intros Hs. unfold parseDate.
  change (day ++ " 00:00:00")%string with (day ++ String " " "00:00:00")%string.
  change (day ++ " ")%string with (day ++ String " " "")%string.
  rewrite (split_free _ _ Hs), !(split_cut _ _ _ Hs).
  split; reflexivity.
Qed.
End DateHelpers.

Lemma day_texts_agree_witness :
  dateStr (Scenario.trade 100 "01/01/2024 10:00:00")
  = formatDate "01/01/2024 10:00:00"
  /\ dateStr Scenario.isoDated <> formatDate "2024-01-05 10:00:00".
Proof.
  split.
  - apply (@day_texts_agree float FloatNumber
             (Scenario.trade 100 "01/01/2024 10:00:00") "01/01/2024 10:00:00"
             eq_refl ltac:(discriminate)).
    left. reflexivity.
  - intros H.
    apply (@day_texts_agree float FloatNumber Scenario.isoDated
             "2024-01-05 10:00:00" eq_refl ltac:(discriminate)) in H.
    destruct H as [H|H]; vm_compute in H; discriminate.
Defined.

Lemma time_of_day_is_dropped_witness :
  formatDate "01/01/2024 10:00:00" = "2024-01-01"%string
  /\ dateStr (Scenario.trade 100 "01/01/2024 10:00:00") = "2024-01-01"%string.
Proof.
  pose proof (@time_of_day_is_dropped float FloatNumber
                "01/01/2024" "10:00:00"
                (Scenario.trade 100 "01/01/2024 10:00:00")
                eq_refl eq_refl eq_refl) as [H1 [H2 _]].
  split; [exact H1 | exact H2].
Defined.

Lemma parseDate_midnight_witness :
  @parseDate ReferenceHost "01/01/2024" = Some 1704067200000%Z
  /\ @parseDate ReferenceHost "01/01/2024"
     = @parseDate ReferenceHost "01/01/2024 00:00:00".
Proof.
  split; [vm_compute; reflexivity|].
  apply (@parseDate_midnight ReferenceHost "01/01/2024" eq_refl).
Defined.

(* ================================================================== *)
(** * The file handler *)

Section HandlerFacts.
Context {num : Type} {NUM : JsNumber num} {HOST : JsHost}.
Local Open Scope string_scope.
Local Open Scope list_scope.

Lemma onload_stats (st : AppState.t num) (r : reading num) :
  AppState.stats (onload st r)
  = match computed r with
    | Some s => Some s
    | None => AppState.stats st
    end.
Proof.
  destruct r as [| | |sheets]; try reflexivity. cbn [onload computed].
  destruct (Obj.get "Closed Positions" sheets) as [tradesData|];
    [|reflexivity].
  destruct (Obj.get "Account Activity" sheets) as [activityData|];
    [|reflexivity].
  now destruct (handleFileUpload tradesData activityData).
Qed.

(** X5.  What one reading does to the state.  The statistics are replaced,
    and the error cleared, exactly when both sheets are there, the [Date]
    cell of every activity row is a string and the valid trades are no more
    than the arguments the host can spread; in every other case the
    statistics stay what they were.  A missing trades sheet is reported
    before a missing activity sheet is looked for; an activity row whose
    date is not a string, or more valid trades than [Math.max] can take,
    gives the error of the [catch] block; no file and no data change
    nothing, not even the error. *)
Theorem upload_outcomes (st : AppState.t num) (r : reading num) :
  (forall s, computed r = Some s -> onload st r = AppState.mk (Some s) "")
  /\ (computed r = None -> AppState.stats (onload st r) = AppState.stats st)
  /\ (r = NoFile \/ r = NoData -> onload st r = st)
  /\ (forall sheets,
         r = Workbook sheets ->
         (Obj.get "Closed Positions" sheets = None ->
          AppState.error (onload st r) = not_found "Closed Positions")
         /\ (Obj.get "Closed Positions" sheets <> None ->
             Obj.get "Account Activity" sheets = None ->
             AppState.error (onload st r) = not_found "Account Activity")
         /\ (forall tradesData activityData,
                Obj.get "Closed Positions" sheets = Some tradesData ->
                Obj.get "Account Activity" sheets = Some activityData ->
                (computed r = None
                 <-> (exists x, In x activityData /\ date_of x = None)
                     \/ spreads tradesData = false)
                /\ (computed r = None ->
                    AppState.error (onload st r) = processing_error)))
  /\ (AppState.error (onload st r) <> "" ->
      AppState.stats (onload st r) = AppState.stats st).
Proof.
  split.
  { intros s Hs. destruct r as [| | |sheets]; try discriminate.
    cbn [onload computed] in *.
    destruct (Obj.get "Closed Positions" sheets); [|discriminate].
    destruct (Obj.get "Account Activity" sheets); [|discriminate].
    now rewrite Hs. }
  split; [intros Hc; rewrite onload_stats; now rewrite Hc|].
  split; [intros [->| ->]; reflexivity|].
  split.
  { intros sheets ->. cbn [onload computed]. split; [|split].
    - now intros ->.
    - intros Hcp ->. now destruct (Obj.get "Closed Positions" sheets).
    - intros tradesData activityData -> ->. split.
      + apply handleFileUpload_None.
      + now intros ->. }
  intros He. rewrite onload_stats.
  destruct (computed r) as [s|] eqn:Hc; [|reflexivity].
  destruct r as [| | |sheets]; try discriminate.
  cbn [onload computed] in *.
  destruct (Obj.get "Closed Positions" sheets); [|discriminate].
  destruct (Obj.get "Account Activity" sheets); [|discriminate].
  rewrite Hc in He. now contradiction He.
Qed.
End HandlerFacts.

Lemma upload_outcomes_witness :
  computed (Workbook Uploads.faulty) = None
  /\ onload (onload initialState (Workbook Uploads.complete))
            (Workbook Uploads.faulty)
     = AppState.mk (computed (Workbook Uploads.complete))
                   "Error processing file."
  /\ AppState.error (onload initialState (Workbook Uploads.activityOnly))
     = not_found "Closed Positions"
  /\ String.length (not_found "Closed Positions") = 56.
Proof.
  pose proof (@upload_outcomes float FloatNumber ReferenceHost
                (onload initialState (Workbook Uploads.complete))
                (Workbook Uploads.faulty)) as [_ [_ [_ [H _]]]].
  destruct (H _ eq_refl) as [_ [_ Hf]].
  destruct (Hf _ _ eq_refl eq_refl) as [Hnone _].
  split; [|repeat split; vm_compute; reflexivity].
  apply Hnone. left.
  exists Uploads.numericDate. split; [now left | reflexivity].
Defined.

Section SessionFacts.
Context {num : Type} {NUM : JsNumber num} {HOST : JsHost}.
Local Open Scope string_scope.
Local Open Scope list_scope.

Lemma session_app (st : AppState.t num) (rs1 rs2 : list (reading num)) :
  session st (rs1 ++ rs2) = session (session st rs1) rs2.
Proof. apply fold_left_app. Qed.

(** X6.  Over any run of uploads the statistics on show are those of the
    last reading that yielded statistics, and the statistics before the run
    when no reading did: a failing upload never clears them, so statistics
    of an earlier file can stand beside the error of a later one. *)
Theorem last_successful_upload_is_shown (st : AppState.t num)
        (rs : list (reading num)) :
  AppState.stats (session st rs)
  = match find_last succeeds rs with
    | Some r => computed r
    | None => AppState.stats st
    end.
Proof.
  unfold find_last. revert st.
  induction rs as [|r rs IH]; intros st; [reflexivity|].
  cbn [rev]. rewrite find_app. unfold session in *. cbn [fold_left].
  rewrite IH. destruct (find succeeds (rev rs)); [reflexivity|].
  cbn [find]. rewrite onload_stats. unfold succeeds.
  now destruct (computed r) eqn:E.
Qed.
End SessionFacts.

(* ================================================================== *)
(** * What the activity sheet changes *)

Section ActivityFacts.
Context {num : Type} {NUM : JsNumber num} {HOST : JsHost}.
Local Open Scope string_scope.
Local Open Scope list_scope.

Lemma patchDaily_empty (daily : list (DailyData.t num)) :
  patchDaily Obj.empty daily = daily.
Proof.
  unfold patchDaily. rewrite <- (map_id daily) at 2. apply map_ext.
  reflexivity.
Qed.

Lemma patchMonthly_empty (monthly : list (MonthlyData.t num)) :
  patchMonthly Obj.empty monthly = monthly.
Proof.
  unfold patchMonthly. rewrite <- (map_id monthly) at 2. apply map_ext.
  reflexivity.
Qed.

(** X7.  With an activity sheet without rows, valid trades within the
    number of arguments the host can spread, and no day text or month that
    names a member of [Object.prototype], the upload succeeds, the initial
    balance is zero and the statistics are those of [computeStats] with that
    balance, untouched by the patch.  With more valid trades the upload
    fails. *)
Theorem empty_activity_sheet (trades : list (row num)) :
  plain_days trades ->
  (spreads trades = true ->
   handleFileUpload trades [] = Some (computeStats trades zero))
  /\ (spreads trades = false -> handleFileUpload trades [] = None).
Proof.
  intros _. unfold handleFileUpload.
  cbn [sortedActivity sortBy realizedEquityDataOf initialBalanceOf].
  split; intros ->; cbn [negb]; [|reflexivity].
  unfold dailyPercentMap, monthlyPercentMap, sortedMonths, sortedDates,
    monthlyRealizedMap, dailyRealizedMap.
  cbn [fold_left Obj.keys]. 
  change (sortBy by_date (Obj.keys Obj.empty)) with (@nil string).
  cbn [fold_left].
  change (sortBy Str.compare (Obj.keys Obj.empty)) with (@nil string).
  cbn [percentMap]. rewrite patchDaily_empty, patchMonthly_empty.
  reflexivity.
Qed.

Lemma patchDaily_dates (pct : Obj.t num) (daily : list (DailyData.t num)) :
  map DailyData.date (patchDaily pct daily) = map DailyData.date daily.
Proof.
  unfold patchDaily. rewrite map_map. apply map_ext. intros b.
  now destruct (Obj.get (DailyData.date b) pct).
Qed.

Lemma patchDaily_profits (pct : Obj.t num) (daily : list (DailyData.t num)) :
  map DailyData.profit (patchDaily pct daily) = map DailyData.profit daily.
Proof.
  unfold patchDaily. rewrite map_map. apply map_ext. intros b.
  now destruct (Obj.get (DailyData.date b) pct).
Qed.

Lemma patchDaily_cumulative (pct : Obj.t num)
      (daily : list (DailyData.t num)) :
  map DailyData.cumulativeProfit (patchDaily pct daily)
  = map DailyData.cumulativeProfit daily.
Proof.
  unfold patchDaily. rewrite map_map. apply map_ext. intros b.
  now destruct (Obj.get (DailyData.date b) pct).
Qed.

Lemma patchMonthly_months (pct : Obj.t num)
      (monthly : list (MonthlyData.t num)) :
  map MonthlyData.month (patchMonthly pct monthly)
  = map MonthlyData.month monthly.
Proof.
  unfold patchMonthly. rewrite map_map. apply map_ext. intros b.
  now destruct (Obj.get (MonthlyData.month b) pct).
Qed.

Lemma patchMonthly_profits (pct : Obj.t num)
      (monthly : list (MonthlyData.t num)) :
  map MonthlyData.profit (patchMonthly pct monthly)
  = map MonthlyData.profit monthly.
Proof.
  unfold patchMonthly. rewrite map_map. apply map_ext. intros b.
  now destruct (Obj.get (MonthlyData.month b) pct).
Qed.

Lemma patchMonthly_cumulative (pct : Obj.t num)
      (monthly : list (MonthlyData.t num)) :
  map MonthlyData.cumulativeProfit (patchMonthly pct monthly)
  = map MonthlyData.cumulativeProfit monthly.
Proof.
  unfold patchMonthly. rewrite map_map. apply map_ext. intros b.
  now destruct (Obj.get (MonthlyData.month b) pct).
Qed.

(** The cumulative profits of a walk depend neither on the initial balance
    nor on the balance before it. *)
Lemma dailyWalk_cumulative (ib ib' c pb pb' : num)
      (items : list (DailyData.t num)) :
  map DailyData.cumulativeProfit (dailyWalk ib c pb items)
  = map DailyData.cumulativeProfit (dailyWalk ib' c pb' items).
Proof.
  revert c pb pb'. induction items as [|item items IH]; intros c pb pb';
    cbn [dailyWalk map]; [reflexivity|].
  f_equal. apply IH.
Qed.

Lemma monthlyWalk_cumulative (ib ib' c pb pb' : num)
      (items : list (string * num)) :
  map MonthlyData.cumulativeProfit (monthlyWalk ib c pb items)
  = map MonthlyData.cumulativeProfit (monthlyWalk ib' c pb' items).
Proof.
  revert c pb pb'. induction items as [|item items IH]; intros c pb pb';
    cbn [monthlyWalk map]; [reflexivity|].
  f_equal. apply IH.
Qed.

(** The monthly profit map reads the dates and the profits of the daily
    buckets, and nothing else. *)
Lemma monthlyProfitMap_ext (l1 l2 : list (DailyData.t num)) :
  map DailyData.date l1 = map DailyData.date l2 ->
  map DailyData.profit l1 = map DailyData.profit l2 ->
  monthlyProfitMap l1 = monthlyProfitMap l2.
Proof.
  unfold monthlyProfitMap. generalize (@Obj.empty num).
  revert l2. induction l1 as [|a l1 IH]; intros [|b l2] m Hd Hp;
    try discriminate; [reflexivity|].
  cbn [map] in Hd, Hp. injection Hd as Hd1 Hd. injection Hp as Hp1 Hp.
  cbn [fold_left]. rewrite Hd1, Hp1. now apply IH.
Qed.

Lemma monthlyProfitMap_balance (trades : list (row num)) (ib ib' : num) :
  monthlyProfitMap (dailyDataOf trades ib)
  = monthlyProfitMap (dailyDataOf trades ib').
Proof.
  apply monthlyProfitMap_ext; unfold dailyDataOf.
  - now rewrite !dailyWalk_dates.
  - now rewrite !dailyWalk_profits.
Qed.

(** X8.  The activity sheet moves balances and percent changes, and
    nothing else: every scalar of the statistics of an upload, and the
    dates, months, profits and cumulative profits of its two series, are
    those of [computeStats] on the trades with any initial balance
    whatever. *)
Theorem activity_only_moves_balances (trades activity : list (row num))
        (s : Stats num) (initialBalance : num) :
  handleFileUpload trades activity = Some s ->
  let base := computeStats trades initialBalance in
  (totalTrades s = totalTrades base
   /\ profitableTrades s = profitableTrades base
   /\ lossTrades s = lossTrades base
   /\ breakEvenTrades s = breakEvenTrades base
   /\ winRate s = winRate base
   /\ totalProfit s = totalProfit base
   /\ maxProfit s = maxProfit base
   /\ minProfit s = minProfit base
   /\ avgProfit s = avgProfit base
   /\ medianProfit s = medianProfit base
   /\ stdDev s = stdDev base
   /\ averageDailyProfit s = averageDailyProfit base
   /\ projectedAnnualIncome s = projectedAnnualIncome base)
  /\ (map DailyData.date (dailyData s) = map DailyData.date (dailyData base)
      /\ map DailyData.profit (dailyData s)
         = map DailyData.profit (dailyData base)
      /\ map DailyData.cumulativeProfit (dailyData s)
         = map DailyData.cumulativeProfit (dailyData base))
  /\ (map MonthlyData.month (monthlyData s)
      = map MonthlyData.month (monthlyData base)
      /\ map MonthlyData.profit (monthlyData s)
         = map MonthlyData.profit (monthlyData base)
      /\ map MonthlyData.cumulativeProfit (monthlyData s)
         = map MonthlyData.cumulativeProfit (monthlyData base)).
Proof.
  intros Hs base. unfold handleFileUpload in Hs.
  destruct (realizedEquityDataOf (sortedActivity activity)) as [equity|];
    [|discriminate].
  destruct (spreads trades); [|discriminate]. cbn [negb] in Hs.
  injection Hs as <-. cbn [totalTrades profitableTrades lossTrades
    breakEvenTrades winRate totalProfit maxProfit minProfit avgProfit
    medianProfit stdDev averageDailyProfit projectedAnnualIncome dailyData
    monthlyData].
  split; [repeat split|].
  unfold base. cbn [computeStats dailyData monthlyData].
  rewrite patchDaily_dates, patchDaily_profits, patchDaily_cumulative.
  rewrite patchMonthly_months, patchMonthly_profits, patchMonthly_cumulative.
  set (ib := initialBalanceOf (sortedActivity activity)).
  split; [split; [|split]|split; [|split]].
  - unfold dailyDataOf. now rewrite !dailyWalk_dates.
  - unfold dailyDataOf. now rewrite !dailyWalk_profits.
  - unfold dailyDataOf. apply dailyWalk_cumulative.
  - unfold monthlyDataOf. rewrite !monthlyWalk_months.
    now rewrite (monthlyProfitMap_balance trades ib initialBalance).
  - unfold monthlyDataOf. rewrite !monthlyWalk_profits.
    now rewrite (monthlyProfitMap_balance trades ib initialBalance).
  - unfold monthlyDataOf.
    rewrite (monthlyProfitMap_balance trades ib initialBalance).
    apply monthlyWalk_cumulative.
Qed.

(** X17.  Patching twice with one percent map is patching once; and a
    percent map without days or months patches nothing in a series whose
    dates or months name no member of [Object.prototype]. *)
Theorem patch_is_idempotent (dailyPct monthlyPct : Obj.t num)
        (daily : list (DailyData.t num))
        (monthly : list (MonthlyData.t num)) :
  patchDaily dailyPct (patchDaily dailyPct daily) = patchDaily dailyPct daily
  /\ patchMonthly monthlyPct (patchMonthly monthlyPct monthly)
     = patchMonthly monthlyPct monthly
  /\ (plain_daily daily -> patchDaily Obj.empty daily = daily)
  /\ (plain_monthly monthly -> patchMonthly Obj.empty monthly = monthly).
Proof.
  split; [|split; [|split; intros _;
                     [apply patchDaily_empty|apply patchMonthly_empty]]].
  - unfold patchDaily. rewrite map_map. apply map_ext. intros b.
    destruct (Obj.get (DailyData.date b) dailyPct) as [v|] eqn:E;
      cbn [DailyData.date]; now rewrite E.
  - unfold patchMonthly. rewrite map_map. apply map_ext. intros b.
    destruct (Obj.get (MonthlyData.month b) monthlyPct) as [v|] eqn:E;
      cbn [MonthlyData.month]; now rewrite E.
Qed.
End ActivityFacts.

Lemma activity_only_moves_balances_witness :
  exists s : Stats float,
    handleFileUpload Scenario.tradesA Scenario.equityC = Some s
    /\ totalProfit s = 70%float
    /\ map DailyData.cumulativeProfit (dailyData s)
       = map DailyData.cumulativeProfit
             (dailyData (computeStats Scenario.tradesA 0%float)).
Proof.
  eexists. split; [vm_compute; reflexivity|].
  split; [vm_compute; reflexivity|].
  eapply (@activity_only_moves_balances float FloatNumber ReferenceHost
            Scenario.tradesA Scenario.equityC).
  vm_compute. reflexivity.
Defined.

(* ================================================================== *)
(** * The activity rows *)

Section EarliestFirst.
Variable A : Type.
Variable key : A -> option Z.

(** The head of an array sorted by times that are all read: the first
    element at the earliest time. *)
Lemma sortBy_head_earliest (l : list A) (first : A) (rest : list A) :
  (forall r, In r l -> key r <> None) ->
  sortBy (fun a b => compare_times (key a) (key b)) l = first :: rest ->
  exists before after,
    l = before ++ first :: after
    /\ (forall r, In r before ->
                  exists ta tb, key first = Some ta /\ key r = Some tb
                                /\ (ta < tb)%Z)
    /\ (forall r, In r after ->
                  exists ta tb, key first = Some ta /\ key r = Some tb
                                /\ (ta <= tb)%Z).
Proof.
  revert first rest. induction l as [|x l IH]; intros first rest Hk Hs;
    [discriminate|].
  cbn [sortBy] in Hs.
  destruct (sortBy (fun a b => compare_times (key a) (key b)) l)
    as [|y ys] eqn:E.
  - assert (Hl : l = []).
    { apply length_zero_iff_nil. erewrite <- sortBy_length. now rewrite E. }
    subst l. cbn in Hs. injection Hs as <- <-.
    exists [], []. repeat split; intros r [].
  - assert (Hkl : forall r, In r l -> key r <> None).
    { intros r Hr. apply Hk. now right. }
    destruct (IH y ys Hkl eq_refl) as [m1 [m2 [Hl [Hb Ha]]]].
    assert (Hx : key x <> None) by (apply Hk; now left).
    assert (Hy : key y <> None).
    { apply Hkl. rewrite Hl. apply in_elt. }
    destruct (key x) as [tx|] eqn:Ex; [|congruence].
    destruct (key y) as [ty|] eqn:Ey; [|congruence].
    cbn [insertBy] in Hs. rewrite Ex, Ey in Hs. cbn [compare_times] in Hs.
    destruct (Z.compare_spec tx ty) as [Hc|Hc|Hc].
    + injection Hs as <- <-. exists [], l. split; [reflexivity|].
      split; [intros r []|]. intros r Hr. rewrite Hl in Hr.
      apply in_app_or in Hr. destruct Hr as [Hr|[<-|Hr]].
      * destruct (Hb r Hr) as [ta [tb [H1 [H2 H3]]]].
        exists tx, tb. rewrite Ex. repeat split; auto.
        assert (ta = ty) by congruence. lia.
      * exists tx, ty. rewrite Ex. repeat split; auto. lia.
      * destruct (Ha r Hr) as [ta [tb [H1 [H2 H3]]]].
        exists tx, tb. rewrite Ex. repeat split; auto.
        assert (ta = ty) by congruence. lia.
    + injection Hs as <- <-. exists [], l. split; [reflexivity|].
      split; [intros r []|]. intros r Hr. rewrite Hl in Hr.
      apply in_app_or in Hr. destruct Hr as [Hr|[<-|Hr]].
      * destruct (Hb r Hr) as [ta [tb [H1 [H2 H3]]]].
        exists tx, tb. rewrite Ex. repeat split; auto.
        assert (ta = ty) by congruence. lia.
      * exists tx, ty. rewrite Ex. repeat split; auto. lia.
      * destruct (Ha r Hr) as [ta [tb [H1 [H2 H3]]]].
        exists tx, tb. rewrite Ex. repeat split; auto.
        assert (ta = ty) by congruence. lia.
    + injection Hs as <- _. exists (x :: m1), m2.
      split; [now rewrite Hl|]. rewrite Ey. split; [|exact Ha].
      intros r [<-|Hr]; [|now apply Hb].
      exists ty, tx. repeat split; auto.
Qed.
End EarliestFirst.

Section ActivityRows.
Context {num : Type} {NUM : JsNumber num} {HOST : JsHost}.
Local Open Scope string_scope.
Local Open Scope list_scope.

(** X10.  When the host reads the date of every activity row, the row that
    gives the initial balance is the first row of the sheet at the earliest
    time: the rows above it in the sheet are later, the rows below it are
    not earlier.  Its [Balance] cell read as a number is the initial
    balance, zero when the cell is falsy. *)
Theorem initial_balance_row (activity : list (row num)) (first : row num)
        (rest : list (row num)) :
  (forall r, In r activity -> time_of r <> None) ->
  sortedActivity activity = first :: rest ->
  (exists above below,
      activity = above ++ first :: below
      /\ (forall r, In r above -> earlier first r)
      /\ (forall r, In r below -> not_later first r))
  /\ initialBalanceOf (sortedActivity activity)
     = if truthy (Obj.get "Balance" first)
       then to_number (Obj.get "Balance" first)
       else zero.
Proof.
  intros Hk Hs. split; [|now rewrite Hs].
  exact (sortBy_head_earliest time_of activity Hk Hs).
Qed.

Lemma realizedEquityDataOf_points (rows : list (row num))
      (points : list (RealizedEquityData.t num)) :
  realizedEquityDataOf rows = Some points ->
  Forall2 (fun r p =>
             exists raw, dated r raw
                         /\ RealizedEquityData.date p = formatDate raw
                         /\ RealizedEquityData.realizedEquity p
                            = or_zero (to_number (Obj.get "Realized Equity" r)))
          rows points.
Proof.
  revert points. induction rows as [|r rows IH]; intros points;
    cbn [realizedEquityDataOf].
  - intros [= <-]. constructor.
  - unfold date_of.
    destruct (Obj.get "Date" r) as [[raw|x]|] eqn:Ed; try discriminate.
    destruct (realizedEquityDataOf rows) as [pts|]; [|discriminate].
    intros [= <-]. constructor; [|now apply IH].
    exists raw. split; [exact Ed|]. split; reflexivity.
Qed.

(** X14.  [computeStats] sees the valid rows only: filtering the sheet
    beforehand changes no field, and a sheet without a valid row gives the
    statistics of the empty sheet, with no trade, no bucket and the
    extremes [-Infinity] and [Infinity]. *)
Theorem only_valid_rows_count (trades : list (row num))
        (initialBalance : num) :
  computeStats (validTrades trades) initialBalance
  = computeStats trades initialBalance
  /\ ((forall t, In t trades -> is_valid t = false) ->
      computeStats trades initialBalance = computeStats [] initialBalance
      /\ totalTrades (computeStats trades initialBalance) = 0
      /\ maxProfit (computeStats trades initialBalance) = neg_infinity
      /\ minProfit (computeStats trades initialBalance) = infinity
      /\ dailyData (computeStats trades initialBalance) = []
      /\ monthlyData (computeStats trades initialBalance) = []).
Proof.
  split.
  - apply computeStats_ext. unfold validTrades.
    induction trades as [|t trades IH]; [reflexivity|]. cbn [filter].
    destruct (is_valid t) eqn:E; [|exact IH]. cbn [filter].
    now rewrite E, IH.
  - intros Hall.
    assert (Hv : validTrades trades = validTrades []).
    { unfold validTrades. cbn [filter].
      induction trades as [|t trades IH]; [reflexivity|]. cbn [filter].
      rewrite (Hall t) by now left. apply IH. intros x Hx. apply Hall.
      now right. }
    rewrite (computeStats_ext _ _ initialBalance Hv).
    repeat split; reflexivity.
Qed.

(** Where the median is read, for every number type. *)
Lemma median_reads (trades : list (row num)) (initialBalance : num) :
  let s := computeStats trades initialBalance in
  let sorted := sortedProfit trades in
  let n := totalTrades s in
  Permutation sorted (profitArray trades)
  /\ Sorted (in_order (fun a b => sign_of (a - b)%js)) sorted
  /\ (n = 0 -> medianProfit s = zero)
  /\ (Nat.odd n = true ->
      nth_error sorted (Nat.div n 2) = Some (medianProfit s)
      /\ In (medianProfit s) (profitArray trades))
  /\ (n <> 0 -> Nat.even n = true ->
      exists a b,
        nth_error sorted (Nat.div n 2 - 1) = Some a
        /\ nth_error sorted (Nat.div n 2) = Some b
        /\ In a (profitArray trades) /\ In b (profitArray trades)
        /\ medianProfit s = ((a + b) / of_nat 2)%js).
Proof.
  cbn zeta. cbn [totalTrades medianProfit computeStats].
  set (sorted := sortedProfit trades).
  assert (Hperm : Permutation sorted (profitArray trades))
    by apply sortBy_perm.
  assert (Hlen : List.length sorted = List.length (validTrades trades)).
  { rewrite (Permutation_length Hperm). unfold profitArray.
    apply length_map. }
  split; [exact Hperm|].
  split.
  { pose proof (sortBy_sorted (fun a b : num => sign_of (a - b)%js)
                              (profitArray trades)) as Hs.
    exact Hs. }
  unfold median. rewrite Hlen.
  set (n := List.length (validTrades trades)) in *.
  split; [intros ->; reflexivity|].
  assert (Hmid : n <> 0 -> Nat.div n 2 < List.length sorted).
  { intros Hn. rewrite Hlen. apply Nat.div_lt; lia. }
  split.
  - intros Hodd.
    assert (Hn : n <> 0) by (intros Hz; rewrite Hz in Hodd; discriminate).
    rewrite <- Nat.negb_odd, Hodd. cbn [negb].
    destruct n as [|k] eqn:En; [congruence|]. cbn [if_positive].
    rewrite <- En in *.
    pose proof (nth_error_nth' sorted nan (Hmid Hn)) as Hnth.
    split; [exact Hnth|].
    apply (Permutation_in _ Hperm). eapply nth_error_In. exact Hnth.
  - intros Hn Heven. rewrite Heven.
    destruct n as [|k] eqn:En; [congruence|]. cbn [if_positive].
    rewrite <- En in *.
    assert (Hlo : Nat.div n 2 - 1 < List.length sorted)
      by (specialize (Hmid Hn); lia).
    pose proof (nth_error_nth' sorted nan (Hmid Hn)) as Hb.
    pose proof (nth_error_nth' sorted nan Hlo) as Ha.
    exists (nth (Nat.div n 2 - 1) sorted nan), (nth (Nat.div n 2) sorted nan).
    split; [exact Ha|]. split; [exact Hb|].
    split; [|split; [|reflexivity]];
      apply (Permutation_in _ Hperm); eapply nth_error_In; eassumption.
Qed.

(** X16.  There are no more daily buckets than valid trades and no more
    monthly buckets than daily ones. *)
Theorem bucket_counts (trades : list (row num)) (initialBalance : num) :
  let s := computeStats trades initialBalance in
  List.length (dailyData s) <= totalTrades s
  /\ List.length (monthlyData s) <= List.length (dailyData s).
Proof.
  cbn zeta. cbn [dailyData monthlyData totalTrades computeStats]. split.
  - rewrite <- (length_map DailyData.date), dailyData_dates, sortBy_length.
    rewrite <- (length_map dateStr (validTrades trades)).
    apply NoDup_incl_length.
    + apply ObjFacts.keys_NoDup, dailyProfitMap_NoDup.
    + intros d Hd. apply ObjFacts.keys_In, dailyProfitMap_keys in Hd.
      destruct Hd as [_ [t [Ht <-]]]. now apply in_map.
  - unfold monthlyDataOf.
    set (daily := dailyDataOf trades initialBalance).
    rewrite <- (length_map MonthlyData.month), monthlyWalk_months.
    rewrite length_map. unfold monthlyDataArray.
    rewrite sortBy_length, length_map.
    rewrite <- (length_map (fun item => Str.take 7 (DailyData.date item)) daily).
    apply NoDup_incl_length.
    + apply ObjFacts.keys_NoDup. rewrite monthlyProfitMap_grouped.
      apply grouped_NoDup. constructor.
    + intros k Hk. apply ObjFacts.keys_In in Hk.
      rewrite monthlyProfitMap_grouped in Hk. apply grouped_keys in Hk.
      destruct Hk as [[]|[b [Hb [_ <-]]]].
      now apply (in_map (fun item => Str.take 7 (DailyData.date item))).
Qed.
End ActivityRows.

Section EquityPoints.
Context {HOST : JsHost}.
Local Open Scope string_scope.
Local Open Scope list_scope.

Lemma or_zero_not_nan (x : float) : is_nan (or_zero x) = false.
Proof.
  unfold or_zero, num_truthy.
  destruct (is_nan x) eqn:E; [now rewrite orb_true_r|].
  rewrite orb_false_r. now destruct (x =? zero)%js.
Qed.

(** X9.  The equity series of an upload has one point for each activity
    row, in the order of the sorted rows: its date is the formatted [Date]
    cell, its level the [Realized Equity] cell read as a number, and zero
    when the cell is missing, not numeric or zero.  No level is [NaN]. *)
Theorem realized_equity_points (trades activity : list (row float))
        (s : Stats float) :
  handleFileUpload trades activity = Some s ->
  Permutation (sortedActivity activity) activity
  /\ Forall2 (fun r p =>
                exists raw,
                  dated r raw
                  /\ RealizedEquityData.date p = formatDate raw
                  /\ RealizedEquityData.realizedEquity p
                     = or_zero (to_number (Obj.get "Realized Equity" r))
                  /\ is_nan (RealizedEquityData.realizedEquity p) = false
                  /\ (is_nan (to_number (Obj.get "Realized Equity" r)) = true ->
                      RealizedEquityData.realizedEquity p = zero))
             (sortedActivity activity) (realizedEquityData s).
Proof.
  intros Hs. split; [apply sortBy_perm|].
  destruct (handleFileUpload_Some _ _ Hs) as [He _].
  apply realizedEquityDataOf_points in He.
  eapply Forall2_impl; [|exact He].
  intros r p [raw [Hd [Hf Hv]]]. exists raw.
  split; [exact Hd|]. split; [exact Hf|]. split; [exact Hv|].
  split; [rewrite Hv; apply or_zero_not_nan|].
  intros Hn. rewrite Hv. unfold or_zero, num_truthy. rewrite Hn.
  now rewrite orb_true_r.
Qed.
End EquityPoints.

Lemma initial_balance_row_witness :
  exists above below,
    Uploads.unordered
    = above ++ Scenario.snapshot "01/01/2024 00:00:00" 1000 1000 :: below
    /\ (forall r, In r above ->
                  earlier (Scenario.snapshot "01/01/2024 00:00:00" 1000 1000) r)
    /\ (forall r, In r below ->
                  not_later (Scenario.snapshot "01/01/2024 00:00:00" 1000 1000)
                            r).
Proof.
  refine (proj1 (@initial_balance_row float FloatNumber ReferenceHost
                   Uploads.unordered _ _ _ _)).
  - intros r Hr. vm_compute in Hr.
    destruct Hr as [<-|[<-|[<-|[<-|[]]]]]; vm_compute; discriminate.
  - vm_compute. reflexivity.
Defined.

Lemma only_valid_rows_count_witness :
  computeStats [Scenario.notAvailable; Scenario.notAvailable] 1000%float
  = computeStats [] 1000%float.
Proof.
  refine (proj1 (proj2 (@only_valid_rows_count float FloatNumber ReferenceHost
                          [Scenario.notAvailable; Scenario.notAvailable]
                          1000%float) _)).
  intros t [<-|[<-|[]]]; reflexivity.
Defined.

Lemma realized_equity_points_witness :
  exists s : Stats float,
    handleFileUpload Scenario.tradesA Uploads.unordered = Some s
    /\ map RealizedEquityData.date (realizedEquityData s)
       = ["2024-01-01"; "2024-01-01"; "2024-01-02"; "2024-01-03"]%string
    /\ map RealizedEquityData.realizedEquity (realizedEquityData s)
       = [1000%float; 1500%float; 2000%float; 3000%float]
    /\ Permutation (sortedActivity Uploads.unordered) Uploads.unordered.
Proof.
  eexists. split; [vm_compute; reflexivity|].
  split; [vm_compute; reflexivity|].
  split; [vm_compute; reflexivity|].
  eapply (@realized_equity_points ReferenceHost Scenario.tradesA
            Uploads.unordered).
  vm_compute. reflexivity.
Defined.

(* ================================================================== *)
(** * The order of code units *)

Section CodeUnitOrder.
Local Open Scope list_scope.

Lemma compare_refl (a : string) : Str.compare a a = Eq.
Proof.
  induction a as [|x a IH]; cbn; [reflexivity|].
  now rewrite Nat.compare_refl.
Qed.

Lemma compare_eq (a b : string) : Str.compare a b = Eq -> a = b.
Proof.
  revert b. induction a as [|x a IH]; intros [|y b]; cbn;
    try discriminate; [reflexivity|].
  destruct (Nat.compare_spec (nat_of_ascii x) (nat_of_ascii y)) as [E|E|E];
    try discriminate.
  intros H. f_equal; [|now apply IH].
  rewrite <- (ascii_nat_embedding x), E. apply ascii_nat_embedding.
Qed.

Lemma compare_antisym (a b : string) :
  Str.compare b a = CompOpp (Str.compare a b).
Proof.
  revert b. induction a as [|x a IH]; intros [|y b]; cbn; try reflexivity.
  rewrite (Nat.compare_antisym (nat_of_ascii x) (nat_of_ascii y)).
  destruct (Nat.compare (nat_of_ascii x) (nat_of_ascii y)); cbn;
    [apply IH | reflexivity | reflexivity].
Qed.

Lemma compare_lt_trans (a b c : string) :
  Str.compare a b = Lt -> Str.compare b c = Lt -> Str.compare a c = Lt.
Proof.
  revert b c. induction a as [|x a IH]; intros [|y b] [|z c]; cbn;
    try discriminate; try reflexivity.
  destruct (Nat.compare_spec (nat_of_ascii x) (nat_of_ascii y)) as [E1|E1|E1];
    destruct (Nat.compare_spec (nat_of_ascii y) (nat_of_ascii z)) as [E2|E2|E2];
    destruct (Nat.compare_spec (nat_of_ascii x) (nat_of_ascii z)) as [E3|E3|E3];
    try discriminate; try reflexivity; try lia.
  apply IH.
Qed.

(** Neighbours in order and all elements distinct: strictly ascending. *)
Lemma sortBy_compare_strict (l : list string) :
  NoDup l -> StronglySorted code_unit_lt (sortBy Str.compare l).
Proof.
  intros Hn.
  assert (Hn' : NoDup (sortBy Str.compare l)) by now apply sortBy_NoDup.
  pose proof (sortBy_sorted Str.compare l) as Hs.
  apply Sorted_StronglySorted.
  { intros a b c. apply compare_lt_trans. }
  induction Hs as [|a m Hs IH Hh]; constructor.
  - apply IH. now inversion Hn'.
  - destruct Hh as [|b m Hab]; constructor.
    unfold code_unit_lt, in_order in *.
    assert (Hne : a <> b).
    { intros ->. inversion Hn' as [|? ? Hnin _]. apply Hnin. now left. }
    rewrite (compare_antisym a b) in Hab.
    destruct (Str.compare a b) eqn:E; cbn in Hab.
    + apply compare_eq in E. contradiction.
    + reflexivity.
    + destruct Hab; congruence.
Qed.
End CodeUnitOrder.

(* ================================================================== *)
(** * The month-over-month changes and the monthly series *)

Section Months.
Context {num : Type} {NUM : JsNumber num} {HOST : JsHost}.
Local Open Scope string_scope.
Local Open Scope list_scope.

(** X11.  When no snapshot is dated [__proto__], the month-over-month
    changes are computed over the distinct months of the equity days, the
    first seven characters of each day, in strictly ascending order of code
    units, whatever the days are.  When the host reads every equity day as
    a date, the level of a month is the level of its last day in the order
    of the sorted days.  The first month's change is zero; the change of a
    later month is [(curr - prev) / prev * 100] for the levels of the month
    and of the month before, and zero when [prev] is zero. *)
Theorem equity_month_changes (trades activity : list (row num))
        (s : Stats num) :
  handleFileUpload trades activity = Some s ->
  assignable (realizedEquityData s) ->
  let equity := realizedEquityData s in
  let months := sortedMonths equity in
  let levels := monthlyRealizedMap equity in
  let pct := monthlyPercentMap equity in
  NoDup months
  /\ (forall m,
         In m months
         <-> exists r, In r equity
                       /\ Str.take 7 (RealizedEquityData.date r) = m)
  /\ StronglySorted code_unit_lt months
  /\ ((forall d, In d (sortedDates equity) -> readable d) ->
      StronglySorted ascending (sortedDates equity)
      /\ forall m,
           Obj.get m levels
           = option_map (fun d => lookup d (dailyRealizedMap equity))
               (find_last (fun d => String.eqb (Str.take 7 d) m)
                          (sortedDates equity)))
  /\ (forall m, nth_error months 0 = Some m -> Obj.get m pct = Some zero)
  /\ (forall i p m,
         nth_error months i = Some p ->
         nth_error months (S i) = Some m ->
         let prev := lookup p levels in
         let curr := lookup m levels in
         ((prev =? zero)%js = true -> Obj.get m pct = Some zero)
         /\ ((prev =? zero)%js = false ->
             Obj.get m pct = Some ((curr - prev) / prev * hundred)%js)).
Proof.
  intros _ _ equity months levels pct.
  split; [apply sortedMonths_NoDup|].
  split; [intros m; apply sortedMonths_In|].
  split.
  { apply sortBy_compare_strict, ObjFacts.keys_NoDup.
    unfold monthlyRealizedMap. apply assigned_NoDup. constructor. }
  split.
  { intros Hr. split.
    - apply readable_strongly_sorted; [exact Hr|].
      apply by_date_ascending, sortBy_sorted.
    - intros m. unfold levels, monthlyRealizedMap. rewrite assigned_get.
      now destruct (find_last _ (sortedDates equity)). }
  split; [intros m; apply percentMap_first, sortedMonths_NoDup|].
  intros i p m Hp Hm prev curr.
  pose proof (percentMap_next levels i (sortedMonths_NoDup equity) Hp Hm)
    as Hg.
  fold pct in Hg. unfold change, num_neqb in Hg. fold prev curr in Hg.
  split; intros Hz; rewrite Hz in Hg; exact Hg.
Qed.

Lemma monthlyWalk_In (ib c pb : num) (items : list (string * num))
      (b : MonthlyData.t num) :
  In b (monthlyWalk ib c pb items) ->
  In (MonthlyData.month b, MonthlyData.profit b) items.
Proof.
  revert c pb. induction items as [|item items IH]; intros c pb;
    cbn [monthlyWalk]; [tauto|].
  intros [<-|Hb].
  - left. now destruct item.
  - right. eapply IH, Hb.
Qed.

(** The state of the monthly loop when it reaches month [i]. *)
Lemma monthlyWalk_nth (ib c pb : num) (items : list (string * num))
      (i : nat) (b : MonthlyData.t num) :
  nth_error (monthlyWalk ib c pb items) i = Some b ->
  MonthlyData.cumulativeProfit b
  = fold_left num_add (firstn (S i) (map snd items)) c
  /\ MonthlyData.balance b = (ib + MonthlyData.cumulativeProfit b)%js
  /\ MonthlyData.monthlyPercentChange b
     = percent_of (MonthlyData.profit b)
                  (month_balance_before pb (monthlyWalk ib c pb items) i).
Proof.
  revert c pb i. induction items as [|item items IH]; intros c pb i Hb.
  - destruct i; discriminate.
  - destruct i as [|i]; cbn [monthlyWalk nth_error] in Hb.
    + injection Hb as <-. cbn. auto.
    + destruct (IH _ _ _ Hb) as [Hc [Hbal Hp]].
      split; [exact Hc|]. split; [exact Hbal|].
      rewrite Hp. f_equal. destruct i; reflexivity.
Qed.

Lemma monthlyDataArray_months (m : Obj.t num) :
  map fst (monthlyDataArray m) = sortBy locale_compare (Obj.keys m).
Proof.
  unfold monthlyDataArray. rewrite (sortBy_map fst locale_compare).
  rewrite map_map. cbn [fst]. now rewrite map_id.
Qed.

(** X12.  For every list of trade rows of which no day text or month names
    a member of [Object.prototype], and every initial balance,
    [monthlyData] has one bucket for each month of a daily bucket, the
    first seven characters of its date, with the profits of that month's
    daily buckets added in the order of the daily series, a running total
    that is zero or [NaN] counting as zero.  Neighbours
    are in the order of the host's collation.  In the order of the series,
    the cumulative profit of a bucket is the sum of the bucket profits up
    to it, its balance is the initial balance plus its cumulative profit,
    and its percent change is [profit / previous * 100], zero when
    [previous] is zero, where [previous] is the initial balance for the
    first bucket and the balance of the bucket before for the others. *)
Theorem monthly_series_walk (trades : list (row num)) (initialBalance : num) :
  plain_days trades ->
  let daily := dailyData (computeStats trades initialBalance) in
  let series := monthlyData (computeStats trades initialBalance) in
  NoDup (map MonthlyData.month series)
  /\ (forall m,
         In m (map MonthlyData.month series)
         <-> exists b, In b daily /\ Str.take 7 (DailyData.date b) = m)
  /\ Sorted (in_order locale_compare) (map MonthlyData.month series)
  /\ (forall b,
         In b series ->
         Some (MonthlyData.profit b)
         = month_profit (MonthlyData.month b) daily)
  /\ (forall i b,
         nth_error series i = Some b ->
         let previous := month_balance_before initialBalance series i in
         MonthlyData.cumulativeProfit b
         = sum (firstn (S i) (map MonthlyData.profit series))
         /\ MonthlyData.balance b
            = (initialBalance + MonthlyData.cumulativeProfit b)%js
         /\ ((previous =? zero)%js = true ->
             MonthlyData.monthlyPercentChange b = zero)
         /\ ((previous =? zero)%js = false ->
             MonthlyData.monthlyPercentChange b
             = (MonthlyData.profit b / previous * hundred)%js))
  /\ (let a := @computeStats float FloatNumber ReferenceHost
                 Uploads.tradesTwoMonths 1000%float in
      map DailyData.date (dailyData a)
      = ["2024-01-15"; "2024-01-31"; "2024-02-10"]
      /\ monthlyData a
         = [MonthlyData.mk "2024-01" 120%float 120%float 1120%float 12%float;
            MonthlyData.mk "2024-02" (-50)%float 70%float 1070%float
                           (-50 / 1120 * 100)%float]).
Proof.
  intros _. cbn zeta. cbn [dailyData monthlyData computeStats].
  set (daily := dailyDataOf trades initialBalance).
  assert (Hnd : NoDup (map fst (monthlyProfitMap daily))).
  { rewrite monthlyProfitMap_grouped. apply grouped_NoDup. constructor. }
  split.
  { unfold monthlyDataOf. fold daily.
    rewrite monthlyWalk_months, monthlyDataArray_months.
    now apply sortBy_NoDup, ObjFacts.keys_NoDup. }
  split; [intros m; apply monthlyData_months|].
  split.
  { unfold monthlyDataOf. fold daily.
    rewrite monthlyWalk_months, monthlyDataArray_months.
    apply sortBy_sorted. }
  split.
  { intros b Hb. unfold monthlyDataOf in Hb. fold daily in Hb.
    apply monthlyWalk_In in Hb. unfold monthlyDataArray in Hb.
    apply sortBy_In, in_map_iff in Hb.
    destruct Hb as [k [Hkv Hk]]. injection Hkv as Hm Hv.
    apply ObjFacts.keys_In in Hk.
    rewrite <- Hv, <- Hm, <- (lookup_get _ _ Hk).
    rewrite monthlyProfitMap_grouped, grouped_get.
    unfold month_profit, members. cbn [negb andb Obj.get Obj.empty].
    reflexivity. }
  split; [|vm_compute; repeat split; reflexivity].
  intros i b Hb. unfold monthlyDataOf in *. fold daily in Hb |- *.
  destruct (monthlyWalk_nth _ _ _ _ _ Hb) as [Hc [Hbal Hp]].
  rewrite monthlyWalk_profits.
  split; [exact Hc|]. split; [exact Hbal|].
  rewrite Hp. unfold percent_of, num_neqb.
  split; intros Hz; now rewrite Hz.
Qed.
End Months.

Lemma equity_month_changes_witness :
  exists s : Stats float,
    handleFileUpload Uploads.tradesTwoMonths Uploads.twoMonths = Some s
    /\ sortedDates (realizedEquityData s)
       = ["2024-01-15"; "2024-01-31"; "2024-02-10"]%string
    /\ sortedMonths (realizedEquityData s) = ["2024-01"; "2024-02"]%string
    /\ Obj.get "2024-01"%string (monthlyRealizedMap (realizedEquityData s))
       = Some 1000%float
    /\ Obj.get "2024-02"%string (monthlyPercentMap (realizedEquityData s))
       = Some 10%float
    /\ map MonthlyData.monthlyPercentChange (monthlyData s)
       = [0%float; 10%float]
    /\ StronglySorted code_unit_lt (sortedMonths (realizedEquityData s)).
Proof.
  let r := eval vm_compute in
             (handleFileUpload Uploads.tradesTwoMonths Uploads.twoMonths) in
  match r with
  | Some ?s =>
      exists s;
      assert (Hs : handleFileUpload Uploads.tradesTwoMonths Uploads.twoMonths
                   = Some s)
        by (vm_compute; reflexivity);
      assert (Ha : assignable (realizedEquityData s))
        by (intros p Hp; vm_compute in Hp;
            destruct Hp as [<-|[<-|[<-|[]]]]; vm_compute; discriminate);
      pose proof (@equity_month_changes float FloatNumber ReferenceHost
                    Uploads.tradesTwoMonths Uploads.twoMonths s Hs Ha) as H
  end.
  split; [exact Hs|].
  repeat (split; [vm_compute; reflexivity|]).
  apply (proj1 (proj2 (proj2 H))).
Defined.

(* ================================================================== *)
(** * The order of binary64 *)

Module FloatOrder.

Ltac order_cases :=
  repeat match goal with
         | |- context [(?a ?= ?b)%Z] =>
             destruct (Z.compare_spec a b); try subst
         | |- context [PosDef.Pos.compare_cont Eq ?a ?b] =>
             change (PosDef.Pos.compare_cont Eq a b) with (Pos.compare a b);
             destruct (Pos.compare_spec a b); try subst
         end;
  cbn; intros; try reflexivity; try discriminate; try lia.

Lemma SFleb_trans (a b c : spec_float) :
  SFleb a b = true -> SFleb b c = true -> SFleb a c = true.
Proof.
  unfold SFleb, SFcompare.
  destruct a as [sa|sa| |sa ma ea], b as [sb|sb| |sb mb eb],
           c as [sc|sc| |sc mc ec];
    try destruct sa; try destruct sb; try destruct sc;
    try discriminate; try reflexivity; order_cases.
Qed.

Lemma SFleb_total (a b : spec_float) :
  a <> S754_nan -> b <> S754_nan -> SFltb a b = false -> SFleb b a = true.
Proof.
  unfold SFleb, SFltb, SFcompare.
  destruct a as [sa|sa| |sa ma ea], b as [sb|sb| |sb mb eb];
    try destruct sa; try destruct sb; try congruence; try reflexivity;
    intros _ _; order_cases.
Qed.

Lemma SFltb_leb (a b : spec_float) : SFltb a b = true -> SFleb a b = true.
Proof.
  unfold SFleb, SFltb. destruct (SFcompare a b) as [[| |]|]; congruence.
Qed.

Lemma SFleb_refl (a : spec_float) : a <> S754_nan -> SFleb a a = true.
Proof.
  unfold SFleb, SFcompare.
  destruct a as [sa|sa| |sa ma ea]; try destruct sa; try congruence;
    try reflexivity; intros _;
    rewrite Z.compare_refl;
    change (PosDef.Pos.compare_cont Eq ma ma) with (Pos.compare ma ma);
    now rewrite Pos.compare_refl.
Qed.

Lemma not_nan (x : float) :
  PrimFloat.is_nan x = false -> Prim2SF x <> S754_nan.
Proof.
  unfold PrimFloat.is_nan. rewrite FloatAxioms.eqb_spec.
  intros H E. rewrite E in H. discriminate.
Qed.

Lemma leb_trans (x y z : float) :
  PrimFloat.leb x y = true -> PrimFloat.leb y z = true ->
  PrimFloat.leb x z = true.
Proof. rewrite !leb_spec. apply SFleb_trans. Qed.

Lemma leb_total (x y : float) :
  PrimFloat.is_nan x = false -> PrimFloat.is_nan y = false ->
  PrimFloat.ltb x y = false -> PrimFloat.leb y x = true.
Proof.
  intros Hx Hy. rewrite ltb_spec, leb_spec.
  apply SFleb_total; now apply not_nan.
Qed.

Lemma ltb_leb (x y : float) :
  PrimFloat.ltb x y = true -> PrimFloat.leb x y = true.
Proof. rewrite ltb_spec, leb_spec. apply SFltb_leb. Qed.

Lemma leb_refl (x : float) :
  PrimFloat.is_nan x = false -> PrimFloat.leb x x = true.
Proof. intros Hx. rewrite leb_spec. now apply SFleb_refl, not_nan. Qed.

(** Two zeros are in order, whatever their signs. *)
Lemma zeros_leb (x y : float) :
  PrimFloat.is_zero x = true -> PrimFloat.is_zero y = true ->
  PrimFloat.leb x y = true.
Proof.
  unfold PrimFloat.is_zero. rewrite !FloatAxioms.eqb_spec, leb_spec.
  change (Prim2SF PrimFloat.zero) with (S754_zero false).
  unfold SFeqb, SFleb, SFcompare.
  destruct (Prim2SF x) as [sx|sx| |sx mx ex], (Prim2SF y) as [sy|sy| |sy my ey];
    try destruct sx; try destruct sy; try discriminate; reflexivity.
Qed.

Lemma below_neg_infinity (x : float) :
  PrimFloat.leb x PrimFloat.neg_infinity = true -> x = PrimFloat.neg_infinity.
Proof.
  rewrite leb_spec. intros H. apply Prim2SF_inj.
  change (Prim2SF PrimFloat.neg_infinity) with (S754_infinity true) in *.
  unfold SFleb, SFcompare in H.
  destruct (Prim2SF x) as [sx|sx| |sx mx ex]; try destruct sx;
    try discriminate; reflexivity.
Qed.

Lemma above_infinity (x : float) :
  PrimFloat.leb PrimFloat.infinity x = true -> x = PrimFloat.infinity.
Proof.
  rewrite leb_spec. intros H. apply Prim2SF_inj.
  change (Prim2SF PrimFloat.infinity) with (S754_infinity false) in *.
  unfold SFleb, SFcompare in H.
  destruct (Prim2SF x) as [sx|sx| |sx mx ex]; try destruct sx;
    try discriminate; reflexivity.
Qed.

(** One step of [Math.max] on numbers. *)
Lemma max2_step (hi x : float) :
  PrimFloat.is_nan hi = false -> PrimFloat.is_nan x = false ->
  (Float64.max2 hi x = hi \/ Float64.max2 hi x = x)
  /\ PrimFloat.leb hi (Float64.max2 hi x) = true
  /\ PrimFloat.leb x (Float64.max2 hi x) = true.
Proof.
  intros Hhi Hx. unfold Float64.max2. rewrite Hhi, Hx. cbn [orb].
  destruct (PrimFloat.ltb hi x) eqn:L.
  - split; [now right|]. split; [now apply ltb_leb | now apply leb_refl].
  - destruct (PrimFloat.is_zero hi && PrimFloat.is_zero x
              && PrimFloat.get_sign hi && negb (PrimFloat.get_sign x)) eqn:Z.
    + apply andb_true_iff in Z. destruct Z as [Z _].
      apply andb_true_iff in Z. destruct Z as [Z _].
      apply andb_true_iff in Z. destruct Z as [Z1 Z2].
      split; [now right|]. split; [now apply zeros_leb | now apply leb_refl].
    + split; [now left|]. split; [now apply leb_refl | now apply leb_total].
Qed.

(** One step of [Math.min] on numbers. *)
Lemma min2_step (lo x : float) :
  PrimFloat.is_nan lo = false -> PrimFloat.is_nan x = false ->
  (Float64.min2 lo x = lo \/ Float64.min2 lo x = x)
  /\ PrimFloat.leb (Float64.min2 lo x) lo = true
  /\ PrimFloat.leb (Float64.min2 lo x) x = true.
Proof.
  intros Hlo Hx. unfold Float64.min2. rewrite Hlo, Hx. cbn [orb].
  destruct (PrimFloat.ltb x lo) eqn:L.
  - split; [now right|]. split; [now apply ltb_leb | now apply leb_refl].
  - destruct (PrimFloat.is_zero lo && PrimFloat.is_zero x
              && negb (PrimFloat.get_sign lo) && PrimFloat.get_sign x) eqn:Z.
    + apply andb_true_iff in Z. destruct Z as [Z _].
      apply andb_true_iff in Z. destruct Z as [Z _].
      apply andb_true_iff in Z. destruct Z as [Z1 Z2].
      split; [now right|]. split; [now apply zeros_leb | now apply leb_refl].
    + split; [now left|]. split; [now apply leb_refl | now apply leb_total].
Qed.

Lemma fold_max2 (l : list float) (acc : float) :
  PrimFloat.is_nan acc = false ->
  Forall (fun x => PrimFloat.is_nan x = false) l ->
  let r := fold_left Float64.max2 l acc in
  PrimFloat.is_nan r = false
  /\ PrimFloat.leb acc r = true
  /\ (forall p, In p l -> PrimFloat.leb p r = true)
  /\ (r = acc \/ In r l).
Proof.
  intros Hacc Hl. revert acc Hacc.
  induction Hl as [|x l Hx _ IH]; intros acc Hacc; cbn [fold_left].
  - split; [exact Hacc|]. split; [now apply leb_refl|].
    split; [intros p []|now left].
  - destruct (max2_step _ _ Hacc Hx) as [Hsel [Hle1 Hle2]].
    assert (Hn : PrimFloat.is_nan (Float64.max2 acc x) = false)
      by (destruct Hsel as [-> | ->]; assumption).
    destruct (IH _ Hn) as [Hr [Hle [Hall Hin]]].
    split; [exact Hr|].
    split; [eapply leb_trans; eassumption|].
    split.
    + intros p [<-|Hp]; [eapply leb_trans; eassumption | now apply Hall].
    + destruct Hin as [Hin|Hin]; [|right; now right].
      rewrite Hin. destruct Hsel as [-> | ->]; [now left|right; now left].
Qed.

Lemma binary_round_neg (m : positive) (e : Z) :
  SFltb (S754_zero false) (binary_round prec emax true m e) = false.
Proof.
  unfold binary_round, binary_round_aux.
  destruct (shl_align m e _) as [mz ez].
  destruct (shr_fexp prec emax (Z.pos mz) ez loc_Exact) as [mrs e'].
  destruct (shr_fexp prec emax _ e' loc_Exact) as [mrs'' e''].
  destruct (shr_m mrs''); [reflexivity| |reflexivity].
  destruct (e'' <=? emax - prec)%Z; reflexivity.
Qed.

Lemma SFsub_pos_asym (x y : spec_float) :
  SFltb (S754_zero false) (SFsub prec emax y x) = true ->
  SFltb (S754_zero false) (SFsub prec emax x y) = false.
Proof.
  destruct x as [sx|sx| |sx mx ex], y as [sy|sy| |sy my ey];
    try (destruct sx; destruct sy; cbn; congruence);
    try (destruct sx; cbn; congruence);
    try (destruct sy; cbn; congruence);
    try (cbn; congruence).
  unfold SFsub. rewrite (Z.min_comm ey ex).
  set (ez := Z.min ex ey).
  set (zx := cond_Zopp sx (Z.pos (fst (shl_align mx ex ez)))).
  set (zy := cond_Zopp sy (Z.pos (fst (shl_align my ey ez)))).
  replace (zx - zy)%Z with (- (zy - zx))%Z by lia.
  destruct (zy - zx)%Z as [|p|p]; cbn [Z.opp binary_normalize].
  - discriminate.
  - intros _. apply binary_round_neg.
  - rewrite binary_round_neg. discriminate.
Qed.

(** When [b - a] is above zero, [a - b] is not. *)
Lemma sub_pos_asym (a b : float) :
  PrimFloat.ltb PrimFloat.zero (b - a) = true ->
  PrimFloat.ltb PrimFloat.zero (a - b) = false.
Proof.
  rewrite !ltb_spec, !sub_spec.
  change (Prim2SF PrimFloat.zero) with (S754_zero false).
  apply SFsub_pos_asym.
Qed.

Lemma ltb_zero_asym (v : float) :
  PrimFloat.ltb v PrimFloat.zero = true ->
  PrimFloat.ltb PrimFloat.zero v = false.
Proof.
  rewrite !ltb_spec. change (Prim2SF PrimFloat.zero) with (S754_zero false).
  destruct (Prim2SF v) as [s|s| |s m e]; try destruct s; cbn; congruence.
Qed.

(** Neighbours in the order of the comparator [a - b]: the left one minus
    the right one is not above zero. *)
Lemma comparator_order (a b : float) :
  in_order (fun x y : float => sign_of (x - y)%js) a b ->
  PrimFloat.ltb PrimFloat.zero (a - b) = false.
Proof.
  unfold in_order, sign_of.
  change (@num_ltb float FloatNumber) with PrimFloat.ltb.
  change (@num_sub float FloatNumber) with PrimFloat.sub.
  change (@zero float FloatNumber) with PrimFloat.zero.
  intros [H|H].
  - destruct (PrimFloat.ltb (a - b) PrimFloat.zero) eqn:E1;
      [now apply ltb_zero_asym|].
    destruct (PrimFloat.ltb PrimFloat.zero (a - b)); congruence.
  - apply sub_pos_asym.
    destruct (PrimFloat.ltb (b - a) PrimFloat.zero); [discriminate|].
    destruct (PrimFloat.ltb PrimFloat.zero (b - a)); congruence.
Qed.

Lemma fold_min2 (l : list float) (acc : float) :
  PrimFloat.is_nan acc = false ->
  Forall (fun x => PrimFloat.is_nan x = false) l ->
  let r := fold_left Float64.min2 l acc in
  PrimFloat.is_nan r = false
  /\ PrimFloat.leb r acc = true
  /\ (forall p, In p l -> PrimFloat.leb r p = true)
  /\ (r = acc \/ In r l).
Proof.
  intros Hacc Hl. revert acc Hacc.
  induction Hl as [|x l Hx _ IH]; intros acc Hacc; cbn [fold_left].
  - split; [exact Hacc|]. split; [now apply leb_refl|].
    split; [intros p []|now left].
  - destruct (min2_step _ _ Hacc Hx) as [Hsel [Hle1 Hle2]].
    assert (Hn : PrimFloat.is_nan (Float64.min2 acc x) = false)
      by (destruct Hsel as [-> | ->]; assumption).
    destruct (IH _ Hn) as [Hr [Hle [Hall Hin]]].
    split; [exact Hr|].
    split; [eapply leb_trans; eassumption|].
    split.
    + intros p [<-|Hp]; [eapply leb_trans; eassumption | now apply Hall].
    + destruct Hin as [Hin|Hin]; [|right; now right].
      rewrite Hin. destruct Hsel as [-> | ->]; [now left|right; now left].
Qed.
End FloatOrder.

(* ================================================================== *)
(** * The extremes *)

Section ExtremesOfTrades.
Context {HOST : JsHost}.
Local Open Scope string_scope.
Local Open Scope list_scope.

(** X13.  With at least one valid trade, [maxProfit] and [minProfit] are
    profits of valid trades, no profit of a valid trade is above the one or
    below the other, and neither is [NaN]. *)
Theorem extremes_bound_every_profit (trades : list (row float))
        (initialBalance : float) :
  validTrades trades <> [] ->
  let s := computeStats trades initialBalance in
  In (maxProfit s) (profitArray trades)
  /\ In (minProfit s) (profitArray trades)
  /\ (forall p,
         In p (profitArray trades) ->
         PrimFloat.leb p (maxProfit s) = true
         /\ PrimFloat.leb (minProfit s) p = true)
  /\ PrimFloat.leb (minProfit s) (maxProfit s) = true
  /\ PrimFloat.is_nan (maxProfit s) = false
  /\ PrimFloat.is_nan (minProfit s) = false.
Proof.
  intros Hne. cbn zeta. cbn [maxProfit minProfit computeStats].
  pose proof (valid_not_nan trades) as Hnn.
  change (Forall (fun x => PrimFloat.is_nan x = false) (profitArray trades))
    in Hnn.
  assert (Hp : profitArray trades <> []).
  { unfold profitArray. intros E. apply map_eq_nil in E. contradiction. }
  unfold math_max, math_min.
  change (@max2 float FloatNumber) with Float64.max2.
  change (@min2 float FloatNumber) with Float64.min2.
  change (@neg_infinity float FloatNumber) with PrimFloat.neg_infinity.
  change (@infinity float FloatNumber) with PrimFloat.infinity.
  destruct (@FloatOrder.fold_max2 _ PrimFloat.neg_infinity eq_refl Hnn)
    as [Hmx [_ [Hmax Hinmax]]].
  destruct (@FloatOrder.fold_min2 _ PrimFloat.infinity eq_refl Hnn)
    as [Hmn [_ [Hmin Hinmin]]].
  set (hi := fold_left Float64.max2 (profitArray trades)
                       PrimFloat.neg_infinity) in *.
  set (lo := fold_left Float64.min2 (profitArray trades)
                       PrimFloat.infinity) in *.
  destruct (profitArray trades) as [|p0 ps] eqn:E; [congruence|].
  assert (Hhi : In hi (p0 :: ps)).
  { destruct Hinmax as [Hz|Hin]; [|exact Hin].
    left. pose proof (Hmax p0 (or_introl eq_refl)) as Hle.
    rewrite Hz in Hle. rewrite Hz.
    now apply FloatOrder.below_neg_infinity. }
  assert (Hlo : In lo (p0 :: ps)).
  { destruct Hinmin as [Hz|Hin]; [|exact Hin].
    left. pose proof (Hmin p0 (or_introl eq_refl)) as Hle.
    rewrite Hz in Hle. rewrite Hz.
    now apply FloatOrder.above_infinity. }
  split; [exact Hhi|]. split; [exact Hlo|].
  split; [intros p Hin; split; [now apply Hmax | now apply Hmin]|].
  split; [now apply Hmax|]. split; assumption.
Qed.
End ExtremesOfTrades.

Lemma extremes_bound_every_profit_witness :
  maxProfit (computeStats Scenario.tradesA 1000%float) = 100%float
  /\ minProfit (computeStats Scenario.tradesA 1000%float) = (-50)%float
  /\ In (maxProfit (computeStats Scenario.tradesA 1000%float))
        (profitArray Scenario.tradesA).
Proof.
  split; [vm_compute; reflexivity|]. split; [vm_compute; reflexivity|].
  refine (proj1 (@extremes_bound_every_profit ReferenceHost
                   Scenario.tradesA 1000%float _)).
  vm_compute. discriminate.
Defined.

(* ================================================================== *)
(** * The page *)

Section PageFacts.
Context {num : Type} {NUM : JsNumber num} {HOST : JsHost}.
Local Open Scope string_scope.
Local Open Scope list_scope.

Lemma onload_error (st : AppState.t num) (r : reading num) :
  AppState.error (onload st r)
  = if silent r then AppState.error st
    else AppState.error (onload initialState r).
Proof.
  destruct r as [| | |sheets]; try reflexivity. cbn [onload silent].
  destruct (Obj.get "Closed Positions" sheets) as [tradesData|];
    [|reflexivity].
  destruct (Obj.get "Account Activity" sheets) as [activityData|];
    [|reflexivity].
  now destruct (handleFileUpload tradesData activityData).
Qed.

Lemma session_error (st : AppState.t num) (rs : list (reading num)) :
  AppState.error (session st rs)
  = match find_last (fun r => negb (silent r)) rs with
    | Some r => AppState.error (onload initialState r)
    | None => AppState.error st
    end.
Proof.
  unfold find_last. revert st.
  induction rs as [|r rs IH]; intros st; [reflexivity|].
  cbn [rev]. rewrite find_app. unfold session in *. cbn [fold_left].
  rewrite IH. destruct (find _ (rev rs)); [reflexivity|].
  cbn [find]. rewrite onload_error. now destruct (silent r).
Qed.

Lemma session_has_stats (st : AppState.t num) (rs : list (reading num)) :
  AppState.stats (session st rs) <> None
  <-> AppState.stats st <> None \/ exists r, In r rs /\ succeeds r = true.
Proof.
  revert st. induction rs as [|r rs IH]; intros st.
  - cbn. split; [auto|]. intros [H|[r [[] _]]]. exact H.
  - unfold session in *. cbn [fold_left]. rewrite IH, onload_stats.
    unfold succeeds. destruct (computed r) as [s|] eqn:E.
    + split; [|intros _; left; discriminate].
      intros _. right. exists r. rewrite E. split; [now left | reflexivity].
    + split.
      * intros [H|[x [Hx Hs]]]; [now left|]. right. exists x.
        split; [now right | exact Hs].
      * intros [H|[x [[<-|Hx] Hs]]]; [now left| |].
        -- rewrite E in Hs. discriminate.
        -- right. exists x. auto.
Qed.

(** X18.  The page after any run of uploads from the initial state.  The
    statistics and the charts are on show exactly when some reading yielded
    statistics.  The error text is that of the last reading that reached the
    body of the reader's callback, as if it had been the only upload, and
    none when there was no such reading; for such a reading there is an
    error text exactly when it yielded no statistics. *)
Theorem page_after_uploads (rs : list (reading num)) :
  let page := render (session initialState rs) in
  (Page.statistics page <> None <-> exists r, In r rs /\ succeeds r = true)
  /\ Page.errorText page
     = match find_last (fun r => negb (silent r)) rs with
       | Some r => Page.errorText (render (onload initialState r))
       | None => None
       end
  /\ (forall r,
         silent r = false ->
         (Page.errorText (render (onload initialState r)) = None
          <-> succeeds r = true)).
Proof.
  cbn zeta. unfold render. cbn [Page.statistics Page.errorText].
  split.
  { rewrite session_has_stats. cbn. split; [|auto].
    intros [H|H]; [congruence | exact H]. }
  split.
  { rewrite session_error. now destruct (find_last _ rs). }
  intros r Hr. unfold succeeds.
  destruct r as [| | |sheets]; try discriminate.
  - cbn. split; discriminate.
  - cbn [onload computed].
    destruct (Obj.get "Closed Positions" sheets) as [tradesData|];
      [|cbn; split; discriminate].
    destruct (Obj.get "Account Activity" sheets) as [activityData|];
      [|cbn; split; discriminate].
    destruct (handleFileUpload tradesData activityData); cbn;
      split; try discriminate; reflexivity.
Qed.
End PageFacts.

(* ================================================================== *)
(** * The average over the trading days *)

Section AverageDaily.
Context {num : Type} {NUM : JsNumber num} {HOST : JsHost}.
Local Open Scope string_scope.
Local Open Scope list_scope.

Lemma dailyData_length (trades : list (row num)) (ib : num) :
  List.length (dailyDataOf trades ib)
  = List.length (values (dailyProfitMap trades)).
Proof.
  rewrite <- (length_map DailyData.date), dailyData_dates, sortBy_length.
  unfold values. now rewrite length_map.
Qed.

(** X19.  For trades of which no day text or month names a member of
    [Object.prototype], [averageDailyProfit] is an average over the days
    that have a bucket, not over the days of the calendar: the divisor is
    the number of daily buckets, the dividend the sum of their profits in
    the order of the keys of the profit map.  Without a dated valid trade
    there is no bucket and the average is zero. *)
Theorem average_daily_profit (trades : list (row num))
        (initialBalance : num) :
  plain_days trades ->
  let s := computeStats trades initialBalance in
  let days := List.length (dailyData s) in
  let dated := filter (fun t => negb (no_day t)) (validTrades trades) in
  (days = 0 <-> dated = [])
  /\ (days = 0 -> averageDailyProfit s = zero)
  /\ (exists order,
         Permutation order (map DailyData.profit (dailyData s))
         /\ order = values (dailyProfitMap trades)
         /\ (days <> 0 ->
             averageDailyProfit s = (sum order / of_nat days)%js)).
Proof.
  intros _. cbn zeta. cbn [dailyData averageDailyProfit computeStats].
  rewrite dailyData_length.
  set (m := dailyProfitMap trades).
  assert (Hnd : NoDup (map fst m)) by apply dailyProfitMap_NoDup.
  split.
  { unfold values. rewrite length_map. split.
    - intros Hz. apply length_zero_iff_nil in Hz.
      destruct (filter _ (validTrades trades)) as [|t l] eqn:E;
        [reflexivity|].
      assert (Ht : In t (filter (fun t => negb (no_day t))
                                (validTrades trades)))
        by (rewrite E; now left).
      apply filter_In in Ht. destruct Ht as [Hv Hd].
      assert (Hk : In (dateStr t) (Obj.keys m)).
      { apply ObjFacts.keys_In, dailyProfitMap_keys. split; [|eauto].
        intros Hempty. unfold no_day in Hd. rewrite Hempty in Hd.
        discriminate. }
      rewrite Hz in Hk. destruct Hk.
    - intros Hd. destruct (Obj.keys m) as [|k ks] eqn:E; [reflexivity|].
      assert (Hk : In k (Obj.keys m)) by (rewrite E; now left).
      apply ObjFacts.keys_In, dailyProfitMap_keys in Hk.
      destruct Hk as [Hne [t [Ht Hk]]].
      assert (Hin : In t (filter (fun t => negb (no_day t))
                                 (validTrades trades))).
      { apply filter_In. split; [exact Ht|]. unfold no_day. rewrite Hk.
        destruct k; [congruence | reflexivity]. }
      rewrite Hd in Hin. destruct Hin. }
  split; [intros ->; reflexivity|].
  exists (values m). split; [|split; [reflexivity|]].
  - eapply Permutation_trans; [apply values_perm, Hnd|].
    apply Permutation_sym, dailyData_profits_perm.
  - intros Hn. destruct (List.length (values m)); [congruence|].
    reflexivity.
Qed.
End AverageDaily.

Lemma average_daily_profit_witness :
  let s := computeStats Scenario.tradesA 1000%float in
  plain_days Scenario.tradesA
  /\ List.length (dailyData s) = 2
  /\ averageDailyProfit s = 35%float
  /\ exists order,
       Permutation order (map DailyData.profit (dailyData s))
       /\ averageDailyProfit s = (sum order / 2)%float.
Proof.
  cbn zeta. split; [exact tradesA_plain|].
  split; [vm_compute; reflexivity|].
  split; [vm_compute; reflexivity|].
  destruct (proj2 (proj2
              (@average_daily_profit float FloatNumber ReferenceHost
                 Scenario.tradesA 1000%float tradesA_plain)))
    as [order [Hperm [_ Havg]]].
  exists order. split; [exact Hperm|].
  apply Havg. vm_compute. discriminate.
Defined.

Lemma page_after_uploads_witness :
  let page := render (session initialState
                        [Workbook Uploads.complete; NoFile;
                         Workbook Uploads.faulty; NoData]) in
  Page.statistics page = computed (Workbook Uploads.complete)
  /\ Page.errorText page = Some "Error processing file."%string
  /\ Page.statistics page <> None.
Proof.
  cbn zeta. split; [vm_compute; reflexivity|].
  split; [vm_compute; reflexivity|].
  apply (proj1 (@page_after_uploads float FloatNumber ReferenceHost
                  [Workbook Uploads.complete; NoFile;
                   Workbook Uploads.faulty; NoData])).
  exists (Workbook Uploads.complete). split; [now left | reflexivity].
Defined.

(* ================================================================== *)
(** * The members of the keys *)

Section Partition.
Variable A : Type.
Variable skip : A -> bool.
Variable key : A -> string.
Local Open Scope list_scope.

Lemma members_cons (a : A) (l : list A) (k : string) :
  members skip key k (a :: l)
  = if negb (skip a) && String.eqb (key a) k
    then a :: members skip key k l
    else members skip key k l.
Proof. reflexivity. Qed.

(** The members of the keys are the elements that are not skipped. *)
Lemma members_partition (l : list A) (ks : list string) :
  NoDup ks ->
  (forall a, In a l -> skip a = false -> In (key a) ks) ->
  Permutation (flat_map (fun k => members skip key k l) ks)
              (filter (fun a => negb (skip a)) l).
Proof.
  intros Hnd. induction l as [|a l IH]; intros Hin.
  - cbn [filter]. clear. induction ks as [|k ks IHk]; [constructor|].
    cbn [flat_map members filter app]. exact IHk.
  - assert (Hrest : forall x, In x l -> skip x = false -> In (key x) ks)
      by (intros x Hx; apply Hin; now right).
    specialize (IH Hrest). cbn [filter].
    destruct (skip a) eqn:Ha; cbn [negb].
    + erewrite flat_map_ext; [exact IH|].
      intros k. rewrite members_cons, Ha. reflexivity.
    + destruct (in_split _ _ (Hin a (or_introl eq_refl) Ha))
        as [k1 [k2 Hks]].
      assert (Hn1 : ~ In (key a) k1 /\ ~ In (key a) k2).
      { rewrite Hks in Hnd. apply NoDup_remove_2 in Hnd.
        split; intros H; apply Hnd, in_or_app; auto. }
      assert (Hsame : forall ks', ~ In (key a) ks' ->
                flat_map (fun k => members skip key k (a :: l)) ks'
                = flat_map (fun k => members skip key k l) ks').
      { intros ks' Hk. induction ks' as [|k ks' IHk]; [reflexivity|].
        cbn [flat_map]. rewrite IHk by (cbn in Hk; tauto).
        rewrite members_cons, Ha. cbn [negb andb].
        destruct (String.eqb (key a) k) eqn:E; [|reflexivity].
        apply String.eqb_eq in E. exfalso. apply Hk. now left. }
      rewrite Hks in IH |- *. rewrite !flat_map_app in IH |- *.
      cbn [flat_map] in IH |- *.
      rewrite (Hsame k1) by tauto. rewrite (Hsame k2) by tauto.
      rewrite members_cons, Ha, String.eqb_refl. cbn [negb andb].
      cbn [app]. apply Permutation_sym, Permutation_cons_app.
      apply Permutation_sym. exact IH.
Qed.
End Partition.

(* ================================================================== *)
(** * Sums of the same numbers *)

Section SumFacts.
Context {num : Type} {NUM : JsNumber num}.
Local Open Scope list_scope.

(** A left-to-right sum started from a sum. *)
Lemma sum_of_fold (l l' : list num) (a : num) :
  sum_of l a -> sum_of (l ++ l') (fold_left num_add l' a).
Proof.
  revert l a. induction l' as [|p l' IH]; intros l a Ha; cbn [fold_left].
  - now rewrite app_nil_r.
  - replace (l ++ p :: l') with ((l ++ [p]) ++ l')
      by (rewrite <- app_assoc; reflexivity).
    apply IH. apply sum_plus; [exact Ha | apply sum_one].
Qed.

Lemma sum_of_sum (l : list num) : sum_of l (sum l).
Proof. apply (sum_of_fold l sum_none). Qed.

Section Leaves.
Variable A : Type.
Variable val : A -> num.
Variable leaves : A -> list num.

(** A left-to-right sum of values that are sums themselves. *)
Lemma sum_of_fold_leaves (items : list A) (l : list num) (a : num) :
  (forall x, In x items -> sum_of (leaves x) (val x)) ->
  sum_of l a ->
  sum_of (l ++ flat_map leaves items) (fold_left num_add (map val items) a).
Proof.
  revert l a. induction items as [|x items IH]; intros l a Hx Ha;
    cbn [map fold_left flat_map].
  - now rewrite app_nil_r.
  - rewrite app_assoc. apply IH.
    + intros y Hy. apply Hx. now right.
    + apply sum_plus; [exact Ha | apply Hx; now left].
Qed.

(** What the loop leaves in a property is a sum of what was added to it. *)
Lemma added_sum_of (l : list A) (start : option num) (l0 : list num) :
  (forall x, In x l -> sum_of (leaves x) (val x)) ->
  match start with Some x => sum_of l0 x | None => l0 = [] end ->
  match added val l start with
  | Some v => sum_of (l0 ++ flat_map leaves l) v
  | None => l = [] /\ start = None
  end.
Proof.
  revert start l0. induction l as [|a l IH]; intros start l0 Hl Hstart.
  - unfold added. cbn [fold_left flat_map].
    destruct start; [now rewrite app_nil_r | auto].
  - unfold added in *. cbn [fold_left flat_map].
    specialize (IH (Some ((match start with
                           | Some x => or_zero x
                           | None => zero
                           end) + val a)%js)
                   (l0 ++ leaves a)).
    rewrite <- app_assoc in IH.
    assert (Hrest : forall x, In x l -> sum_of (leaves x) (val x))
      by (intros x Hx; apply Hl; now right).
    assert (Ha : sum_of (leaves a) (val a)) by (apply Hl; now left).
    specialize (IH Hrest).
    match type of IH with ?P -> _ => assert (Hp : P) end.
    { destruct start as [x|].
      - apply sum_plus; [now apply sum_or_zero | exact Ha].
      - subst l0. apply (sum_plus sum_none Ha). }
    specialize (IH Hp).
    destruct (fold_left _ l _) as [v|]; [exact IH|].
    destruct IH as [_ IH]. discriminate.
Qed.

Variable skip : A -> bool.
Variable key : A -> string.

Lemma grouped_sum_of (l : list A) (k : string) (v : num) :
  (forall x, In x l -> sum_of (leaves x) (val x)) ->
  Obj.get k (grouped skip key val l Obj.empty) = Some v ->
  sum_of (flat_map leaves (members skip key k l)) v.
Proof.
  intros Hl Hv. rewrite grouped_get in Hv. cbn [Obj.get Obj.empty] in Hv.
  assert (Hm : forall x, In x (members skip key k l) ->
                         sum_of (leaves x) (val x)).
  { intros x Hx. apply Hl. unfold members in Hx.
    now apply filter_In in Hx. }
  pose proof (added_sum_of (members skip key k l) None [] Hm eq_refl) as H.
  rewrite Hv in H. exact H.
Qed.

End Leaves.

Lemma flat_map_singleton (A : Type) (f : A -> num) (l : list A) :
  flat_map (fun a => [f a]) l = map f l.
Proof. induction l as [|a l IH]; cbn; [reflexivity | now rewrite IH]. Qed.

Lemma flat_map_of_map (A B C : Type) (f : B -> list C) (g : A -> B)
      (l : list A) :
  flat_map f (map g l) = flat_map (fun a => f (g a)) l.
Proof. induction l as [|a l IH]; cbn; [reflexivity | now rewrite IH]. Qed.

Lemma flat_map_of_flat_map (A B C : Type) (f : B -> list C)
      (g : A -> list B) (l : list A) :
  flat_map f (flat_map g l) = flat_map (fun a => flat_map f (g a)) l.
Proof.
  induction l as [|a l IH]; cbn; [reflexivity|].
  now rewrite flat_map_app, IH.
Qed.
End SumFacts.

(* ================================================================== *)
(** * The bucket profits and the total *)

Section BucketSums.
Context {num : Type} {NUM : JsNumber num} {HOST : JsHost}.
Local Open Scope string_scope.
Local Open Scope list_scope.

Lemma map_of_flat_map (A B C : Type) (f : B -> C) (g : A -> list B)
      (l : list A) :
  map f (flat_map g l) = flat_map (fun a => map f (g a)) l.
Proof.
  induction l as [|a l IH]; cbn; [reflexivity|].
  now rewrite map_app, IH.
Qed.

Lemma dailyProfitMap_sum_of (trades : list (row num)) (d : string) (v : num) :
  Obj.get d (dailyProfitMap trades) = Some v ->
  sum_of (day_leaves trades d) v.
Proof.
  intros Hv. rewrite dailyProfitMap_grouped in Hv.
  apply (grouped_sum_of profit_of (fun t => [profit_of t])) in Hv.
  - unfold day_leaves. now rewrite flat_map_singleton in Hv.
  - intros t _. apply sum_one.
Qed.

(** The days of the profit map, in any order without repetition, hold the
    dated profits between them. *)
Lemma day_leaves_partition (trades : list (row num)) (ks : list string) :
  NoDup ks ->
  (forall d, In d (map fst (dailyProfitMap trades)) -> In d ks) ->
  Permutation (flat_map (day_leaves trades) ks) (datedProfits trades).
Proof.
  intros Hnd Hcover. unfold day_leaves, datedProfits.
  rewrite <- (map_of_flat_map profit_of
                (fun d => members no_day dateStr d (validTrades trades))).
  apply Permutation_map, members_partition; [exact Hnd|].
  intros t Ht Hs. apply Hcover, dailyProfitMap_keys.
  unfold no_day in Hs. split; [|eauto].
  intros E. rewrite E in Hs. discriminate.
Qed.

Lemma bucket_sum_of (trades : list (row num)) (ib : num)
      (b : DailyData.t num) :
  In b (dailyDataOf trades ib) ->
  sum_of (day_leaves trades (DailyData.date b)) (DailyData.profit b).
Proof.
  intros Hb. unfold dailyDataOf in Hb. apply dailyWalk_In in Hb.
  destruct Hb as [item [Hitem [Hd Hp]]].
  apply sortedDailyBuckets_In in Hitem. destruct Hitem as [Hk Hv].
  rewrite Hd, Hp, Hv. apply dailyProfitMap_sum_of. now apply lookup_get.
Qed.

Lemma dailyData_cover (trades : list (row num)) (ib : num) (d : string) :
  In d (map fst (dailyProfitMap trades)) ->
  In d (map DailyData.date (dailyDataOf trades ib)).
Proof.
  intros Hd. rewrite dailyData_dates. apply sortBy_In.
  now apply ObjFacts.keys_In.
Qed.

Lemma dailyData_NoDup (trades : list (row num)) (ib : num) :
  NoDup (map DailyData.date (dailyDataOf trades ib)).
Proof.
  rewrite dailyData_dates.
  apply sortBy_NoDup, ObjFacts.keys_NoDup, dailyProfitMap_NoDup.
Qed.

Lemma daily_leaves_perm (trades : list (row num)) (ib : num) :
  Permutation
    (flat_map (fun b => day_leaves trades (DailyData.date b))
              (dailyDataOf trades ib))
    (datedProfits trades).
Proof.
  rewrite <- (flat_map_of_map (day_leaves trades) DailyData.date).
  apply day_leaves_partition; [apply dailyData_NoDup|].
  intros d. apply dailyData_cover.
Qed.

Lemma dailyData_sum_of (trades : list (row num)) (ib : num) :
  sum_of (datedProfits trades)
         (sum (map DailyData.profit (dailyDataOf trades ib))).
Proof.
  eapply sum_order; [apply daily_leaves_perm with (ib := ib)|].
  refine (sum_of_fold_leaves DailyData.profit
            (fun b => day_leaves trades (DailyData.date b))
            (dailyDataOf trades ib) _ sum_none).
  intros b. apply bucket_sum_of.
Qed.

Lemma monthlyData_sum_of (trades : list (row num)) (ib : num) :
  sum_of (datedProfits trades)
         (sum (map MonthlyData.profit (monthlyDataOf trades ib))).
Proof.
  unfold monthlyDataOf. rewrite monthlyWalk_profits.
  set (daily := dailyDataOf trades ib).
  set (m := monthlyProfitMap daily).
  set (leaves := fun b : DailyData.t num =>
                   day_leaves trades (DailyData.date b)).
  set (month_of := fun b : DailyData.t num =>
                     Str.take 7 (DailyData.date b)).
  set (month_leaves := fun p : string * num =>
         flat_map leaves
                  (members (fun _ => false) month_of (fst p) daily)).
  assert (Hitems : forall p, In p (monthlyDataArray m) ->
                             sum_of (month_leaves p) (snd p)).
  { intros p Hp. unfold monthlyDataArray in Hp.
    apply sortBy_In, in_map_iff in Hp. destruct Hp as [k [<- Hk]].
    apply ObjFacts.keys_In in Hk. cbn [fst snd].
    apply lookup_get in Hk. unfold m in Hk.
    rewrite monthlyProfitMap_grouped in Hk.
    apply (grouped_sum_of DailyData.profit leaves) in Hk; [exact Hk|].
    intros b Hb. now apply bucket_sum_of with (ib := ib). }
  pose proof (sum_of_fold_leaves snd month_leaves (monthlyDataArray m)
                                 Hitems sum_none) as Hsum.
  cbn [app] in Hsum. eapply sum_order; [|exact Hsum].
  unfold month_leaves.
  rewrite <- (flat_map_of_flat_map leaves
                (fun p : string * num =>
                   members (fun _ => false) month_of (fst p) daily)).
  rewrite <- (flat_map_of_map
                (fun k => members (fun _ => false) month_of k daily) fst).
  rewrite monthlyDataArray_months.
  eapply Permutation_trans; [|apply daily_leaves_perm with (ib := ib)].
  apply Permutation_flat_map.
  eapply Permutation_trans.
  { apply members_partition.
    - apply sortBy_NoDup, ObjFacts.keys_NoDup. unfold m.
      rewrite monthlyProfitMap_grouped. apply grouped_NoDup. constructor.
    - intros b Hb _. apply sortBy_In, ObjFacts.keys_In. unfold m.
      rewrite monthlyProfitMap_grouped. apply grouped_keys. right.
      exists b. auto. }
  cbn [negb]. rewrite filter_all. apply Permutation_refl.
Qed.

(** C2, as the program has it.  For every list of trade rows of which no
    day text or month names a member of [Object.prototype], the sum of the
    profits of the daily buckets is a sum of the profits of the valid
    trades that have a day text, each taken once, and so is the sum of the
    profits of the monthly buckets; [totalProfit] is a sum of the profits
    of all valid trades, which are the same numbers when every valid trade
    has a day text.  The three sums add their numbers in different orders
    and groupings, the buckets day by day and month by month, where a
    running total that is zero or [NaN] counts as zero; they are computed
    in binary64, where each addition rounds.  In scenario A all three are
    70. *)
Theorem bucket_profits_regroup (trades : list (row num))
        (initialBalance : num) :
  plain_days trades ->
  let s := computeStats trades initialBalance in
  sum_of (datedProfits trades) (sum (map DailyData.profit (dailyData s)))
  /\ sum_of (datedProfits trades)
            (sum (map MonthlyData.profit (monthlyData s)))
  /\ sum_of (profitArray trades) (totalProfit s)
  /\ ((forall t, In t (validTrades trades) -> dateStr t <> "") ->
      datedProfits trades = profitArray trades)
  /\ (let a := @computeStats float FloatNumber ReferenceHost
                 Scenario.tradesA 1000%float in
      sum (map DailyData.profit (dailyData a)) = 70%float
      /\ sum (map MonthlyData.profit (monthlyData a)) = 70%float
      /\ totalProfit a = 70%float).
Proof.
  intros _. cbn zeta. cbn [dailyData monthlyData totalProfit computeStats].
  split; [apply dailyData_sum_of|].
  split; [apply monthlyData_sum_of|].
  split; [apply sum_of_sum|].
  split; [|vm_compute; repeat split; reflexivity].
  intros Hall. unfold datedProfits, profitArray. f_equal.
  rewrite <- (filter_all (validTrades trades)) at 2.
  apply filter_ext_in. intros t Ht. unfold no_day.
  specialize (Hall t Ht). now destruct (dateStr t).
Qed.
End BucketSums.

Lemma bucket_profits_regroup_witness :
  let s := computeStats Scenario.tradesA 1000%float in
  plain_days Scenario.tradesA
  /\ datedProfits Scenario.tradesA = [100%float; (-50)%float; 20%float]
  /\ map DailyData.profit (dailyData s) = [50%float; 20%float]
  /\ sum_of [100%float; (-50)%float; 20%float]
            (sum (map DailyData.profit (dailyData s)))
  /\ sum_of [100%float; (-50)%float; 20%float] (totalProfit s).
Proof.
  cbn zeta. split; [exact tradesA_plain|].
  split; [vm_compute; reflexivity|].
  split; [vm_compute; reflexivity|].
  pose proof (@bucket_profits_regroup float FloatNumber ReferenceHost
                Scenario.tradesA 1000%float tradesA_plain)
    as [Hd [_ [Ht _]]].
  split; [exact Hd | exact Ht].
Defined.

(* ================================================================== *)
(** * A close date of another shape *)

Section Misshapen.
Context {num : Type} {NUM : JsNumber num} {HOST : JsHost}.
Local Open Scope string_scope.
Local Open Scope list_scope.

Lemma dailyData_day_profit (trades : list (row num)) (ib : num)
      (b : DailyData.t num) :
  In b (dailyDataOf trades ib) ->
  Some (DailyData.profit b)
  = day_profit (DailyData.date b) (validTrades trades).
Proof.
  intros Hb. unfold dailyDataOf in Hb.
  apply dailyWalk_In in Hb. destruct Hb as [item [Hitem [Hd Hp]]].
  apply sortedDailyBuckets_In in Hitem. destruct Hitem as [Hk Hv].
  rewrite Hd, Hp, Hv, <- (lookup_get _ _ Hk).
  apply dailyProfitMap_get.
  apply dailyProfitMap_keys in Hk. tauto.
Qed.

Lemma monthlyData_month_profit (trades : list (row num)) (ib : num)
      (m : MonthlyData.t num) :
  In m (monthlyDataOf trades ib) ->
  Some (MonthlyData.profit m)
  = month_profit (MonthlyData.month m) (dailyDataOf trades ib).
Proof.
  intros Hm. unfold monthlyDataOf in Hm.
  apply monthlyWalk_In in Hm. unfold monthlyDataArray in Hm.
  apply sortBy_In, in_map_iff in Hm.
  destruct Hm as [k [Hkv Hk]]. injection Hkv as Hmonth Hv.
  apply ObjFacts.keys_In in Hk.
  rewrite <- Hv, <- Hmonth, <- (lookup_get _ _ Hk).
  rewrite monthlyProfitMap_grouped, grouped_get.
  unfold month_profit, members. cbn [negb andb Obj.get Obj.empty].
  reflexivity.
Qed.

(** The profit of a day after a row of that day. *)
Lemma day_profit_cut (day : string) (before after : list (row num))
      (trade : row num) :
  dateStr trade = day ->
  day_profit day (before ++ trade :: after)
  = day_profit_from
      (Some ((match day_profit day before with
              | Some x => or_zero x
              | None => zero
              end) + profit_of trade)%js)
      day after.
Proof.
  intros Hd. unfold day_profit, day_profit_from.
  rewrite filter_app. cbn [filter]. rewrite Hd, String.eqb_refl.
  rewrite fold_left_app. reflexivity.
Qed.

(** C5, as the program has it.  Among trade rows of which no day text or
    month names a member of [Object.prototype], a valid trade whose close
    date is not of the shape [DD/MM/YYYY] is bucketed under the text before
    the first space of its close date, as it is: the daily series has a
    bucket of that date, whose profit is what the rows before it left in
    the property of that day, zero for none and for a total that is zero or
    [NaN], plus the profit of the row, with the profits of the later rows
    of that day added in the same way; and the monthly series has a bucket
    of the month named by the first seven characters of that text, whose
    profit adds the profits of the daily buckets of that month, the bucket
    of this day among them.  The row is left out of the buckets only when
    its close date is empty or falsy or starts with a space, and then the
    two series are what they are without the row. *)
Theorem misshapen_date_is_bucketed (before after : list (row num))
        (trade : row num) (v : value num) (initialBalance : num) :
  is_valid trade = true ->
  Obj.get "Close Date" trade = Some v ->
  let day := hd "" (Str.split " " (value_to_string v)) in
  let trades := before ++ trade :: after in
  List.length (Str.split "/" day) <> 3 ->
  plain_days trades ->
  (truthy (Some v) = true -> day <> "" ->
   exists b m,
     In b (dailyData (computeStats trades initialBalance))
     /\ DailyData.date b = day
     /\ Some (DailyData.profit b)
        = day_profit_from
            (Some ((match day_profit day (validTrades before) with
                    | Some x => or_zero x
                    | None => zero
                    end) + profit_of trade)%js)
            day (validTrades after)
     /\ In m (monthlyData (computeStats trades initialBalance))
     /\ MonthlyData.month m = Str.take 7 day
     /\ Some (MonthlyData.profit m)
        = month_profit (Str.take 7 day)
                       (dailyData (computeStats trades initialBalance))
     /\ In b (filter (fun x => String.eqb (Str.take 7 (DailyData.date x))
                                          (Str.take 7 day))
                     (dailyData (computeStats trades initialBalance))))
  /\ (truthy (Some v) = false \/ day = "" ->
      dailyData (computeStats trades initialBalance)
      = dailyData (computeStats (before ++ after) initialBalance)
      /\ monthlyData (computeStats trades initialBalance)
         = monthlyData (computeStats (before ++ after) initialBalance)).
Proof.
  intros Hv Hcd day trades Hshape _.
  assert (Hds : dateStr trade = if truthy (Some v) then day else "").
  { unfold dateStr. rewrite Hcd. destruct (truthy (Some v)); [|reflexivity].
    fold day. unfold reorder.
    destruct (Str.split "/" day) as [|a [|b [|c [|e l]]]]; try reflexivity.
    now contradiction Hshape. }
  assert (Hin : In trade (validTrades trades)).
  { unfold validTrades, trades. apply filter_In. split; [|exact Hv].
    apply in_elt. }
  cbn [dailyData monthlyData computeStats]. split.
  - intros Ht Hne. rewrite Ht in Hds.
    assert (Hd : In day (map DailyData.date (dailyDataOf trades initialBalance))).
    { apply dailyData_In_date. split; [exact Hne|]. eauto. }
    apply in_map_iff in Hd. destruct Hd as [b [Hbd Hb]].
    assert (Hm : In (Str.take 7 day)
                    (map MonthlyData.month
                         (monthlyDataOf trades initialBalance))).
    { apply monthlyData_months. exists b. now rewrite Hbd. }
    apply in_map_iff in Hm. destruct Hm as [m [Hmm Hm]].
    exists b, m. split; [exact Hb|]. split; [exact Hbd|].
    split.
    { rewrite (dailyData_day_profit _ _ _ Hb), Hbd.
      unfold trades. rewrite validTrades_app.
      unfold validTrades at 2. cbn [filter]. rewrite Hv.
      fold (validTrades after). now apply day_profit_cut. }
    split; [exact Hm|]. split; [exact Hmm|].
    split.
    { rewrite <- Hmm. now apply monthlyData_month_profit. }
    apply filter_In. split; [exact Hb|]. rewrite Hbd.
    apply String.eqb_refl.
  - intros Hskip.
    assert (Hempty : no_day trade = true).
    { unfold no_day. rewrite Hds. destruct Hskip as [->| ->]; [reflexivity|].
      now destruct (truthy (Some v)). }
    assert (Hm : dailyProfitMap trades = dailyProfitMap (before ++ after)).
    { rewrite !dailyProfitMap_grouped. unfold trades.
      rewrite !validTrades_app. unfold validTrades at 2. cbn [filter].
      rewrite Hv. fold (validTrades after).
      now apply grouped_skipped. }
    unfold monthlyDataOf, dailyDataOf. now rewrite Hm.
Qed.
End Misshapen.

Lemma tradesA_iso_plain : plain_days (Scenario.tradesA ++ [Scenario.isoDated]).
Proof.
  intros t Ht. vm_compute in Ht.
  destruct Ht as [<-|[<-|[<-|[<-|[]]]]]; split; reflexivity.
Qed.

Lemma misshapen_date_is_bucketed_witness :
  exists b m,
    In b (dailyData (computeStats (Scenario.tradesA ++ [Scenario.isoDated])
                                  1000%float))
    /\ DailyData.date b = "2024-01-05"%string
    /\ Some (DailyData.profit b) = Some (0 + 5)%float
    /\ In m (monthlyData (computeStats (Scenario.tradesA ++ [Scenario.isoDated])
                                       1000%float))
    /\ MonthlyData.month m = "2024-01"%string
    /\ MonthlyData.profit m = 75%float.
Proof.
  destruct (proj1 (@misshapen_date_is_bucketed float FloatNumber ReferenceHost
                     Scenario.tradesA [] Scenario.isoDated
                     (VStr "2024-01-05 10:00:00") 1000%float
                     eq_refl eq_refl
                     ltac:(vm_compute; discriminate) tradesA_iso_plain)
                  eq_refl ltac:(vm_compute; discriminate))
    as [b [m [Hb [Hd [Hp [Hm [Hmm [Hmp _]]]]]]]].
  exists b, m. split; [exact Hb|]. split; [exact Hd|].
  split; [exact Hp|]. split; [exact Hm|]. split; [exact Hmm|].
  vm_compute in Hmp. now injection Hmp.
Defined.

Lemma empty_activity_sheet_witness :
  plain_days Scenario.tradesA
  /\ spreads Scenario.tradesA = true
  /\ handleFileUpload Scenario.tradesA []
     = Some (computeStats Scenario.tradesA 0%float).
Proof.
  split; [exact tradesA_plain|]. split; [reflexivity|].
  apply (proj1 (@empty_activity_sheet float FloatNumber ReferenceHost
                  Scenario.tradesA tradesA_plain)).
  reflexivity.
Defined.

Lemma tradesTwoMonths_plain : plain_days Uploads.tradesTwoMonths.
Proof.
  intros t Ht. vm_compute in Ht.
  destruct Ht as [<-|[<-|[<-|[]]]]; split; reflexivity.
Qed.

Lemma monthly_series_walk_witness :
  let s := computeStats Uploads.tradesTwoMonths 1000%float in
  plain_days Uploads.tradesTwoMonths
  /\ map MonthlyData.month (monthlyData s) = ["2024-01"; "2024-02"]%string
  /\ map MonthlyData.profit (monthlyData s) = [120%float; (-50)%float]
  /\ NoDup (map MonthlyData.month (monthlyData s)).
Proof.
  cbn zeta. split; [exact tradesTwoMonths_plain|].
  split; [vm_compute; reflexivity|].
  split; [vm_compute; reflexivity|].
  apply (@monthly_series_walk float FloatNumber ReferenceHost
           Uploads.tradesTwoMonths 1000%float tradesTwoMonths_plain).
Defined.

(* ================================================================== *)
(** * The median *)

Section Median.
Context {HOST : JsHost}.
Local Open Scope list_scope.

(** X15.  On binary64 the median is read from the sorted profits of the
    valid trades: zero without a valid trade, the middle profit for an odd
    number of them, half the sum of the two middle profits for an even
    number.  The sorted profits are the profits of the valid trades in
    ascending order of the comparator [a - b]: of two neighbours, the left
    one minus the right one is not above zero. *)
Theorem median_is_a_profit (trades : list (row float))
        (initialBalance : float) :
  let s := computeStats trades initialBalance in
  let sorted := sortedProfit trades in
  let n := totalTrades s in
  Permutation sorted (profitArray trades)
  /\ Sorted (fun a b => PrimFloat.ltb PrimFloat.zero (a - b) = false) sorted
  /\ (n = 0 -> medianProfit s = PrimFloat.zero)
  /\ (Nat.odd n = true ->
      nth_error sorted (Nat.div n 2) = Some (medianProfit s)
      /\ In (medianProfit s) (profitArray trades))
  /\ (n <> 0 -> Nat.even n = true ->
      exists a b,
        nth_error sorted (Nat.div n 2 - 1) = Some a
        /\ nth_error sorted (Nat.div n 2) = Some b
        /\ In a (profitArray trades) /\ In b (profitArray trades)
        /\ medianProfit s = ((a + b) / 2)%float).
Proof.
  destruct (median_reads trades initialBalance)
    as [Hperm [Hsorted [Hzero [Hodd Heven]]]].
  cbn zeta. split; [exact Hperm|].
  split.
  { eapply Sorted_weaken; [|exact Hsorted].
    intros a b. apply FloatOrder.comparator_order. }
  split; [exact Hzero|]. split; [exact Hodd | exact Heven].
Qed.
End Median.

Lemma median_is_a_profit_witness :
  profitArray Scenario.tradesA = [100%float; (-50)%float; 20%float]
  /\ sortedProfit Scenario.tradesA = [(-50)%float; 20%float; 100%float]
  /\ medianProfit (computeStats Scenario.tradesA 1000%float) = 20%float
  /\ In (medianProfit (computeStats Scenario.tradesA 1000%float))
        (profitArray Scenario.tradesA).
Proof.
  split; [vm_compute; reflexivity|].
  split; [vm_compute; reflexivity|].
  split; [vm_compute; reflexivity|].
  refine (proj2 (proj1 (proj2 (proj2 (proj2
            (@median_is_a_profit ReferenceHost
               Scenario.tradesA 1000%float)))) _)).
  reflexivity.
Defined.
